(** * compare-comments: the comment-resolution pipeline

    A shallow embedding of
    - [app/services/comment_analyzer.py]  ([CommentAnalyzer.analyze_comment],
      [CommentAnalyzer._create_error_result]),
    - [app/services/document_processor.py] ([DocumentProcessor.load_comments],
      [process_comments], [process_document]),
    - [app/main.py] ([process_documents], [analyze_documents], [get_status],
      the summary counts of [get_status_html] and the file-name test of
      [startup_event] and [cleanup_old_files]),
    - [app/config.py] (the collection prefixes),
    and the properties of the specification that concern them.

    Python [str] values are sequences of Unicode code points, so they are
    modelled as [list N]; dictionaries decoded from JSON are [gmap]s; the
    services the pipeline talks to (vector store, completion service,
    embedding model, clock, result files) are parameters acting on an
    abstract external state, and every call to them is recorded in a trace.
    The uuid generator and the file operations of the upload endpoint act on
    the same external state without being traced. *)

From Stdlib Require Import ssreflect ZArith NArith String Ascii List Decimal DecimalNat.
From stdpp Require Import base option list gmap.

Set Warnings "-register-all,-rewrite-rw".

(** ** Python strings *)

Abbreviation str := (list N).

Module PyStr.

(** UTF-8 decoding of a source literal into code points. [need] is the number
    of continuation bytes still expected, [acc] the bits gathered so far. *)
Fixpoint utf8 (need : nat) (acc : N) (bs : list N) : str :=
  match bs with
  | [] => []
  | b :: bs' =>
      match need with
      | O =>
          if (b <? 128)%N then b :: utf8 0 0%N bs'
          else if (b <? 224)%N then utf8 1 (b mod 32)%N bs'
          else if (b <? 240)%N then utf8 2 (b mod 16)%N bs'
          else utf8 3 (b mod 8)%N bs'
      | S k =>
          let acc' := (acc * 64 + b mod 64)%N in
          match k with
          | O => acc' :: utf8 0 0%N bs'
          | S _ => utf8 k acc' bs'
          end
      end
  end.

Definition py (s : string) : str :=
  utf8 0 0%N (map N_of_ascii (list_ascii_of_string s)).

(** The same, for literals that contain double quotes: the literal is written
    with an apostrophe (code 39) wherever the source has a double quote
    (code 34). *)
Definition pyq (s : string) : str :=
  map (fun c => if (c =? 39)%N then 34%N else c) (py s).

Arguments py : simpl never.
Arguments pyq : simpl never.

(** [str.isspace] on one code point: the characters [str.strip] removes. *)
Definition isspace (c : N) : bool :=
  ((9 <=? c) && (c <=? 13) || (28 <=? c) && (c <=? 32)
   || (c =? 133) || (c =? 160) || (c =? 5760)
   || (8192 <=? c) && (c <=? 8202)
   || (c =? 8232) || (c =? 8233) || (c =? 8239) || (c =? 8287)
   || (c =? 12288))%N.

Fixpoint lstrip (s : str) : str :=
  match s with
  | [] => []
  | c :: s' => if isspace c then lstrip s' else s
  end.

Definition rstrip (s : str) : str := reverse (lstrip (reverse s)).

(** [s.strip()] *)
Definition strip (s : str) : str := rstrip (lstrip s).

(** [s.startswith(p)] *)
Fixpoint startswith (s p : str) {struct p} : bool :=
  match p, s with
  | [], _ => true
  | _ :: _, [] => false
  | a :: p', b :: s' => (a =? b)%N && startswith s' p'
  end.

(** [s.find(sub)]: the lowest index where [sub] occurs, [-1] if none. *)
Fixpoint find_from (s sub : str) (i : Z) : Z :=
  if startswith s sub then i
  else match s with
       | [] => (-1)%Z
       | _ :: s' => find_from s' sub (i + 1)%Z
       end.

Definition find (s sub : str) : Z := find_from s sub 0%Z.

(** [s.rfind(sub)]: the highest index where [sub] occurs, [-1] if none.
    [last] is the highest occurrence seen to the left of position [i]. *)
Fixpoint rfind_from (s sub : str) (i last : Z) : Z :=
  let last' := if startswith s sub then i else last in
  match s with
  | [] => last'
  | _ :: s' => rfind_from s' sub (i + 1)%Z last'
  end.

Definition rfind (s sub : str) : Z := rfind_from s sub 0%Z (-1)%Z.

(** Slice bounds: a negative bound counts from the end, and both are clipped
    to [0, len]. *)
Definition clip (len i : Z) : Z :=
  if (i <? 0)%Z then Z.max (i + len) 0 else Z.min i len.

(** [s[a:b]] *)
Definition slice (s : str) (a b : Z) : str :=
  let len := Z.of_nat (length s) in
  let a' := clip len a in
  let b' := clip len b in
  take (Z.to_nat (b' - a')) (drop (Z.to_nat a') s).

(** [s[a:]] *)
Definition slice_from (s : str) (a : Z) : str :=
  drop (Z.to_nat (clip (Z.of_nat (length s)) a)) s.

(** [sep.join(parts)] *)
Fixpoint join (sep : str) (parts : list str) : str :=
  match parts with
  | [] => []
  | [p] => p
  | p :: rest => p ++ sep ++ join sep rest
  end.

(** Decimal digits of a Stdlib [Decimal.uint], most significant first. *)
Fixpoint uint_chars (u : Decimal.uint) : str :=
  match u with
  | Decimal.Nil => []
  | Decimal.D0 u' => 48%N :: uint_chars u'
  | Decimal.D1 u' => 49%N :: uint_chars u'
  | Decimal.D2 u' => 50%N :: uint_chars u'
  | Decimal.D3 u' => 51%N :: uint_chars u'
  | Decimal.D4 u' => 52%N :: uint_chars u'
  | Decimal.D5 u' => 53%N :: uint_chars u'
  | Decimal.D6 u' => 54%N :: uint_chars u'
  | Decimal.D7 u' => 55%N :: uint_chars u'
  | Decimal.D8 u' => 56%N :: uint_chars u'
  | Decimal.D9 u' => 57%N :: uint_chars u'
  end.

(** [str(n)] for a non-negative integer, as in an f-string [{n}]. *)
Definition str_of_nat (n : nat) : str := uint_chars (Nat.to_uint n).

(** Iterating a text file opened with the default [newline=None]: the three
    line endings are read as one line feed, and each line keeps its line
    feed; a last line without one is still a line. [cur] is the current line
    in reverse. *)
Fixpoint lines_from (cur : str) (s : str) : list str :=
  match s with
  | [] => match cur with [] => [] | _ :: _ => [reverse cur] end
  | 13%N :: 10%N :: s' => reverse (10%N :: cur) :: lines_from [] s'
  | 13%N :: s' => reverse (10%N :: cur) :: lines_from [] s'
  | 10%N :: s' => reverse (10%N :: cur) :: lines_from [] s'
  | c :: s' => lines_from (c :: cur) s'
  end.

Definition file_lines (content : str) : list str := lines_from [] content.

(** [posixpath.join(a, b)] for a non-empty [a]. *)
Definition path_join (a b : str) : str :=
  if startswith b [47%N] then b
  else if startswith (reverse a) [47%N] then a ++ b
  else a ++ 47%N :: b.

End PyStr.
Export PyStr.

(** ** Python values and exceptions *)

(** The values [json.loads] can return. A float keeps its lexeme: no claim
    depends on its numeric value. *)
Inductive PyVal :=
| PyNone
| PyBool (b : bool)
| PyInt (z : Z)
| PyFloat (lexeme : str)
| PyStr (s : str)
| PyList (l : list PyVal)
| PyDict (d : gmap str PyVal).

(** [type(v).__name__] *)
Definition type_name (v : PyVal) : str :=
  match v with
  | PyNone => py "NoneType"
  | PyBool _ => py "bool"
  | PyInt _ => py "int"
  | PyFloat _ => py "float"
  | PyStr _ => py "str"
  | PyList _ => py "list"
  | PyDict _ => py "dict"
  end.

Inductive exn_class :=
| JSONDecodeError | AttributeError | KeyError | PlainException | ServiceError.

(** An exception object: its class and [str(e)]. *)
Record exn := mkExn { exn_cls : exn_class; exn_str : str }.

(** The result of running a piece of Python: a value or a raised exception. *)
Inductive outcome (A : Type) :=
| Ret (a : A)
| Raise (e : exn).
Arguments Ret {A} a.
Arguments Raise {A} e.

#[export] Instance outcome_ret : MRet outcome := fun _ a => Ret a.
#[export] Instance outcome_bind : MBind outcome := fun _ _ f m =>
  match m with
  | Ret a => f a
  | Raise e => Raise e
  end.

(** [v.get(key, default)]: only a dict has the method. *)
Definition py_get (v : PyVal) (key : str) (dflt : PyVal) : outcome PyVal :=
  match v with
  | PyDict d => Ret (default dflt (d !! key))
  | _ => Raise (mkExn AttributeError
                  (py "'" ++ type_name v ++ py "' object has no attribute 'get'"))
  end.

(** ** A reference JSON decoder

    [json.loads] belongs to the Python standard library, and the pipeline
    below takes it as a parameter. This decoder follows the same grammar
    (whitespace, objects with the last of two equal keys winning, arrays,
    strings with the one-letter escapes, numbers, the three literals) except
    for [\u] escapes and the [NaN]/[Infinity] literals, which it rejects; its
    error messages are schematic. It is used to run the pipeline on concrete
    responses. *)
Module Json.

Definition is_ws (c : N) : bool :=
  ((c =? 32) || (c =? 9) || (c =? 10) || (c =? 13))%N.

Fixpoint skip_ws (s : str) : str :=
  match s with
  | [] => []
  | c :: s' => if is_ws c then skip_ws s' else s
  end.

Definition is_digit (c : N) : bool := ((48 <=? c) && (c <=? 57))%N.

Fixpoint digits (s : str) : str * str :=
  match s with
  | [] => ([], [])
  | c :: s' =>
      if is_digit c then let '(d, r) := digits s' in (c :: d, r) else ([], s)
  end.

Definition digits_value (d : str) : Z :=
  fold_left (fun acc c => (acc * 10 + Z.of_N (c - 48))%Z) d 0%Z.

Definition unescape (c : N) : option N :=
  if (c =? 34)%N then Some 34%N            (* quote *)
  else if (c =? 92)%N then Some 92%N       (* backslash *)
  else if (c =? 47)%N then Some 47%N       (* slash *)
  else if (c =? 98)%N then Some 8%N        (* b *)
  else if (c =? 102)%N then Some 12%N      (* f *)
  else if (c =? 110)%N then Some 10%N      (* n *)
  else if (c =? 114)%N then Some 13%N      (* r *)
  else if (c =? 116)%N then Some 9%N       (* t *)
  else None.

(** The body of a string, after its opening quote. *)
Fixpoint string_body (s : str) : option (str * str) :=
  match s with
  | [] => None
  | c :: r =>
      if (c =? 34)%N then Some ([], r)
      else if (c =? 92)%N then
        match r with
        | [] => None
        | e :: r' =>
            match unescape e, string_body r' with
            | Some x, Some (body, rest) => Some (x :: body, rest)
            | _, _ => None
            end
        end
      else if (c <? 32)%N then None
      else match string_body r with
           | Some (body, rest) => Some (c :: body, rest)
           | None => None
           end
  end.

Definition number (s : str) : option (PyVal * str) :=
  let '(neg, s1) :=
    match s with
    | c :: r => if (c =? 45)%N then (true, r) else (false, s)
    | [] => (false, s)
    end in
  let '(ip, s2) :=
    match s1 with
    | c :: r => if (c =? 48)%N then ([48%N], r) else digits s1
    | [] => ([], s1)
    end in
  match ip with
  | [] => None
  | _ :: _ =>
      let '(frac, s3) :=
        match s2 with
        | c :: r =>
            if (c =? 46)%N then
              match digits r with
              | ([], _) => ([], s2)
              | (d, r') => (c :: d, r')
              end
            else ([], s2)
        | [] => ([], s2)
        end in
      let '(ex, s4) :=
        match s3 with
        | c :: r =>
            if ((c =? 101) || (c =? 69))%N then
              let '(sg, r1) :=
                match r with
                | g :: r' =>
                    if ((g =? 43) || (g =? 45))%N then ([g], r') else ([], r)
                | [] => ([], r)
                end in
              match digits r1 with
              | ([], _) => ([], s3)
              | (d, r') => (c :: sg ++ d, r')
              end
            else ([], s3)
        | [] => ([], s3)
        end in
      match frac, ex with
      | [], [] =>
          Some (PyInt (if neg then - digits_value ip else digits_value ip)%Z, s4)
      | _, _ =>
          Some (PyFloat ((if neg then [45%N] else []) ++ ip ++ frac ++ ex), s4)
      end
  end.

(** One JSON value at the front of [s]; [fuel] bounds the nesting and the
    number of members, and the length of the text is always enough. *)
Fixpoint value (fuel : nat) (s : str) : option (PyVal * str) :=
  match fuel with
  | O => None
  | S n =>
      match skip_ws s with
      | [] => None
      | c :: r =>
          if (c =? 123)%N then
            match skip_ws r with
            | c' :: r' =>
                if (c' =? 125)%N then Some (PyDict ∅, r') else members n r ∅
            | [] => None
            end
          else if (c =? 91)%N then
            match skip_ws r with
            | c' :: r' =>
                if (c' =? 93)%N then Some (PyList [], r') else elements n r []
            | [] => None
            end
          else if (c =? 34)%N then
            match string_body r with
            | Some (body, rest) => Some (PyStr body, rest)
            | None => None
            end
          else if startswith (c :: r) (py "true") then
            Some (PyBool true, drop 4 (c :: r))
          else if startswith (c :: r) (py "false") then
            Some (PyBool false, drop 5 (c :: r))
          else if startswith (c :: r) (py "null") then
            Some (PyNone, drop 4 (c :: r))
          else number (c :: r)
      end
  end
with members (fuel : nat) (s : str) (acc : gmap str PyVal)
  : option (PyVal * str) :=
  match fuel with
  | O => None
  | S n =>
      match skip_ws s with
      | c :: r =>
          if (c =? 34)%N then
            match string_body r with
            | Some (key, r1) =>
                match skip_ws r1 with
                | c1 :: r2 =>
                    if (c1 =? 58)%N then
                      match value n r2 with
                      | Some (v, r3) =>
                          match skip_ws r3 with
                          | c3 :: r4 =>
                              if (c3 =? 44)%N then members n r4 (<[key := v]> acc)
                              else if (c3 =? 125)%N
                                   then Some (PyDict (<[key := v]> acc), r4)
                                   else None
                          | [] => None
                          end
                      | None => None
                      end
                    else None
                | [] => None
                end
            | None => None
            end
          else None
      | [] => None
      end
  end
with elements (fuel : nat) (s : str) (acc : list PyVal)
  : option (PyVal * str) :=
  match fuel with
  | O => None
  | S n =>
      match value n s with
      | Some (v, r) =>
          match skip_ws r with
          | c :: r' =>
              if (c =? 44)%N then elements n r' (acc ++ [v])
              else if (c =? 93)%N then Some (PyList (acc ++ [v]), r')
              else None
          | [] => None
          end
      | None => None
      end
  end.

Definition loads (s : str) : outcome PyVal :=
  match value (S (length s)) s with
  | Some (v, r) =>
      match skip_ws r with
      | [] => Ret v
      | _ :: _ => Raise (mkExn JSONDecodeError (py "Extra data"))
      end
  | None => Raise (mkExn JSONDecodeError (py "Expecting value"))
  end.

End Json.

(** ** Configuration ([app/config.py]) *)

Module settings.
Definition QDRANT_COLLECTION_V1_PREFIX : str := Eval vm_compute in py "doc_v1_".
Definition QDRANT_COLLECTION_V2_PREFIX : str := Eval vm_compute in py "doc_v2_".
Definition DEFAULT_DOC_PREFIX : str := Eval vm_compute in py "search_document: ".
Definition DEFAULT_COMMENT_PREFIX : str := Eval vm_compute in py "search_query: ".
End settings.

(** ** Records of the pipeline *)

(** One entry of the final report: the dict [analyze_comment] returns. The
    five judgment fields hold whatever JSON value the completion carried. *)
Record AnalysisResult := mkResult {
  res_comment_id : str;
  res_comment_text : str;
  explanation : PyVal;
  evidence_v1 : PyVal;
  evidence_v2 : PyVal;
  suggestion : PyVal;
  status : PyVal
}.

(** A value stored under a key of a task's record in [results_store]. *)
Inductive TaskVal :=
| TNone
| TStr (s : str)
| TResults (results : list AnalysisResult).

(** A search hit, of which the analyzer reads [hit.payload['text']]. *)
Record Hit := mkHit { payload_text : str }.

Section Pipeline.

(** [Embedding] is a vector of floats as the embedding model returns it, [E]
    the state of everything outside the process. *)
Context {Embedding E : Type}.

(** A comment dict; the key [embedding] is only there once
    [process_comments] has set it. *)
Record Comment := mkComment {
  comment_id : str;
  comment_text : str;
  embedding : option Embedding
}.

Record Chunk := mkChunk {
  text : str;
  chunk_embedding : Embedding;
  chunk_index : nat
}.

Record ProcessedDoc := mkDoc {
  original_text : str;
  chunks : list Chunk
}.

(** The calls that leave the process, in the order they are made. *)
Inductive Call :=
| CallSearch (collection : str) (query : Embedding) (k : nat)
| CallRecreateCollection (collection : str)
| CallUpsertChunks (collection : str) (cs : list Chunk)
| CallGetCompletion (prompt : str)
| CallEncode (texts : list str) (prefix : str)
| CallWriteResults (path : str) (results : list AnalysisResult)
| CallNow.

Record World := mkWorld {
  results_store : gmap str (gmap str TaskVal);
  external : E;
  calls : list Call
}.

(** Computations that read and write the world and may raise. *)
Definition M (A : Type) : Type := World -> outcome A * World.

#[local] Instance M_ret : MRet M := fun _ a w => (Ret a, w).
#[local] Instance M_bind : MBind M := fun _ _ f m w =>
  match m w with
  | (Ret a, w') => f a w'
  | (Raise e, w') => (Raise e, w')
  end.

Definition raise {A} (e : exn) : M A := fun w => (Raise e, w).

(** [try: body  except Exception as e: handler e] *)
Definition try_except {A} (body : M A) (handler : exn -> M A) : M A :=
  fun w =>
    match body w with
    | (Ret a, w') => (Ret a, w')
    | (Raise e, w') => handler e w'
    end.

(** A call to an outside service: it is appended to the trace, and the
    service answers from, and may change, the external state. *)
Definition call {A} (c : Call) (op : E -> outcome A * E) : M A :=
  fun w =>
    let '(o, e') := op (external w) in
    (o, mkWorld (results_store w) e' (calls w ++ [c])).

(** [results_store[task_id][key] = v] *)
Definition set_task_field (task_id key : str) (v : TaskVal) : M unit :=
  fun w =>
    match results_store w !! task_id with
    | None => (Raise (mkExn KeyError (py "'" ++ task_id ++ py "'")), w)
    | Some t =>
        (Ret tt,
         mkWorld (<[task_id := <[key := v]> t]> (results_store w))
                 (external w) (calls w))
    end.

(** [results_store[task_id]], evaluated for its record: in
    [results_store[task_id].update({...})] Python looks the record up before
    it evaluates the argument. *)
Definition require_task (task_id : str) : M unit :=
  fun w =>
    match results_store w !! task_id with
    | None => (Raise (mkExn KeyError (py "'" ++ task_id ++ py "'")), w)
    | Some _ => (Ret tt, w)
    end.

(** [results_store[task_id].update({k1: v1, ...})], once the argument has
    been evaluated. *)
Definition update_task (task_id : str) (kvs : list (str * TaskVal)) : M unit :=
  fun w =>
    match results_store w !! task_id with
    | None => (Raise (mkExn KeyError (py "'" ++ task_id ++ py "'")), w)
    | Some t =>
        (Ret tt,
         mkWorld (<[task_id := fold_left (fun t kv => <[kv.1 := kv.2]> t) kvs t]>
                    (results_store w))
                 (external w) (calls w))
    end.

(** *** The collaborators

    [VectorStoreService] and [LLMClient] are modules of the repository that
    the pipeline only calls; [json.loads], the sentence-transformers model,
    the text splitter, the clock and the file system are libraries. A
    completion is a string or [None]; any of the services may raise. *)
Variable vector_store_search :
  str -> Embedding -> nat -> E -> outcome (list Hit) * E.
Variable vector_store_recreate_collection : str -> E -> outcome unit * E.
Variable vector_store_upsert_chunks : str -> list Chunk -> E -> outcome unit * E.
Variable llm_client_get_completion : str -> E -> outcome (option str) * E.
Variable json_loads : str -> outcome PyVal.
Variable embedding_model_encode :
  list str -> str -> E -> outcome (list Embedding) * E.
Variable text_splitter_split_text : str -> list str.
Variable datetime_now_isoformat : E -> str * E.
Variable json_dump_to_file :
  str -> list AnalysisResult -> E -> outcome unit * E.

(** The uploaded files, which do not change while a task runs: [fs p] is
    [None] when [os.path.exists(p)] is false, [Some (Raise e)] when reading
    the file as UTF-8 text raises, [Some (Ret content)] otherwise. *)
Variable fs : str -> option (outcome str).

(** [DocumentProcessor.load_document_text]: the text of a [.txt] or [.pdf]
    file, [None] for a missing, unsupported or unreadable one. The handling
    of file formats is input staging that no property below depends on. *)
Variable load_document_text : str -> option str.

(** ** [CommentAnalyzer] *)

Definition top_k : nat := 10.

Definition nl : str := [10%N].

Definition prompt_head : str := Eval vm_compute in py "
You are an expert document analyst. Determine if a comment made on an earlier document version was addressed in a newer version.

Comment:
".

Definition prompt_v1 : str := Eval vm_compute in py "

Relevant text from VERSION 1 of the document:
".

Definition prompt_v2 : str := Eval vm_compute in py "

Relevant text from VERSION 2 of the document:
".

Definition prompt_tail : str := Eval vm_compute in pyq "

Based ONLY on the provided texts, determine if the comment was addressed in version 2.
Your response MUST be ONLY a single, valid JSON object. Do NOT include ```json markers, introductory sentences, or any text outside the JSON object itself.
Strictly adhere to JSON syntax: use double quotes ('') for all keys and all string values. Do not use single quotes for keys.

The JSON object MUST contain these fields, with string values in Russian:
- 'explanation': Detailed explanation of whether and how the comment was addressed.
- 'evidence_v1': Relevant evidence text from version 1.
- 'evidence_v2': Relevant evidence text from version 2 showing if/how the comment was addressed.
- 'suggestion': Suggestion for further improvements if needed (empty string if none).
- 'status': Exactly one of: 'учтен', 'не учтен', 'частично учтен'.

Example of the required EXACT output format:
{
  'explanation': 'Комментарий был полностью учтен путем добавления нового раздела 3.2.',
  'evidence_v1': 'Раздел 3 отсутствует.',
  'evidence_v2': 'Раздел 3.2: Описание новой функции.',
  'suggestion': '',
  'status': 'учтен'
}

Now, generate the JSON object for the provided comment and texts. Respond ONLY with the JSON object.
".

(** ["\n\n".join([f"Chunk {i+1}:\n{hit.payload['text']}" for i, hit in
    enumerate(results)])] *)
Definition evidence_text (results : list Hit) : str :=
  join (nl ++ nl)
    (imap (fun i hit => py "Chunk " ++ str_of_nat (i + 1) ++ py ":" ++ nl
                        ++ payload_text hit) results).

Definition build_prompt (comment : Comment) (v1_text v2_text : str) : str :=
  prompt_head ++ comment_text comment ++ prompt_v1 ++ v1_text
  ++ prompt_v2 ++ v2_text ++ prompt_tail.

(** [CommentAnalyzer._create_error_result]. An exception object is always
    truthy, so [if error] only asks whether one was passed. *)
Definition _create_error_result
    (comment : Comment) (error : option exn) (json_text : str)
  : AnalysisResult :=
  let error_message :=
    match error with
    | Some e => py "Error analyzing comment: " ++ exn_str e
    | None => py "Error analyzing comment (Unknown)"
    end in
  {| res_comment_id := comment_id comment;
     res_comment_text := comment_text comment;
     explanation := PyStr error_message;
     evidence_v1 := PyStr json_text;
     evidence_v2 := PyStr [];
     suggestion := PyStr [];
     status := PyStr (py "error") |}.

(** Lines 81-86: the text handed to [json.loads]. *)
Definition candidate_json (llm_response : str) : str :=
  let json_text := strip llm_response in
  let first_brace := find json_text (py "{") in
  let last_brace := rfind json_text (py "}") in
  if negb (first_brace =? -1)%Z && negb (last_brace =? -1)%Z
  then slice json_text first_brace (last_brace + 1)%Z
  else json_text.

(** Lines 90-98: the dict built from the decoded value. The first [.get]
    raises when the value is not a dict. *)
Definition result_of_json (comment : Comment) (result : PyVal)
  : outcome AnalysisResult :=
  e ← py_get result (py "explanation") (PyStr (py "No explanation provided"));
  v1 ← py_get result (py "evidence_v1") (PyStr (py "No evidence provided"));
  v2 ← py_get result (py "evidence_v2") (PyStr (py "No evidence provided"));
  sg ← py_get result (py "suggestion") (PyStr []);
  st ← py_get result (py "status") (PyStr (py "не учтен"));
  mret {| res_comment_id := comment_id comment;
          res_comment_text := comment_text comment;
          explanation := e;
          evidence_v1 := v1;
          evidence_v2 := v2;
          suggestion := sg;
          status := st |}.

(** Lines 74-105: what [analyze_comment] does with the completion. *)
Definition interpret_completion
    (comment : Comment) (llm_response : option str) : AnalysisResult :=
  match llm_response with
  | None | Some [] => _create_error_result comment None []
  | Some llm_response =>
      let json_text := candidate_json llm_response in
      match json_loads json_text ≫= result_of_json comment with
      | Ret r => r
      | Raise e => _create_error_result comment (Some e) json_text
      end
  end.

(** [datetime.now().isoformat()] *)
Definition now_isoformat : M str :=
  call CallNow (fun e => let '(s, e') := datetime_now_isoformat e in (Ret s, e')).

(** [comment["embedding"]] *)
Definition get_embedding (comment : Comment) : M Embedding :=
  match embedding comment with
  | Some v => mret v
  | None => raise (mkExn KeyError (py "'embedding'"))
  end.

(** Lines 17-73: the two searches and the completion request. *)
Definition request_completion (comment : Comment) (doc_base_name : str)
  : M (option str) :=
  let v1_collection := settings.QDRANT_COLLECTION_V1_PREFIX ++ doc_base_name in
  let v2_collection := settings.QDRANT_COLLECTION_V2_PREFIX ++ doc_base_name in
  q1 ← get_embedding comment;
  v1_results ← call (CallSearch v1_collection q1 top_k)
                    (vector_store_search v1_collection q1 top_k);
  q2 ← get_embedding comment;
  v2_results ← call (CallSearch v2_collection q2 top_k)
                    (vector_store_search v2_collection q2 top_k);
  let v1_text := evidence_text v1_results in
  let v2_text := evidence_text v2_results in
  let prompt := build_prompt comment v1_text v2_text in
  call (CallGetCompletion prompt) (llm_client_get_completion prompt).

Definition analyze_comment (comment : Comment) (doc_base_name : str)
  : M AnalysisResult :=
  llm_response ← request_completion comment doc_base_name;
  mret (interpret_completion comment llm_response).

(** ** [DocumentProcessor] *)

(** The loop of [load_comments] over [enumerate(f)]; [i] is the index
    [enumerate] has reached. *)
Fixpoint read_comments (i : nat) (lines : list str) : list Comment :=
  match lines with
  | [] => []
  | line :: rest =>
      let text := strip line in
      match text with
      | [] => read_comments (S i) rest
      | _ :: _ =>
          {| comment_id := py "C" ++ str_of_nat (i + 1);
             comment_text := text;
             embedding := None |} :: read_comments (S i) rest
      end
  end.

(** The path [load_comments] opens: the given one, or the one under [/app]. *)
Definition resolve_path (file_path : str) : option str :=
  match fs file_path with
  | Some _ => Some file_path
  | None =>
      match fs (path_join (py "/app") file_path) with
      | Some _ => Some (path_join (py "/app") file_path)
      | None => None
      end
  end.

Definition load_comments (file_path : str) : option (list Comment) :=
  match resolve_path file_path with
  | None => None
  | Some path =>
      match fs path with
      | Some (Ret content) => Some (read_comments 0 (file_lines content))
      | Some (Raise _) | None => None
      end
  end.

(** [for comment, embedding in zip(comments, embeddings):
       comment["embedding"] = embedding.tolist()]
    and the list that is returned is [comments], whatever the number of
    embeddings. *)
Fixpoint set_embeddings (comments : list Comment) (embeddings : list Embedding)
  : list Comment :=
  match comments, embeddings with
  | c :: cs, e :: es =>
      {| comment_id := comment_id c;
         comment_text := comment_text c;
         embedding := Some e |} :: set_embeddings cs es
  | _, _ => comments
  end.

Definition process_comments (file_path : str) : M (option (list Comment)) :=
  match load_comments file_path with
  | None => mret None
  | Some [] => mret (Some [])
  | Some comments =>
      let texts := map comment_text comments in
      try_except
        (embeddings ←
           call (CallEncode texts settings.DEFAULT_COMMENT_PREFIX)
                (embedding_model_encode texts settings.DEFAULT_COMMENT_PREFIX);
         mret (Some (set_embeddings comments embeddings)))
        (fun _ => mret None)
  end.

(** [enumerate(zip(chunks, embeddings))] turned into chunk dicts. *)
Fixpoint make_chunks (i : nat) (texts : list str) (embeddings : list Embedding)
  : list Chunk :=
  match texts, embeddings with
  | t :: ts, e :: es =>
      {| text := t; chunk_embedding := e; chunk_index := i |}
      :: make_chunks (S i) ts es
  | _, _ => []
  end.

Definition process_document (file_path : str) : M (option ProcessedDoc) :=
  match load_document_text file_path with
  | None | Some [] => mret None
  | Some text =>
      match text_splitter_split_text text with
      | [] => mret (Some {| original_text := text; chunks := [] |})
      | pieces =>
          try_except
            (embeddings ←
               call (CallEncode pieces settings.DEFAULT_DOC_PREFIX)
                    (embedding_model_encode pieces settings.DEFAULT_DOC_PREFIX);
             mret (Some {| original_text := text;
                           chunks := make_chunks 0 pieces embeddings |}))
            (fun _ => mret None)
      end
  end.

(** ** [process_documents] ([app/main.py]) *)

(** [if not processed or not processed.get("chunks"): raise Exception(msg)] *)
Definition require_chunks (processed : option ProcessedDoc) (msg : str)
  : M (list Chunk) :=
  match processed with
  | Some doc =>
      match chunks doc with
      | [] => raise (mkExn PlainException msg)
      | cs => mret cs
      end
  | None => raise (mkExn PlainException msg)
  end.

(** [if not processed_comments: raise Exception(msg)] *)
Definition require_comments (processed : option (list Comment)) (msg : str)
  : M (list Comment) :=
  match processed with
  | Some (c :: cs) => mret (c :: cs)
  | Some [] | None => raise (mkExn PlainException msg)
  end.

(** [if name.startswith(prefix): name = name[len(prefix):]] *)
Definition strip_prefix (name prefix : str) : str :=
  if startswith name prefix
  then slice_from name (Z.of_nat (length prefix))
  else name.

(** Lines 571-577: the loop over the two configured prefixes. *)
Definition clean_base_name (doc_base_name : str) : str :=
  fold_left strip_prefix
    [settings.QDRANT_COLLECTION_V1_PREFIX; settings.QDRANT_COLLECTION_V2_PREFIX]
    doc_base_name.

Definition v1_collection (doc_base_name task_id : str) : str :=
  settings.QDRANT_COLLECTION_V1_PREFIX ++ clean_base_name doc_base_name
  ++ py "-" ++ task_id.

Definition v2_collection (doc_base_name task_id : str) : str :=
  settings.QDRANT_COLLECTION_V2_PREFIX ++ clean_base_name doc_base_name
  ++ py "-" ++ task_id.

(** Lines 600-607: the loop over [enumerate(processed_comments)]; [i] is the
    index reached and [results] the list built so far. *)
Fixpoint analyze_loop (task_id analysis_base_name : str) (total : nat)
    (i : nat) (comments : list Comment) (results : list AnalysisResult)
  : M (list AnalysisResult) :=
  match comments with
  | [] => mret results
  | comment :: rest =>
      set_task_field task_id (py "comment_progress")
        (TStr (str_of_nat (i + 1) ++ py "/" ++ str_of_nat total));;
      result ← analyze_comment comment analysis_base_name;
      analyze_loop task_id analysis_base_name total (S i) rest
        (results ++ [result])
  end.

(** The messages of the three exceptions [process_documents] raises itself
    (lines 546, 555 and 564). *)
Definition v1_failure (doc_v1_path : str) : str :=
  py "Failed to process document v1 or no text extracted: " ++ doc_v1_path.
Definition v2_failure (doc_v2_path : str) : str :=
  py "Failed to process document v2 or no text extracted: " ++ doc_v2_path.
Definition comments_failure (comments_path : str) : str :=
  py "Failed to process comments or no comments found: " ++ comments_path.

(** The body of the [try] of [process_documents]. The [await
    asyncio.sleep(0)] after each progress update only yields to other tasks,
    which write to their own records and collections, and is left out. *)
Definition process_documents_body
    (task_id doc_v1_path doc_v2_path comments_path doc_base_name : str)
  : M unit :=
  set_task_field task_id (py "progress") (TStr (py "processing_v1"));;
  processed_v1 ← process_document doc_v1_path;
  chunks_v1 ← require_chunks processed_v1 (v1_failure doc_v1_path);
  set_task_field task_id (py "progress") (TStr (py "processing_v2"));;
  processed_v2 ← process_document doc_v2_path;
  chunks_v2 ← require_chunks processed_v2 (v2_failure doc_v2_path);
  set_task_field task_id (py "progress") (TStr (py "processing_comments"));;
  processed_comments ← process_comments comments_path;
  comments ← require_comments processed_comments
    (comments_failure comments_path);
  set_task_field task_id (py "progress") (TStr (py "creating_vector_db"));;
  let v1 := v1_collection doc_base_name task_id in
  let v2 := v2_collection doc_base_name task_id in
  call (CallRecreateCollection v1) (vector_store_recreate_collection v1);;
  call (CallUpsertChunks v1 chunks_v1) (vector_store_upsert_chunks v1 chunks_v1);;
  call (CallRecreateCollection v2) (vector_store_recreate_collection v2);;
  call (CallUpsertChunks v2 chunks_v2) (vector_store_upsert_chunks v2 chunks_v2);;
  set_task_field task_id (py "progress") (TStr (py "analyzing_comments"));;
  let total_comments := length comments in
  let analysis_base_name := clean_base_name doc_base_name ++ py "-" ++ task_id in
  results ← analyze_loop task_id analysis_base_name total_comments 0 comments [];
  set_task_field task_id (py "progress") (TStr (py "saving_results"));;
  let results_file := py "results_" ++ task_id ++ py ".json" in
  let results_path := path_join (py "results") results_file in
  call (CallWriteResults results_path results)
       (json_dump_to_file results_path results);;
  require_task task_id;;
  now ← now_isoformat;
  update_task task_id
    [(py "status", TStr (py "completed"));
     (py "progress", TStr (py "completed"));
     (py "completed_at", TStr now);
     (py "result", TResults results);
     (py "results_path", TStr results_path)].

Definition process_documents
    (task_id doc_v1_path doc_v2_path comments_path doc_base_name : str)
  : M unit :=
  try_except
    (process_documents_body task_id doc_v1_path doc_v2_path comments_path
       doc_base_name)
    (fun e =>
       require_task task_id;;
       now ← now_isoformat;
       update_task task_id
         [(py "status", TStr (py "error"));
          (py "progress", TStr (py "error"));
          (py "error", TStr (exn_str e));
          (py "completed_at", TStr now)]).

(** The three values the prompt allows for ["status"] (line 59). *)
Definition allowed_statuses : list str :=
  [py "учтен"; py "не учтен"; py "частично учтен"].


(** A line that [load_comments] keeps: not empty once stripped. *)
Definition nonblank (line : str) : bool :=
  match strip line with
  | [] => false
  | _ :: _ => true
  end.

(** The specification's wording of the ids: the n-th non-blank line gets
    [C<n>], counting from one. *)
Definition spec_comment_ids (lines : list str) : list str :=
  imap (fun n _ => py "C" ++ str_of_nat (n + 1)) (filter nonblank lines).


(** [name] starts with one of the two configured prefixes. *)
Definition has_version_prefix (name : str) : bool :=
  startswith name settings.QDRANT_COLLECTION_V1_PREFIX
  || startswith name settings.QDRANT_COLLECTION_V2_PREFIX.

(** The specification's "double-prefixed": a version prefix followed by
    another version prefix. *)
Definition double_prefixed (name : str) : bool :=
  existsb
    (fun p => startswith name p
              && has_version_prefix (slice_from name (Z.of_nat (length p))))
    [settings.QDRANT_COLLECTION_V1_PREFIX; settings.QDRANT_COLLECTION_V2_PREFIX].


(** A call to the vector store. *)
Definition is_vector_store_call (c : Call) : bool :=
  match c with
  | CallSearch _ _ _ | CallRecreateCollection _ | CallUpsertChunks _ _ => true
  | CallGetCompletion _ | CallEncode _ _ | CallWriteResults _ _ | CallNow => false
  end.


(** [process_document] turns the file into at least one chunk when the
    embedding model is called in external state [e], and leaves [e']. *)
Definition document_ok (file_path : str) (e e' : E) : Prop :=
  exists text embeddings,
    load_document_text file_path = Some text /\
    text <> [] /\
    embedding_model_encode (text_splitter_split_text text)
      settings.DEFAULT_DOC_PREFIX e = (Ret embeddings, e') /\
    make_chunks 0 (text_splitter_split_text text) embeddings <> [].


(** [w'] has the same task records as [w], and the calls made in between
    are none of them to the vector store. *)
Definition quiet (w w' : World) : Prop :=
  results_store w' = results_store w /\
  exists extra,
    calls w' = calls w ++ extra /\
    Forall (fun c => is_vector_store_call c = false) extra.

(** [results_store[task_id].get(key)], when the task is registered. *)
Definition task_field (w : World) (task_id key : str) : option TaskVal :=
  results_store w !! task_id ≫= (fun t => t !! key).

(** From [w] to [w'] no task record was created or deleted, and the only
    fields that may have changed are the fields [keys] of the record of
    [task_id]. *)
Definition writes_only (task_id : str) (keys : list str) (w w' : World) : Prop :=
  (forall other, other <> task_id ->
                 results_store w' !! other = results_store w !! other) /\
  (is_Some (results_store w' !! task_id) <->
   is_Some (results_store w !! task_id)) /\
  (forall key, key ∉ keys ->
               task_field w' task_id key = task_field w task_id key).

(** A computation that, however it ends, writes only those fields. *)
Definition keeps (task_id : str) (keys : list str) {A} (m : M A) : Prop :=
  forall w, writes_only task_id keys w (m w).2.

(** A computation that, when it raises, has written only those fields. *)
Definition keeps_on_raise (task_id : str) (keys : list str) {A} (m : M A)
  : Prop :=
  forall w e w', m w = (Raise e, w') -> writes_only task_id keys w w'.


(** The three calls [analyze_comment] makes for [comment] when it is given
    the base name [name]: two searches with some embedding of the comment
    and one completion request. *)
Definition comment_calls (name : str) (comment : Comment) (group : list Call)
  : Prop :=
  exists q prompt,
    embedding comment = Some q /\
    group = [CallSearch (settings.QDRANT_COLLECTION_V1_PREFIX ++ name) q 10;
             CallSearch (settings.QDRANT_COLLECTION_V2_PREFIX ++ name) q 10;
             CallGetCompletion prompt].

(** The name of the report file of a task (lines 612-613). *)
Definition results_path (task_id : str) : str :=
  path_join (py "results") (py "results_" ++ task_id ++ py ".json").


(** ** The status endpoints and the report files ([app/main.py]) *)

(** [s.endswith(p)] *)
Definition endswith (s p : str) : bool := startswith (reverse s) (reverse p).

(** The test [startup_event] and [cleanup_old_files] make on the names in
    the results directory (lines 659 and 695). *)
Definition is_results_file (filename : str) : bool :=
  startswith filename (py "results_") && endswith filename (py ".json").

(** [task_id = filename[8:-5]] (lines 661 and 700). *)
Definition task_id_of_results_file (filename : str) : str :=
  slice filename 8 (-5).

(** [os.path.basename(p)]: what follows the last slash. *)
Definition basename (p : str) : str :=
  slice_from p (rfind p (py "/") + 1)%Z.

(** [v == "<literal>"] for a value taken from a result. *)
Definition status_is (v : PyVal) (literal : str) : bool :=
  match v with
  | PyStr s => bool_decide (s = literal)
  | _ => false
  end.

(** [sum(1 for c in results_data if c.get("status") == literal)] *)
Definition count_status (results_data : list AnalysisResult) (literal : str)
  : nat :=
  length (filter (fun c => status_is (status c) literal) results_data).

(** Lines 436-442 of [get_status_html]: the five figures of the summary,
    [(total, addressed, partially, not_addressed, error_count)]. *)
Definition summary_counts (results_data : list AnalysisResult)
  : nat * nat * nat * nat * nat :=
  (length results_data,
   count_status results_data (py "учтен"),
   count_status results_data (py "частично учтен"),
   count_status results_data (py "не учтен"),
   count_status results_data (py "error")).

(** What an endpoint answers when it does not return: an [HTTPException]
    it raised itself, or another exception, which the framework turns into
    a 500 response. *)
Inductive endpoint_error :=
| HTTPException (status_code : nat) (detail : str)
| Unhandled (exception_class : str) (message : str).

(** Truth value of a stored field. *)
Definition truthy (v : TaskVal) : bool :=
  match v with
  | TNone => false
  | TStr s => match s with [] => false | _ :: _ => true end
  | TResults rs => match rs with [] => false | _ :: _ => true end
  end.

(** [get_status] (lines 245-255). The record it returns is the stored one,
    to which it adds [results_url] when the task is completed and has a
    results path. *)
Definition get_status (task_id : str) (w : World)
  : (endpoint_error + gmap str TaskVal) * World :=
  match results_store w !! task_id with
  | None => (inl (HTTPException 404 (py "Task not found")), w)
  | Some result =>
      match result !! py "status" with
      | None => (inl (Unhandled (py "KeyError") (py "'status'")), w)
      | Some st =>
          let completed :=
            match st with
            | TStr s => bool_decide (s = py "completed")
            | _ => false
            end in
          if completed && from_option truthy false (result !! py "results_path")
          then
            match result !! py "results_path" with
            | Some (TStr p) =>
                let result' :=
                  <[py "results_url" := TStr (py "/results/" ++ basename p)]>
                    result in
                (inr result',
                 mkWorld (<[task_id := result']> (results_store w))
                   (external w) (calls w))
            | _ =>
                (inl (Unhandled (py "TypeError")
                        (py "expected str, bytes or os.PathLike object, not list")),
                 w)
            end
          else (inr result, w)
      end
  end.


(** ** The upload endpoint ([analyze_documents], [app/main.py]) *)

(** An uploaded file: the name the client gave it, and its bytes. *)
Record UploadFile := mkUpload {
  filename : str;
  file_bytes : list N
}.

(** What the endpoint hands to [background_tasks.add_task]: the arguments
    of the call of [process_documents] to come. *)
Record BackgroundTask := mkBackgroundTask {
  bg_task_id : str;
  bg_doc_v1_path : str;
  bg_doc_v2_path : str;
  bg_comments_path : str;
  bg_doc_base_name : str
}.

(** [uuid.uuid4().hex], [os.makedirs(dir, exist_ok=True)], the writing of
    one upload to a path ([open], [read], [write]) and
    [shutil.rmtree(dir, ignore_errors=True)]. These are not part of the
    trace of calls. [int(datetime.now().timestamp())] is a second way the
    clock is read. *)
Variable datetime_now_timestamp : E -> Z * E.
Variable uuid4_hex : E -> str * E.
Variable os_makedirs : str -> E -> outcome unit * E.
Variable save_upload : str -> UploadFile -> E -> outcome unit * E.
Variable shutil_rmtree : str -> E -> E.

(** [int(datetime.now().timestamp())] *)
Definition now_timestamp : M Z :=
  call CallNow (fun e => let '(t, e') := datetime_now_timestamp e in (Ret t, e')).

(** An operation on the external state that is not traced. *)
Definition outside {A} (op : E -> outcome A * E) : M A :=
  fun w =>
    let '(o, e') := op (external w) in
    (o, mkWorld (results_store w) e' (calls w)).

Definition all_dots (s : str) : bool := forallb (fun c => (c =? 46)%N) s.

(** [os.path.splitext(p)]: the extension starts at the last dot, provided
    that dot comes after the last slash and after a character of the file
    name that is not a dot. *)
Definition splitext (p : str) : str * str :=
  let sepIndex := rfind p (py "/") in
  let dotIndex := rfind p (py ".") in
  if (sepIndex <? dotIndex)%Z
     && negb (all_dots (slice p (sepIndex + 1)%Z dotIndex))
  then (slice p 0 dotIndex, slice_from p dotIndex)
  else (p, []).

(** Lines 152-166: the uploads are written one after the other; the first
    failure removes the task directory and ends the request with an
    [HTTPException], which is returned here. *)
Fixpoint save_uploads (task_dir : str) (files : list (str * UploadFile))
  : M (option endpoint_error) :=
  match files with
  | [] => mret None
  | (file_path, upload_file) :: rest =>
      fun w =>
        match outside (save_upload file_path upload_file) w with
        | (Ret _, w') => save_uploads task_dir rest w'
        | (Raise e, w') =>
            (Ret (Some (HTTPException 500
                          (py "Failed to save file " ++ filename upload_file
                           ++ py ": " ++ exn_str e))),
             mkWorld (results_store w') (shutil_rmtree task_dir (external w'))
               (calls w'))
        end
  end.

(** [results_store[task_id] = record] *)
Definition register_task (task_id : str) (record : gmap str TaskVal) : M unit :=
  fun w =>
    (Ret tt,
     mkWorld (<[task_id := record]> (results_store w)) (external w) (calls w)).

(** [analyze_documents] (lines 137-242). The result is the exception
    answered, or the background task that was scheduled; of the page the
    endpoint answers with in that case, only the reading of the clock for
    its refresh link (line 196) is kept. *)
Definition analyze_documents (doc_v1 doc_v2 comments : UploadFile)
  : M (endpoint_error + BackgroundTask) :=
  hex ← outside (fun e => let '(h, e') := uuid4_hex e in (Ret h, e'));
  let task_id := py "task_" ++ hex in
  let task_dir := path_join (py "uploads") task_id in
  outside (os_makedirs task_dir);;
  let doc_v1_path := path_join task_dir (py "v1_" ++ filename doc_v1) in
  let doc_v2_path := path_join task_dir (py "v2_" ++ filename doc_v2) in
  let comments_path := path_join task_dir (filename comments) in
  failed ← save_uploads task_dir
             [(doc_v1_path, doc_v1); (doc_v2_path, doc_v2);
              (comments_path, comments)];
  match failed with
  | Some err => mret (inl err)
  | None =>
      let doc_base_name := (splitext (basename (filename doc_v1))).1 in
      now ← now_isoformat;
      register_task task_id
        (fold_left (fun t kv => <[kv.1 := kv.2]> t)
           [(py "status", TStr (py "processing"));
            (py "created_at", TStr now);
            (py "doc_v1", TStr (filename doc_v1));
            (py "doc_v2", TStr (filename doc_v2));
            (py "comments", TStr (filename comments));
            (py "base_name", TStr doc_base_name);
            (py "progress", TStr (py "uploading"));
            (py "result", TNone);
            (py "results_path", TNone)] ∅);;
      now_timestamp;;
      mret (inr {| bg_task_id := task_id;
                   bg_doc_v1_path := doc_v1_path;
                   bg_doc_v2_path := doc_v2_path;
                   bg_comments_path := comments_path;
                   bg_doc_base_name := doc_base_name |})
  end.


(** * Properties *)

(** ** Running monadic code *)

Lemma bind_run {A B} (m : M A) (f : A -> M B) w :
  (m ≫= f) w =
  match m w with
  | (Ret a, w') => f a w'
  | (Raise e, w') => (Raise e, w')
  end.
Proof. reflexivity. Qed.

Lemma bind_Ret_inv {A B} (m : M A) (f : A -> M B) w b w' :
  (m ≫= f) w = (Ret b, w') ->
  exists a w1, m w = (Ret a, w1) /\ f a w1 = (Ret b, w').
Proof.
  rewrite bind_run. destruct (m w) as [[a|e] w1]; intros H.
  - by exists a, w1.
  - discriminate.
Qed.

(** ** Stripping, searching and slicing *)

Lemma lstrip_app_nonspace pre c r :
  isspace c = false -> lstrip (pre ++ c :: r) = lstrip pre ++ c :: r.
Proof.
  intros Hc. induction pre as [|x pre IH]; simpl.
  - by rewrite Hc.
  - by destruct (isspace x).
Qed.

Lemma rstrip_app_nonspace x c post :
  isspace c = false -> rstrip (x ++ c :: post) = x ++ c :: rstrip post.
Proof.
  intros Hc. unfold rstrip.
  rewrite reverse_app reverse_cons -app_assoc /=.
  rewrite lstrip_app_nonspace //.
  by rewrite reverse_app reverse_cons reverse_involutive -app_assoc.
Qed.

Lemma elem_of_lstrip c s : c ∈ lstrip s -> c ∈ s.
Proof.
  induction s as [|x s IH]; simpl; [done|].
  destruct (isspace x); [|done]. intros H. right. by apply IH.
Qed.

Lemma elem_of_rstrip c s : c ∈ rstrip s -> c ∈ s.
Proof.
  unfold rstrip. rewrite elem_of_reverse. intros H%elem_of_lstrip.
  by apply elem_of_reverse.
Qed.

Lemma startswith_single x s c : startswith (x :: s) [c] = (c =? x)%N.
Proof. simpl. by destruct (c =? x)%N. Qed.

Lemma find_from_first c pre r i :
  c ∉ pre ->
  find_from (pre ++ c :: r) [c] i = (i + Z.of_nat (length pre))%Z.
Proof.
  revert i. induction pre as [|x pre IH]; intros i Hc.
  - cbn [app find_from]. rewrite startswith_single N.eqb_refl /=. lia.
  - apply not_elem_of_cons in Hc as [Hx Hc].
    cbn [app find_from]. rewrite startswith_single.
    destruct (N.eqb_spec c x) as [->|_]; [done|].
    rewrite IH // /=. lia.
Qed.

Lemma rfind_from_absent c s i last :
  c ∉ s -> rfind_from s [c] i last = last.
Proof.
  revert i. induction s as [|x s IH]; intros i Hc; [done|].
  apply not_elem_of_cons in Hc as [Hx Hc].
  cbn [rfind_from]. rewrite startswith_single.
  destruct (N.eqb_spec c x) as [->|_]; [done|]. by apply IH.
Qed.

Lemma rfind_from_last c x post i last :
  c ∉ post ->
  rfind_from (x ++ c :: post) [c] i last = (i + Z.of_nat (length x))%Z.
Proof.
  intros Hc. revert i last. induction x as [|y x IH]; intros i last.
  - cbn [app rfind_from]. rewrite startswith_single N.eqb_refl.
    rewrite rfind_from_absent //=. lia.
  - cbn [app rfind_from]. rewrite IH /=. lia.
Qed.

Lemma slice_middle (p o q : str) :
  slice (p ++ o ++ q) (Z.of_nat (length p))
        (Z.of_nat (length p) + Z.of_nat (length o))%Z = o.
Proof.
  unfold slice, clip. rewrite !length_app.
  destruct (Z.ltb_spec (Z.of_nat (length p)) 0); [lia|].
  destruct (Z.ltb_spec (Z.of_nat (length p) + Z.of_nat (length o)) 0); [lia|].
  set (n := Z.of_nat (length p + (length o + length q))).
  replace (Z.of_nat (length p) `min` n)%Z with (Z.of_nat (length p)) by lia.
  replace ((Z.of_nat (length p) + Z.of_nat (length o)) `min` n)%Z
    with (Z.of_nat (length p) + Z.of_nat (length o))%Z by lia.
  rewrite Nat2Z.id drop_app_length.
  replace (Z.to_nat _) with (length o) by lia.
  by rewrite take_app_length.
Qed.

(** A JSON object wrapped in prose: whatever stands before the first opening
    brace and after the last closing brace is cut away. *)
Lemma candidate_json_wrapped pre mid post :
  123%N ∉ pre -> 125%N ∉ post ->
  candidate_json (pre ++ (123%N :: mid ++ [125%N]) ++ post)
  = 123%N :: mid ++ [125%N].
Proof.
  intros Hpre Hpost. unfold candidate_json.
  change (py "{") with [123%N]. change (py "}") with [125%N].
  assert (Hs : strip (pre ++ (123%N :: mid ++ [125%N]) ++ post)
               = lstrip pre ++ (123%N :: mid ++ [125%N]) ++ rstrip post).
  { unfold strip. cbn [app]. rewrite lstrip_app_nonspace //.
    replace (lstrip pre ++ 123%N :: (mid ++ [125%N]) ++ post)
      with ((lstrip pre ++ 123%N :: mid) ++ 125%N :: post)
      by (by rewrite -?app_assoc /= -?app_assoc).
    rewrite rstrip_app_nonspace //.
    by rewrite -?app_assoc /= -?app_assoc. }
  rewrite Hs. cbv zeta.
  assert (Hf : find (lstrip pre ++ (123%N :: mid ++ [125%N]) ++ rstrip post)
                 [123%N] = Z.of_nat (length (lstrip pre))).
  { unfold find. cbn [app]. rewrite find_from_first //.
    intros H. by apply Hpre, elem_of_lstrip. }
  assert (Hr : rfind (lstrip pre ++ (123%N :: mid ++ [125%N]) ++ rstrip post)
                 [125%N]
               = (Z.of_nat (length (lstrip pre))
                  + Z.of_nat (length (123%N :: mid ++ [125%N])) - 1)%Z).
  { unfold rfind.
    replace (lstrip pre ++ (123%N :: mid ++ [125%N]) ++ rstrip post)
      with ((lstrip pre ++ 123%N :: mid) ++ 125%N :: rstrip post)
      by (by rewrite -?app_assoc /= -?app_assoc).
    rewrite rfind_from_last.
    { intros H. by apply Hpost, elem_of_rstrip. }
    rewrite !length_app /= length_app /=. lia. }
  rewrite Hf Hr.
  destruct (Z.eqb_spec (Z.of_nat (length (lstrip pre))) (-1)); [lia|].
  destruct (Z.eqb_spec (Z.of_nat (length (lstrip pre))
              + Z.of_nat (length (123%N :: mid ++ [125%N])) - 1) (-1)).
  { rewrite /= length_app /= in e. lia. }
  cbn [negb andb].
  replace (_ - 1 + 1)%Z
    with (Z.of_nat (length (lstrip pre))
          + Z.of_nat (length (123%N :: mid ++ [125%N])))%Z by lia.
  apply slice_middle.
Qed.

(** ** The analyzer after the completion has arrived *)

Lemma analyze_comment_run comment base w :
  analyze_comment comment base w =
  match request_completion comment base w with
  | (Ret resp, w') => (Ret (interpret_completion comment resp), w')
  | (Raise e, w') => (Raise e, w')
  end.
Proof. reflexivity. Qed.

Lemma result_of_json_dict comment d :
  result_of_json comment (PyDict d) =
  Ret {| res_comment_id := comment_id comment;
         res_comment_text := comment_text comment;
         explanation :=
           default (PyStr (py "No explanation provided")) (d !! py "explanation");
         evidence_v1 :=
           default (PyStr (py "No evidence provided")) (d !! py "evidence_v1");
         evidence_v2 :=
           default (PyStr (py "No evidence provided")) (d !! py "evidence_v2");
         suggestion := default (PyStr []) (d !! py "suggestion");
         status := default (PyStr (py "не учтен")) (d !! py "status") |}.
Proof. reflexivity. Qed.

Lemma result_of_json_ids comment v r :
  result_of_json comment v = Ret r ->
  res_comment_id r = comment_id comment /\
  res_comment_text r = comment_text comment.
Proof.
  destruct v; try discriminate.
  rewrite result_of_json_dict. by intros [= <-].
Qed.

Lemma interpret_completion_ids comment resp :
  res_comment_id (interpret_completion comment resp) = comment_id comment /\
  res_comment_text (interpret_completion comment resp) = comment_text comment.
Proof.
  destruct resp as [[|c s]|]; try done.
  unfold interpret_completion.
  destruct (json_loads _) as [v|e]; [|done].
  cbn. destruct (result_of_json comment v) as [r|e] eqn:Hr; [|done].
  by apply result_of_json_ids in Hr.
Qed.

Lemma analyze_comment_Ret_ids comment base w r w' :
  analyze_comment comment base w = (Ret r, w') ->
  res_comment_id r = comment_id comment /\
  res_comment_text r = comment_text comment.
Proof.
  rewrite analyze_comment_run.
  destruct (request_completion comment base w) as [[resp|e] w1]; [|done].
  intros [= <- _]. apply interpret_completion_ids.
Qed.

(** C9. Whenever [analyze_comment] returns -- the completion was decoded,
    was empty, or could not be decoded -- the record it returns carries the
    [comment_id] and the [comment_text] of the comment it was given. *)
Theorem analyze_comment_keeps_comment comment base w r w' :
  analyze_comment comment base w = (Ret r, w') ->
  res_comment_id r = comment_id comment /\
  res_comment_text r = comment_text comment.
Proof. apply analyze_comment_Ret_ids. Qed.

Lemma interpret_completion_nonempty comment s :
  s <> [] ->
  interpret_completion comment (Some s) =
  match json_loads (candidate_json s) ≫= result_of_json comment with
  | Ret r => r
  | Raise e => _create_error_result comment (Some e) (candidate_json s)
  end.
Proof. by destruct s. Qed.

Lemma interpret_completion_dict comment s d :
  s <> [] ->
  json_loads (candidate_json s) = Ret (PyDict d) ->
  interpret_completion comment (Some s) =
  {| res_comment_id := comment_id comment;
     res_comment_text := comment_text comment;
     explanation :=
       default (PyStr (py "No explanation provided")) (d !! py "explanation");
     evidence_v1 :=
       default (PyStr (py "No evidence provided")) (d !! py "evidence_v1");
     evidence_v2 :=
       default (PyStr (py "No evidence provided")) (d !! py "evidence_v2");
     suggestion := default (PyStr []) (d !! py "suggestion");
     status := default (PyStr (py "не учтен")) (d !! py "status") |}.
Proof.
  intros Hs Hd. rewrite interpret_completion_nonempty // Hd.
  change (Ret (PyDict d) ≫= result_of_json comment)
    with (result_of_json comment (PyDict d)).
  by rewrite result_of_json_dict.
Qed.

Lemma interpret_completion_raise comment s e :
  s <> [] ->
  json_loads (candidate_json s) = Raise e ->
  interpret_completion comment (Some s) =
  _create_error_result comment (Some e) (candidate_json s).
Proof. intros Hs He. by rewrite interpret_completion_nonempty // He. Qed.

(** C1. A completion that is one JSON object with prose around it -- no
    opening brace before the object, no closing brace after it -- is cut down
    to the object, the object is decoded, and each of the five fields of the
    returned record is the value the object has under that key. *)
Theorem analyze_comment_wrapped_json comment base w w' pre mid post d :
  123%N ∉ pre -> 125%N ∉ post ->
  json_loads (123%N :: mid ++ [125%N]) = Ret (PyDict d) ->
  request_completion comment base w
  = (Ret (Some (pre ++ (123%N :: mid ++ [125%N]) ++ post)), w') ->
  candidate_json (pre ++ (123%N :: mid ++ [125%N]) ++ post)
  = 123%N :: mid ++ [125%N] /\
  exists r,
    analyze_comment comment base w = (Ret r, w') /\
    (forall v, d !! py "explanation" = Some v -> explanation r = v) /\
    (forall v, d !! py "evidence_v1" = Some v -> evidence_v1 r = v) /\
    (forall v, d !! py "evidence_v2" = Some v -> evidence_v2 r = v) /\
    (forall v, d !! py "suggestion" = Some v -> suggestion r = v) /\
    (forall v, d !! py "status" = Some v -> status r = v).
Proof.
  intros Hpre Hpost Hd Hreq.
  pose proof (candidate_json_wrapped pre mid post Hpre Hpost) as Hc.
  split; [done|].
  eexists. rewrite analyze_comment_run Hreq. split; [done|].
  rewrite (interpret_completion_dict _ _ d).
  - by destruct pre.
  - by rewrite Hc.
  - cbn [explanation evidence_v1 evidence_v2 suggestion status].
    repeat split; by intros v ->.
Qed.

(** C2. When the completion is missing or empty, or the text cut out of it
    is rejected by the JSON decoder, [analyze_comment] returns -- it does not
    raise -- a record whose status is ["error"]. *)
Theorem analyze_comment_error_status comment base w w' resp :
  request_completion comment base w = (Ret resp, w') ->
  resp = None \/ resp = Some [] \/
  (exists s e, resp = Some s /\ json_loads (candidate_json s) = Raise e) ->
  exists r,
    analyze_comment comment base w = (Ret r, w') /\
    status r = PyStr (py "error").
Proof.
  intros Hreq Hresp. eexists. rewrite analyze_comment_run Hreq.
  split; [done|].
  destruct Hresp as [->|[->|(s & e & -> & He)]]; [done..|].
  destruct s as [|c s]; [done|].
  by rewrite (interpret_completion_raise _ _ e).
Qed.

(** C4. When the text cut out of the completion decodes to a JSON object,
    [analyze_comment] returns a record in which each of the five fields is
    the object's value under that key, or the fixed placeholder of that field
    when the object has no such key. *)
Theorem analyze_comment_placeholders comment base w w' s d :
  s <> [] ->
  request_completion comment base w = (Ret (Some s), w') ->
  json_loads (candidate_json s) = Ret (PyDict d) ->
  exists r,
    analyze_comment comment base w = (Ret r, w') /\
    explanation r
    = default (PyStr (py "No explanation provided")) (d !! py "explanation") /\
    evidence_v1 r
    = default (PyStr (py "No evidence provided")) (d !! py "evidence_v1") /\
    evidence_v2 r
    = default (PyStr (py "No evidence provided")) (d !! py "evidence_v2") /\
    suggestion r = default (PyStr []) (d !! py "suggestion") /\
    status r = default (PyStr (py "не учтен")) (d !! py "status").
Proof.
  intros Hs Hreq Hd. eexists. rewrite analyze_comment_run Hreq.
  split; [done|]. by rewrite (interpret_completion_dict _ _ d).
Qed.

(** C5. When a non-empty completion is cut down to a text that the JSON
    decoder rejects, the record returned has status ["error"], its
    [evidence_v1] is that text, and its [explanation] is the decoder's
    message after the words "Error analyzing comment: ". *)
Theorem analyze_comment_parse_failure comment base w w' s e :
  s <> [] ->
  request_completion comment base w = (Ret (Some s), w') ->
  json_loads (candidate_json s) = Raise e ->
  exists r,
    analyze_comment comment base w = (Ret r, w') /\
    status r = PyStr (py "error") /\
    evidence_v1 r = PyStr (candidate_json s) /\
    explanation r = PyStr (py "Error analyzing comment: " ++ exn_str e).
Proof.
  intros Hs Hreq He. eexists. rewrite analyze_comment_run Hreq.
  split; [done|]. by rewrite (interpret_completion_raise _ _ e).
Qed.

(** C10. The status of a decoded object is not checked against the three
    verdicts of the prompt: a string outside them is returned as it is. *)
Theorem analyze_comment_status_verbatim comment base w w' s d st :
  s <> [] ->
  request_completion comment base w = (Ret (Some s), w') ->
  json_loads (candidate_json s) = Ret (PyDict d) ->
  d !! py "status" = Some (PyStr st) ->
  st ∉ allowed_statuses ->
  exists r,
    analyze_comment comment base w = (Ret r, w') /\
    status r = PyStr st.
Proof.
  intros Hs Hreq Hd Hst _. eexists. rewrite analyze_comment_run Hreq.
  split; [done|]. by rewrite (interpret_completion_dict _ _ d) //= Hst.
Qed.

(** ** [load_comments] *)

Lemma uint_chars_inj u u' : uint_chars u = uint_chars u' -> u = u'.
Proof.
  revert u'. induction u; destruct u'; simpl; intros H;
    try discriminate; try done; injection H as H; f_equal; auto.
Qed.

Lemma str_of_nat_inj n m : str_of_nat n = str_of_nat m -> n = m.
Proof.
  intros H%uint_chars_inj.
  by rewrite -(Unsigned.of_to n) -(Unsigned.of_to m) H.
Qed.

Lemma nonblank_nil l : strip l = [] -> ~ nonblank l.
Proof. rewrite /nonblank. intros -> []. Qed.

Lemma nonblank_cons l x t : strip l = x :: t -> nonblank l.
Proof. rewrite /nonblank. intros ->. exact I. Qed.

Lemma read_comments_lookup i lines k (c : Comment) :
  read_comments i lines !! k = Some c <->
  exists j line,
    lines !! j = Some line /\ nonblank line /\
    k = length (filter nonblank (take j lines)) /\
    c = {| comment_id := py "C" ++ str_of_nat (i + j + 1);
           comment_text := strip line;
           embedding := None |}.
Proof.
  revert i k c. induction lines as [|l lines IH]; intros i k c.
  { split; [done|]. by intros (j & line & ? & _). }
  cbn [read_comments]. destruct (strip l) as [|x t] eqn:Hl.
  - rewrite IH. split.
    + intros (j & line & Hj & Hn & -> & ->).
      exists (S j), line. split_and!; [done..| |].
      * cbn [take]. rewrite filter_cons_False //.
        by apply nonblank_nil.
      * do 3 f_equal. lia.
    + intros ([|j] & line & Hj & Hn & -> & ->).
      * injection Hj as ->. by apply nonblank_nil in Hl.
      * exists j, line. split_and!; [done..| |].
        -- cbn [take]. rewrite filter_cons_False //.
           by apply nonblank_nil.
        -- do 3 f_equal. lia.
  - assert (Hnb : nonblank l) by (by eapply nonblank_cons).
    destruct k as [|k].
    + change ((?a :: ?r) !! 0) with (Some a). split.
      * intros [= <-]. exists 0, l. split_and!; [done..|].
        rewrite Hl. do 3 f_equal. lia.
      * intros ([|j] & line & Hj & Hn & Hk & ->).
        -- injection Hj as <-. rewrite Hl. do 4 f_equal. lia.
        -- cbn [take] in Hk. by rewrite filter_cons_True in Hk.
    + change ((?a :: ?r) !! S k) with (r !! k). rewrite IH. split.
      * intros (j & line & Hj & Hn & -> & ->).
        exists (S j), line. split_and!; [done..| |].
        -- cbn [take]. by rewrite filter_cons_True.
        -- do 3 f_equal. lia.
      * intros ([|j] & line & Hj & Hn & Hk & ->); [done|].
        exists j, line. split_and!; [done..| |].
        -- cbn [take] in Hk. rewrite filter_cons_True // in Hk.
           by injection Hk.
        -- do 3 f_equal. lia.
Qed.

Lemma read_comments_NoDup i lines :
  NoDup (map comment_id (read_comments i lines)).
Proof.
  apply NoDup_alt. intros k1 k2 id H1 H2.
  rewrite !list_lookup_fmap in H1 H2.
  destruct (read_comments i lines !! k1) as [c1|] eqn:Hc1; [|done].
  destruct (read_comments i lines !! k2) as [c2|] eqn:Hc2; [|done].
  apply read_comments_lookup in Hc1 as (j1 & l1 & _ & _ & -> & ->).
  apply read_comments_lookup in Hc2 as (j2 & l2 & _ & _ & -> & ->).
  cbn in H1, H2. injection H1 as <-. injection H2 as H2.
  apply str_of_nat_inj in H2. by replace j2 with j1 by lia.
Qed.

Lemma load_comments_Some file_path comments :
  load_comments file_path = Some comments ->
  exists path content,
    resolve_path file_path = Some path /\
    fs path = Some (Ret content) /\
    comments = read_comments 0 (file_lines content).
Proof.
  unfold load_comments.
  destruct (resolve_path file_path) as [path|]; [|done].
  destruct (fs path) as [[content|e]|] eqn:Hfs; [|done..].
  intros [= <-]. by exists path, content.
Qed.

(** C3, as the code has it. The comments that [load_comments] returns are
    the stripped non-blank lines of the file, in order; the one that comes
    from line [j] (counting from zero) stands at the position given by the
    number of non-blank lines before it, and its id is [C<j+1>]: the number
    of its line in the file, blank lines counted. *)
Theorem load_comments_line_numbers file_path comments :
  load_comments file_path = Some comments ->
  exists path content,
    resolve_path file_path = Some path /\
    fs path = Some (Ret content) /\
    forall k c,
      comments !! k = Some c <->
      exists j line,
        file_lines content !! j = Some line /\ nonblank line /\
        k = length (filter nonblank (take j (file_lines content))) /\
        c = {| comment_id := py "C" ++ str_of_nat (j + 1);
               comment_text := strip line;
               embedding := None |}.
Proof.
  intros (path & content & Hp & Hfs & ->)%load_comments_Some.
  exists path, content. split_and!; [done..|]. intros k c. split.
  - by intros H%read_comments_lookup.
  - intros H. by apply read_comments_lookup.
Qed.

(** ** Collection names *)

Lemma startswith_app p r : startswith (p ++ r) p = true.
Proof. induction p as [|a p IH]; [done|]. by rewrite /= N.eqb_refl. Qed.

Lemma slice_from_app (p r : str) :
  slice_from (p ++ r) (Z.of_nat (length p)) = r.
Proof.
  unfold slice_from, clip. rewrite length_app.
  destruct (Z.ltb_spec (Z.of_nat (length p)) 0); [lia|].
  replace (Z.to_nat _) with (length p) by lia.
  by rewrite drop_app_length.
Qed.

Lemma strip_prefix_app p r : strip_prefix (p ++ r) p = r.
Proof. by rewrite /strip_prefix startswith_app slice_from_app. Qed.

Lemma strip_prefix_id name p :
  startswith name p = false -> strip_prefix name p = name.
Proof. rewrite /strip_prefix. by intros ->. Qed.

(** A prefix that does not contain [x] cannot reach across an [x]. *)
Lemma startswith_before_sep s x t p :
  x ∉ p -> startswith (s ++ x :: t) p = true -> startswith s p = true.
Proof.
  revert s. induction p as [|a p IH]; intros s Hx; [done|].
  apply not_elem_of_cons in Hx as [Hxa Hx].
  destruct s as [|b s]; simpl.
  - destruct (N.eqb_spec a x) as [->|_]; done.
  - destruct (a =? b)%N; [|done]. by apply IH.
Qed.

Lemma has_version_prefix_before_dash rest tid :
  has_version_prefix rest = false ->
  has_version_prefix (rest ++ py "-" ++ tid) = false.
Proof.
  unfold has_version_prefix. change (py "-" ++ tid) with (45%N :: tid).
  intros [H1 H2]%orb_false_elim. apply orb_false_intro.
  - destruct (startswith (rest ++ _) _) eqn:Hs; [|done].
    apply startswith_before_sep in Hs; [congruence|].
    apply (bool_decide_unpack _). by vm_compute.
  - destruct (startswith (rest ++ _) _) eqn:Hs; [|done].
    apply startswith_before_sep in Hs; [congruence|].
    apply (bool_decide_unpack _). by vm_compute.
Qed.

Lemma clean_base_name_unfold base :
  clean_base_name base =
  strip_prefix (strip_prefix base settings.QDRANT_COLLECTION_V1_PREFIX)
    settings.QDRANT_COLLECTION_V2_PREFIX.
Proof. reflexivity. Qed.

Lemma clean_base_name_single p rest :
  p ∈ [settings.QDRANT_COLLECTION_V1_PREFIX;
       settings.QDRANT_COLLECTION_V2_PREFIX] ->
  has_version_prefix rest = false ->
  clean_base_name (p ++ rest) = rest.
Proof.
  intros Hp [H1 H2]%orb_false_elim. rewrite clean_base_name_unfold.
  apply elem_of_cons in Hp as [->|Hp].
  - by rewrite strip_prefix_app strip_prefix_id.
  - apply list_elem_of_singleton in Hp as ->.
    rewrite (strip_prefix_id (_ ++ rest)); [done|].
    by rewrite strip_prefix_app.
Qed.

Lemma double_prefixed_single p rest tid :
  p ∈ [settings.QDRANT_COLLECTION_V1_PREFIX;
       settings.QDRANT_COLLECTION_V2_PREFIX] ->
  has_version_prefix rest = false ->
  double_prefixed (p ++ rest ++ py "-" ++ tid) = false.
Proof.
  intros Hp Hrest.
  pose proof (has_version_prefix_before_dash rest tid Hrest) as Hd.
  apply elem_of_cons in Hp as [->|Hp];
    [|apply list_elem_of_singleton in Hp as ->].
  - unfold double_prefixed. cbn [existsb].
    rewrite startswith_app slice_from_app Hd. done.
  - unfold double_prefixed. cbn [existsb].
    rewrite startswith_app slice_from_app Hd.
    by rewrite andb_false_r.
Qed.

(** C8, as the code has it. The two collections are named
    [<prefix><clean>-<task id>] with the v1 and the v2 prefix, and these are
    the names [analyze_comment] searches when it is given [<clean>-<task id>].
    [clean] is the document name after one leading v1 prefix, if there is
    one, and then one leading v2 prefix, if there is one, have been cut off.
    A name without a version prefix is kept as it is; for a name made of one
    version prefix and a rest that starts with none, [clean] is that rest and
    neither collection name is double-prefixed. *)
Theorem collection_names base tid :
  v1_collection base tid
  = settings.QDRANT_COLLECTION_V1_PREFIX ++ clean_base_name base ++ py "-" ++ tid /\
  v2_collection base tid
  = settings.QDRANT_COLLECTION_V2_PREFIX ++ clean_base_name base ++ py "-" ++ tid /\
  settings.QDRANT_COLLECTION_V1_PREFIX ++ (clean_base_name base ++ py "-" ++ tid)
  = v1_collection base tid /\
  settings.QDRANT_COLLECTION_V2_PREFIX ++ (clean_base_name base ++ py "-" ++ tid)
  = v2_collection base tid /\
  clean_base_name base
  = strip_prefix (strip_prefix base settings.QDRANT_COLLECTION_V1_PREFIX)
      settings.QDRANT_COLLECTION_V2_PREFIX /\
  (has_version_prefix base = false -> clean_base_name base = base) /\
  (forall p rest,
     p ∈ [settings.QDRANT_COLLECTION_V1_PREFIX;
          settings.QDRANT_COLLECTION_V2_PREFIX] ->
     base = p ++ rest ->
     has_version_prefix rest = false ->
     clean_base_name base = rest /\
     double_prefixed (v1_collection base tid) = false /\
     double_prefixed (v2_collection base tid) = false).
Proof.
  split_and!; try reflexivity.
  - intros [H1 H2]%orb_false_elim. rewrite clean_base_name_unfold.
    by rewrite (strip_prefix_id base) // strip_prefix_id.
  - intros p rest Hp -> Hrest.
    rewrite /v1_collection /v2_collection clean_base_name_single //.
    split_and!; [done| |].
    + apply (double_prefixed_single settings.QDRANT_COLLECTION_V1_PREFIX);
        [left|done].
    + apply (double_prefixed_single settings.QDRANT_COLLECTION_V2_PREFIX);
        [right; left|done].
Qed.

(** ** What the steps of [process_documents] do to the world *)

Lemma quiet_refl w : quiet w w.
Proof. split; [done|]. exists []. by rewrite app_nil_r. Qed.

Lemma quiet_trans w1 w2 w3 : quiet w1 w2 -> quiet w2 w3 -> quiet w1 w3.
Proof.
  intros [Hs1 (x1 & Hc1 & Hx1)] [Hs2 (x2 & Hc2 & Hx2)]. split; [congruence|].
  exists (x1 ++ x2). split.
  - by rewrite Hc2 Hc1 app_assoc.
  - by apply Forall_app.
Qed.

Lemma call_quiet {A} c (op : E -> outcome A * E) w :
  is_vector_store_call c = false -> quiet w (call c op w).2.
Proof.
  intros Hc. unfold call. destruct (op (external w)) as [o e'].
  split; [done|]. exists [c]. split; [done|]. by constructor.
Qed.

Lemma now_isoformat_run w :
  exists s w', now_isoformat w = (Ret s, w') /\ quiet w w'.
Proof.
  pose proof (call_quiet CallNow
    (fun e => let '(s, e') := datetime_now_isoformat e in (Ret s, e')) w
    eq_refl) as Hq.
  unfold now_isoformat, call in *.
  destruct (datetime_now_isoformat (external w)) as [s e'].
  by eexists _, _.
Qed.

Lemma process_document_run file_path w :
  exists o w', process_document file_path w = (Ret o, w') /\ quiet w w'.
Proof.
  unfold process_document.
  destruct (load_document_text file_path) as [[|c t]|];
    [by eexists _, _; split; [|apply quiet_refl]| |
     by eexists _, _; split; [|apply quiet_refl]].
  destruct (text_splitter_split_text (c :: t)) as [|p ps];
    [by eexists _, _; split; [|apply quiet_refl]|].
  unfold try_except. rewrite bind_run.
  pose proof (call_quiet (CallEncode (p :: ps) settings.DEFAULT_DOC_PREFIX)
    (embedding_model_encode (p :: ps) settings.DEFAULT_DOC_PREFIX) w eq_refl)
    as Hq.
  destruct (call _ _ w) as [[embs|e] w1]; by eexists _, _.
Qed.

Lemma read_comments_blank i lines :
  Forall (fun l => nonblank l = false) lines -> read_comments i lines = [].
Proof.
  intros H. revert i. induction H as [|l lines Hl _ IH]; intros i; [done|].
  cbn [read_comments]. unfold nonblank in Hl.
  destruct (strip l); [apply IH|done].
Qed.

Lemma process_comments_empty file_path w :
  load_comments file_path = Some [] ->
  process_comments file_path w = (Ret (Some []), w).
Proof. unfold process_comments. by intros ->. Qed.

Lemma set_embeddings_ids comments embeddings :
  Forall2 (fun c' c => comment_id c' = comment_id c /\
                       comment_text c' = comment_text c)
    (set_embeddings comments embeddings) comments.
Proof.
  revert embeddings.
  induction comments as [|c cs IH]; intros [|e es]; cbn [set_embeddings].
  1-2: by constructor.
  - apply Forall_Forall2_diag, Forall_forall. by intros.
  - constructor; [done|]. apply IH.
Qed.

Lemma process_comments_Ret file_path w comments w' :
  process_comments file_path w = (Ret (Some comments), w') ->
  exists loaded,
    load_comments file_path = Some loaded /\
    Forall2 (fun c' c => comment_id c' = comment_id c /\
                         comment_text c' = comment_text c)
      comments loaded.
Proof.
  unfold process_comments.
  destruct (load_comments file_path) as [[|c cs]|]; [| |done].
  - intros [= <- _]. by exists [].
  - unfold try_except. rewrite bind_run.
    destruct (call _ _ w) as [[embs|e] w1]; [|done].
    intros [= <- _]. eexists. split; [done|].
    apply (set_embeddings_ids (c :: cs) embs).
Qed.

Lemma set_task_field_run task_id key v w t :
  results_store w !! task_id = Some t ->
  set_task_field task_id key v w
  = (Ret tt, mkWorld (<[task_id := <[key := v]> t]> (results_store w))
               (external w) (calls w)).
Proof. unfold set_task_field. by intros ->. Qed.

Lemma set_task_field_Ret task_id key v w u w' :
  set_task_field task_id key v w = (Ret u, w') ->
  calls w' = calls w /\ external w' = external w.
Proof.
  unfold set_task_field. destruct (results_store w !! task_id); [|done].
  by intros [= _ <-].
Qed.

(** The loop returns one record per comment, in the order of the comments,
    each with the id and the text of its comment. *)
Lemma analyze_loop_Ret task_id name total i comments acc w results w' :
  analyze_loop task_id name total i comments acc w = (Ret results, w') ->
  exists rs,
    results = acc ++ rs /\
    Forall2 (fun r c => res_comment_id r = comment_id c /\
                        res_comment_text r = comment_text c) rs comments.
Proof.
  revert i acc w. induction comments as [|c cs IH]; intros i acc w.
  - intros [= <- _]. exists []. by rewrite app_nil_r.
  - cbn [analyze_loop]. intros H.
    apply bind_Ret_inv in H as (u & w1 & _ & H).
    apply bind_Ret_inv in H as (r & w2 & Hr & H).
    apply IH in H as (rs & -> & Hrs).
    apply analyze_comment_Ret_ids in Hr.
    exists (r :: rs). split; [by rewrite -app_assoc|]. by constructor.
Qed.

(** ** The report of a completed task *)

Ltac py_neq :=
  let H := fresh in intros H; vm_compute in H; discriminate H.

(** Looking a key up in a record to which other keys were written. *)
Ltac lookup_task :=
  repeat match goal with
    | |- context [ <[?k := _]> _ !! ?k' ] =>
        first
          [ rewrite (lookup_insert_eq _ k)
          | let H := fresh in
            assert (H : k <> k') by py_neq;
            rewrite (lookup_insert_ne _ k k' _ H); clear H ]
    end.

Lemma update_task_Ret task_id kvs w u w' :
  update_task task_id kvs w = (Ret u, w') ->
  exists t,
    results_store w !! task_id = Some t /\
    results_store w' !! task_id
    = Some (fold_left (fun t kv => <[kv.1 := kv.2]> t) kvs t).
Proof.
  unfold update_task.
  destruct (results_store w !! task_id) as [t|]; [|done].
  intros [= _ <-]. exists t. split; [done|]. apply lookup_insert_eq.
Qed.

Lemma update_task_Raise task_id kvs w e w' :
  update_task task_id kvs w = (Raise e, w') ->
  results_store w' !! task_id = None.
Proof.
  unfold update_task.
  destruct (results_store w !! task_id) as [t|] eqn:Ht; [done|].
  by intros [= _ <-].
Qed.

Lemma update_task_run task_id kvs w t :
  results_store w !! task_id = Some t ->
  update_task task_id kvs w
  = (Ret tt,
     mkWorld (<[task_id := fold_left (fun t kv => <[kv.1 := kv.2]> t) kvs t]>
                (results_store w))
             (external w) (calls w)).
Proof. unfold update_task. by intros ->. Qed.

Lemma require_task_run task_id w t :
  results_store w !! task_id = Some t -> require_task task_id w = (Ret tt, w).
Proof. unfold require_task. by intros ->. Qed.

Lemma require_task_None task_id w :
  results_store w !! task_id = None ->
  require_task task_id w
  = (Raise (mkExn KeyError (py "'" ++ task_id ++ py "'")), w).
Proof. unfold require_task. by intros ->. Qed.

Lemma require_task_Ret task_id w u w' :
  require_task task_id w = (Ret u, w') ->
  w' = w /\ is_Some (results_store w !! task_id).
Proof.
  unfold require_task. destruct (results_store w !! task_id) eqn:Ht; [|done].
  intros [= _ <-]. split; [done|]. by eexists.
Qed.

Lemma require_comments_Ret processed msg w comments w' :
  require_comments processed msg w = (Ret comments, w') ->
  processed = Some comments.
Proof. destruct processed as [[|c cs]|]; [done| |done]. by intros [= <- _]. Qed.

Lemma Forall2_ids results (comments : list Comment) :
  Forall2 (fun r c => res_comment_id r = comment_id c /\
                      res_comment_text r = comment_text c) results comments ->
  map res_comment_id results = map comment_id comments.
Proof. induction 1 as [|r c rs cs [Hid _] _ IH]; [done|]. by rewrite /= Hid IH. Qed.

(** The record the error handler of [process_documents] leaves behind. *)
Lemma error_handler_status task_id e w o w' t :
  (require_task task_id;;
   now ← now_isoformat;
   update_task task_id
     [(py "status", TStr (py "error"));
      (py "progress", TStr (py "error"));
      (py "error", TStr (exn_str e));
      (py "completed_at", TStr now)]) w = (o, w') ->
  results_store w' !! task_id = Some t ->
  is_Some (results_store w !! task_id) /\
  o = Ret tt /\
  quiet w (mkWorld (results_store w) (external w') (calls w')) /\
  t !! py "status" = Some (TStr (py "error")) /\
  t !! py "progress" = Some (TStr (py "error")) /\
  t !! py "error" = Some (TStr (exn_str e)).
Proof.
  rewrite bind_run.
  destruct (results_store w !! task_id) as [t0|] eqn:Ht0.
  2:{ rewrite (require_task_None _ _ Ht0). intros [= _ <-] Ht. congruence. }
  rewrite (require_task_run _ _ _ Ht0) bind_run.
  destruct (now_isoformat_run w) as (s & w1 & -> & [Hs Hq]).
  destruct (update_task _ _ w1) as [[[]|e'] w2] eqn:Hu.
  - intros [= <- <-] Ht.
    pose proof Hu as (t1 & Ht1 & Ht')%update_task_Ret.
    rewrite Ht in Ht'. injection Ht' as ->.
    rewrite (update_task_run _ _ _ _ Ht1) in Hu. injection Hu as <-.
    rewrite -Hs. split_and!; [by eexists|done|by split| | |];
      cbn [fold_left fst snd]; by lookup_task.
  - intros [= <- <-] Ht. apply update_task_Raise in Hu. congruence.
Qed.

(** C6. When [process_documents] leaves the task in the completed state,
    the report stored for it has one record per comment loaded from the
    comments file, in the order of the file, each carrying the id and the
    text of its comment; the ids are pairwise different. *)
Theorem completed_report_matches_comments
    task_id doc_v1_path doc_v2_path comments_path doc_base_name w o w' t :
  process_documents task_id doc_v1_path doc_v2_path comments_path
    doc_base_name w = (o, w') ->
  results_store w' !! task_id = Some t ->
  t !! py "status" = Some (TStr (py "completed")) ->
  exists comments results,
    load_comments comments_path = Some comments /\
    t !! py "result" = Some (TResults results) /\
    length results = length comments /\
    Forall2 (fun r c => res_comment_id r = comment_id c /\
                        res_comment_text r = comment_text c)
      results comments /\
    NoDup (map res_comment_id results).
Proof.
  unfold process_documents, try_except.
  destruct (process_documents_body _ _ _ _ _ w) as [[[]|e] w1] eqn:Hbody.
  - intros [= <- <-] Ht Hst. unfold process_documents_body in Hbody.
    apply bind_Ret_inv in Hbody as (? & ? & _ & Hbody).
    apply bind_Ret_inv in Hbody as (? & ? & _ & Hbody).
    apply bind_Ret_inv in Hbody as (? & ? & _ & Hbody).
    apply bind_Ret_inv in Hbody as (? & ? & _ & Hbody).
    apply bind_Ret_inv in Hbody as (? & ? & _ & Hbody).
    apply bind_Ret_inv in Hbody as (? & ? & _ & Hbody).
    apply bind_Ret_inv in Hbody as (? & ? & _ & Hbody).
    apply bind_Ret_inv in Hbody as (pc & ? & Hpc & Hbody).
    apply bind_Ret_inv in Hbody as (comments & ? & Hreq & Hbody).
    apply bind_Ret_inv in Hbody as (? & ? & _ & Hbody).
    apply bind_Ret_inv in Hbody as (? & ? & _ & Hbody).
    apply bind_Ret_inv in Hbody as (? & ? & _ & Hbody).
    apply bind_Ret_inv in Hbody as (? & ? & _ & Hbody).
    apply bind_Ret_inv in Hbody as (? & ? & _ & Hbody).
    apply bind_Ret_inv in Hbody as (? & ? & _ & Hbody).
    apply bind_Ret_inv in Hbody as (results & ? & Hloop & Hbody).
    apply bind_Ret_inv in Hbody as (? & ? & _ & Hbody).
    apply bind_Ret_inv in Hbody as (? & ? & _ & Hbody).
    apply bind_Ret_inv in Hbody as (? & ? & _ & Hbody).
    apply bind_Ret_inv in Hbody as (now & ? & _ & Hbody).
    apply require_comments_Ret in Hreq as ->.
    apply process_comments_Ret in Hpc as (loaded & Hload & Hids).
    apply analyze_loop_Ret in Hloop as (rs & -> & Hrs).
    apply update_task_Ret in Hbody as (t0 & _ & Ht').
    rewrite Ht in Ht'. injection Ht' as ->.
    assert (Hall : Forall2 (fun r c => res_comment_id r = comment_id c /\
                              res_comment_text r = comment_text c)
                     ([] ++ rs) loaded).
    { eapply Forall2_trans; [|exact Hrs|exact Hids].
      intros r c c' [-> ->] [-> ->]. done. }
    exists loaded, ([] ++ rs). split_and!; [done| | by eapply Forall2_length |done|].
    + cbn [fold_left fst snd]. by lookup_task.
    + rewrite (Forall2_ids _ _ Hall).
      apply load_comments_Some in Hload as (? & ? & _ & _ & ->).
      apply read_comments_NoDup.
  - intros Hrun Ht Hst.
    eapply error_handler_status in Hrun as (_ & _ & _ & Herr & _); [|done].
    rewrite Herr in Hst. injection Hst as Hst.
    vm_compute in Hst. discriminate Hst.
Qed.

(** ** A task without comments *)

Lemma process_document_ok file_path w e' :
  document_ok file_path (external w) e' ->
  exists doc w',
    process_document file_path w = (Ret (Some doc), w') /\
    chunks doc <> [] /\ external w' = e'.
Proof.
  intros (text & embs & Hload & Htext & Henc & Hchunks).
  unfold process_document. rewrite Hload.
  destruct text as [|c t]; [done|].
  destruct (text_splitter_split_text (c :: t)) as [|p ps] eqn:Hsplit; [done|].
  unfold try_except. rewrite bind_run /call Henc.
  by eexists _, _.
Qed.

Lemma process_document_Some file_path w doc w' :
  process_document file_path w = (Ret (Some doc), w') ->
  chunks doc <> [] ->
  document_ok file_path (external w) (external w').
Proof.
  unfold process_document, document_ok.
  destruct (load_document_text file_path) as [[|c t]|]; [done| |done].
  destruct (text_splitter_split_text (c :: t)) as [|p ps] eqn:Hsplit.
  - by intros [= <- _] Hne.
  - unfold try_except. rewrite bind_run /call.
    destruct (embedding_model_encode (p :: ps) settings.DEFAULT_DOC_PREFIX
                (external w)) as [[embs|e] e1] eqn:Henc; [|done].
    intros [= <- <-] Hne. cbn [chunks] in Hne. cbn [external].
    exists (c :: t), embs. by rewrite Hsplit.
Qed.

Lemma require_chunks_cases processed msg w :
  (exists cs, require_chunks processed msg w = (Ret cs, w) /\
              exists doc, processed = Some doc /\ chunks doc <> []) \/
  (require_chunks processed msg w = (Raise (mkExn PlainException msg), w) /\
   forall doc, processed = Some doc -> chunks doc = []).
Proof.
  destruct processed as [[txt [|c cs]]|].
  - right. split; [done|]. by intros doc [= <-].
  - left. eexists. split; [done|]. by eexists.
  - right. by split.
Qed.

(** What the [try] body does when the comments file has no comment. *)
Lemma process_documents_body_no_comments
    task_id doc_v1_path doc_v2_path comments_path doc_base_name w t0 :
  results_store w !! task_id = Some t0 ->
  load_comments comments_path = Some [] ->
  exists msg w1 extra,
    process_documents_body task_id doc_v1_path doc_v2_path comments_path
      doc_base_name w = (Raise (mkExn PlainException msg), w1) /\
    is_Some (results_store w1 !! task_id) /\
    calls w1 = calls w ++ extra /\
    Forall (fun c => is_vector_store_call c = false) extra /\
    msg ∈ [v1_failure doc_v1_path; v2_failure doc_v2_path;
           comments_failure comments_path] /\
    (forall e1 e2,
       document_ok doc_v1_path (external w) e1 ->
       document_ok doc_v2_path e1 e2 ->
       msg = comments_failure comments_path) /\
    ((forall e1, ~ document_ok doc_v1_path (external w) e1) ->
     msg = v1_failure doc_v1_path) /\
    (forall e1,
       document_ok doc_v1_path (external w) e1 ->
       (forall e2, ~ document_ok doc_v2_path e1 e2) ->
       msg = v2_failure doc_v2_path).
Proof.
  intros Ht0 Hload. unfold process_documents_body.
  rewrite bind_run (set_task_field_run _ _ _ _ _ Ht0).
  set (wa := mkWorld _ _ _).
  rewrite bind_run.
  destruct (process_document_run doc_v1_path wa) as (o1 & wb & Hp1 & [Hs1 (x1 & Hc1 & Hx1)]).
  rewrite Hp1 bind_run.
  destruct (require_chunks_cases o1 (v1_failure doc_v1_path) wb)
    as [(cs1 & Hr1 & doc1 & -> & Hne1)|[Hr1 Hbad1]]; rewrite Hr1.
  2:{ eexists _, _, x1. split_and!; [done| | done | done | | |done|].
      - rewrite Hs1 /wa. cbn [results_store]. rewrite lookup_insert_eq.
        by eexists.
      - by left.
      - intros e1 e2 Hok1 _.
        apply (process_document_ok _ wa) in Hok1 as (doc & w' & Hp & Hne & _).
        rewrite Hp in Hp1. injection Hp1 as <- _. by specialize (Hbad1 _ eq_refl).
      - intros e1 Hok1 _.
        apply (process_document_ok _ wa) in Hok1 as (doc & w' & Hp & Hne & _).
        rewrite Hp in Hp1. injection Hp1 as <- _. by specialize (Hbad1 _ eq_refl). }
  assert (Hok1 : document_ok doc_v1_path (external w) (external wb)).
  { by apply (process_document_Some _ wa doc1). }
  assert (Hwb : results_store wb !! task_id
                = Some (<[py "progress" := TStr (py "processing_v1")]> t0)).
  { rewrite Hs1 /wa. cbn [results_store]. by rewrite lookup_insert_eq. }
  rewrite bind_run (set_task_field_run _ _ _ _ _ Hwb).
  set (wc := mkWorld _ _ _).
  rewrite bind_run.
  destruct (process_document_run doc_v2_path wc) as (o2 & wd & Hp2 & [Hs2 (x2 & Hc2 & Hx2)]).
  rewrite Hp2 bind_run.
  destruct (require_chunks_cases o2 (v2_failure doc_v2_path) wd)
    as [(cs2 & Hr2 & doc2 & -> & Hne2)|[Hr2 Hbad2]]; rewrite Hr2.
  2:{ eexists _, _, (x1 ++ x2). split_and!; [done| | | | | | |done].
      - rewrite Hs2 /wc. cbn [results_store]. rewrite lookup_insert_eq.
        by eexists.
      - rewrite Hc2 /wc. cbn [calls]. by rewrite Hc1 /wa -app_assoc.
      - by apply Forall_app.
      - right. by left.
      - intros e1 e2 Hok1' Hok2.
        apply (process_document_ok _ wa) in Hok1' as (doc & w' & Hp & _ & He1).
        rewrite Hp in Hp1. injection Hp1 as _ <-.
        rewrite -He1 in Hok2.
        apply (process_document_ok _ wc) in Hok2 as (doc' & w'' & Hp' & Hne & _).
        rewrite Hp' in Hp2. injection Hp2 as <- _.
        by specialize (Hbad2 _ eq_refl).
      - intros Hno. by destruct (Hno _ Hok1). }
  assert (Hok2 : document_ok doc_v2_path (external wb) (external wd)).
  { by apply (process_document_Some _ wc doc2). }
  assert (Hwd : is_Some (results_store wd !! task_id)).
  { rewrite Hs2 /wc. cbn [results_store]. rewrite lookup_insert_eq.
    by eexists. }
  destruct Hwd as [td Hwd].
  rewrite bind_run (set_task_field_run _ _ _ _ _ Hwd).
  set (we := mkWorld _ _ _).
  rewrite bind_run process_comments_empty // bind_run.
  cbn [require_comments raise].
  eexists _, _, (x1 ++ x2). split_and!; [done| | | | |done| |].
  - rewrite /we. cbn [results_store]. rewrite lookup_insert_eq. by eexists.
  - rewrite /we. cbn [calls]. rewrite Hc2 /wc. cbn [calls].
    by rewrite Hc1 /wa -app_assoc.
  - by apply Forall_app.
  - right. right. by left.
  - intros Hno. by destruct (Hno _ Hok1).
  - intros e1 Hok1' Hno.
    apply (process_document_ok _ wa) in Hok1' as (doc & w' & Hp & _ & He1).
    rewrite Hp in Hp1. injection Hp1 as _ <-. rewrite -He1 in Hno.
    by destruct (Hno _ Hok2).
Qed.

(** C7, as the code has it. A registered task whose comments file holds no
    non-blank line ends in the error state, and on the way no call is made
    to the vector store. The message recorded is the one about the comments
    when both documents were turned into at least one chunk; otherwise it is
    the message about the first document that was not: the one about
    document v1 when that document was not, and the one about document v2
    when document v1 was and document v2 was not. *)
Theorem no_comments_task_fails
    task_id doc_v1_path doc_v2_path comments_path doc_base_name w t0
    path content :
  results_store w !! task_id = Some t0 ->
  resolve_path comments_path = Some path ->
  fs path = Some (Ret content) ->
  Forall (fun l => nonblank l = false) (file_lines content) ->
  exists w' t msg extra,
    process_documents task_id doc_v1_path doc_v2_path comments_path
      doc_base_name w = (Ret tt, w') /\
    results_store w' !! task_id = Some t /\
    t !! py "status" = Some (TStr (py "error")) /\
    t !! py "progress" = Some (TStr (py "error")) /\
    t !! py "error" = Some (TStr msg) /\
    msg ∈ [v1_failure doc_v1_path; v2_failure doc_v2_path;
           comments_failure comments_path] /\
    calls w' = calls w ++ extra /\
    Forall (fun c => is_vector_store_call c = false) extra /\
    (forall e1 e2,
       document_ok doc_v1_path (external w) e1 ->
       document_ok doc_v2_path e1 e2 ->
       msg = comments_failure comments_path) /\
    ((forall e1, ~ document_ok doc_v1_path (external w) e1) ->
     msg = v1_failure doc_v1_path) /\
    (forall e1,
       document_ok doc_v1_path (external w) e1 ->
       (forall e2, ~ document_ok doc_v2_path e1 e2) ->
       msg = v2_failure doc_v2_path).
Proof.
  intros Ht0 Hpath Hfs Hblank.
  assert (Hload : load_comments comments_path = Some []).
  { by rewrite /load_comments Hpath Hfs read_comments_blank. }
  destruct (process_documents_body_no_comments task_id doc_v1_path
              doc_v2_path comments_path doc_base_name w t0 Ht0 Hload)
    as (msg & w1 & extra & Hbody & [t1 Ht1] & Hcalls & Hextra & Hmsg & Hok
        & Hv1 & Hv2).
  unfold process_documents, try_except. rewrite Hbody bind_run.
  rewrite (require_task_run _ _ _ Ht1) bind_run.
  destruct (now_isoformat_run w1) as (s & w2 & -> & [Hs (x & Hc & Hx)]).
  rewrite -Hs in Ht1. rewrite (update_task_run _ _ _ _ Ht1).
  eexists _, _, msg, (extra ++ x).
  split_and!; [done| | | | |done| | |done|done|done].
  - cbn [results_store]. apply lookup_insert_eq.
  - cbn [fold_left fst snd]. by lookup_task.
  - cbn [fold_left fst snd]. by lookup_task.
  - cbn [fold_left fst snd exn_str]. by lookup_task.
  - cbn [calls]. by rewrite Hc Hcalls -app_assoc.
  - by apply Forall_app.
Qed.

(** * Further properties *)

(** ** More on the analyzer *)

Lemma find_from_absent c s i : c ∉ s -> find_from s [c] i = (-1)%Z.
Proof.
  revert i. induction s as [|x s IH]; intros i Hc; [done|].
  apply not_elem_of_cons in Hc as [Hx Hc].
  cbn [find_from]. rewrite startswith_single.
  destruct (N.eqb_spec c x) as [->|_]; [done|]. by apply IH.
Qed.

Lemma elem_of_strip c s : c ∈ strip s -> c ∈ s.
Proof. by intros H%elem_of_rstrip%elem_of_lstrip. Qed.

(** X1. A completion without an opening brace, or without a closing one, is
    not cut: the text handed to the decoder is the whole stripped
    completion. *)
Theorem candidate_json_no_braces s :
  123%N ∉ s \/ 125%N ∉ s -> candidate_json s = strip s.
Proof.
  intros H. unfold candidate_json.
  change (py "{") with [123%N]. change (py "}") with [125%N]. cbv zeta.
  destruct H as [H|H].
  - rewrite /find find_from_absent; [|done].
    intros Hs. by apply H, elem_of_strip.
  - rewrite /rfind rfind_from_absent; [|by rewrite andb_false_r].
    intros Hs. by apply H, elem_of_strip.
Qed.

(** X2. When the last closing brace of the stripped completion stands before
    its first opening brace, the text handed to the decoder is empty. *)
Theorem candidate_json_reversed_braces s a b c :
  strip s = a ++ 125%N :: b ++ 123%N :: c ->
  123%N ∉ a -> 123%N ∉ b -> 125%N ∉ b -> 125%N ∉ c ->
  candidate_json s = [].
Proof.
  intros Hs Ha Hb Hb' Hc. unfold candidate_json.
  change (py "{") with [123%N]. change (py "}") with [125%N]. cbv zeta.
  rewrite Hs.
  assert (Hf : find (a ++ 125%N :: b ++ 123%N :: c) [123%N]
               = Z.of_nat (length (a ++ 125%N :: b))).
  { replace (a ++ 125%N :: b ++ 123%N :: c)
      with ((a ++ 125%N :: b) ++ 123%N :: c)
      by (by rewrite -?app_assoc).
    rewrite /find find_from_first //.
    rewrite elem_of_app elem_of_cons. intros [?|[?|?]]; done. }
  assert (Hr : rfind (a ++ 125%N :: b ++ 123%N :: c) [125%N]
               = Z.of_nat (length a)).
  { rewrite /rfind rfind_from_last //.
    rewrite elem_of_app elem_of_cons. intros [?|[?|?]]; done. }
  rewrite Hf Hr length_app /=.
  destruct (Z.eqb_spec (Z.of_nat (length a + S (length b))) (-1)); [lia|].
  destruct (Z.eqb_spec (Z.of_nat (length a)) (-1)); [lia|].
  cbn [negb andb]. unfold slice, clip.
  destruct (Z.ltb_spec (Z.of_nat (length a + S (length b))) 0); [lia|].
  destruct (Z.ltb_spec (Z.of_nat (length a) + 1) 0); [lia|].
  replace (Z.to_nat _) with 0%nat at 1; [done|].
  rewrite !length_app /= length_app /=. lia.
Qed.

(** X3. A completion whose candidate decodes to a JSON value that is not an
    object (a list, a string, a number, a literal) gives an error record:
    the [.get] on it raises, the candidate text goes to [evidence_v1] and
    the explanation names the type. *)
Theorem analyze_comment_not_object comment base w w' s v :
  s <> [] ->
  request_completion comment base w = (Ret (Some s), w') ->
  json_loads (candidate_json s) = Ret v ->
  (forall d, v <> PyDict d) ->
  exists r,
    analyze_comment comment base w = (Ret r, w') /\
    status r = PyStr (py "error") /\
    evidence_v1 r = PyStr (candidate_json s) /\
    explanation r
    = PyStr (py "Error analyzing comment: "
             ++ py "'" ++ type_name v ++ py "' object has no attribute 'get'").
Proof.
  intros Hs Hreq Hv Hnd. eexists. rewrite analyze_comment_run Hreq.
  split; [done|]. rewrite interpret_completion_nonempty // Hv.
  destruct v; try done. by destruct (Hnd d).
Qed.

(** X4. A missing or empty completion gives exactly this record: the
    explanation is "Error analyzing comment (Unknown)" and the three other
    text fields are empty. *)
Theorem analyze_comment_empty_completion comment base w w' resp :
  request_completion comment base w = (Ret resp, w') ->
  resp = None \/ resp = Some [] ->
  analyze_comment comment base w
  = (Ret {| res_comment_id := comment_id comment;
            res_comment_text := comment_text comment;
            explanation := PyStr (py "Error analyzing comment (Unknown)");
            evidence_v1 := PyStr [];
            evidence_v2 := PyStr [];
            suggestion := PyStr [];
            status := PyStr (py "error") |}, w').
Proof.
  intros Hreq Hresp. rewrite analyze_comment_run Hreq.
  by destruct Hresp as [-> | ->].
Qed.

Lemma call_inv {A} c (op : E -> outcome A * E) w o w' :
  call c op w = (o, w') ->
  op (external w) = (o, external w') /\
  results_store w' = results_store w /\
  calls w' = calls w ++ [c].
Proof.
  unfold call. destruct (op (external w)) as [o1 e1]. by intros [= <- <-].
Qed.

Lemma bind_Raise_inv {A B} (m : M A) (f : A -> M B) w e w' :
  (m ≫= f) w = (Raise e, w') ->
  m w = (Raise e, w') \/
  exists a w1, m w = (Ret a, w1) /\ f a w1 = (Raise e, w').
Proof.
  rewrite bind_run. destruct (m w) as [[a|x] w1]; intros H.
  - right. by exists a, w1.
  - left. by injection H as <- <-.
Qed.

Lemma get_embedding_inv comment w o w' :
  get_embedding comment w = (o, w') ->
  w' = w /\
  match embedding comment with
  | Some q => o = Ret q
  | None => o = Raise (mkExn KeyError (py "'embedding'"))
  end.
Proof.
  unfold get_embedding. destruct (embedding comment); by intros [= <- <-].
Qed.

Lemma analyze_comment_Ret_inv comment base w r w' :
  analyze_comment comment base w = (Ret r, w') ->
  exists q h1 e1 h2 e2 resp,
    embedding comment = Some q /\
    vector_store_search (settings.QDRANT_COLLECTION_V1_PREFIX ++ base) q 10
      (external w) = (Ret h1, e1) /\
    vector_store_search (settings.QDRANT_COLLECTION_V2_PREFIX ++ base) q 10
      e1 = (Ret h2, e2) /\
    llm_client_get_completion
      (build_prompt comment (evidence_text h1) (evidence_text h2)) e2
    = (Ret resp, external w') /\
    r = interpret_completion comment resp /\
    results_store w' = results_store w /\
    calls w'
    = calls w
      ++ [CallSearch (settings.QDRANT_COLLECTION_V1_PREFIX ++ base) q 10;
          CallSearch (settings.QDRANT_COLLECTION_V2_PREFIX ++ base) q 10;
          CallGetCompletion
            (build_prompt comment (evidence_text h1) (evidence_text h2))].
Proof.
  intros H. apply bind_Ret_inv in H as (resp & w1 & H & [= <- <-]).
  unfold request_completion, top_k in H.
  apply bind_Ret_inv in H as (q & wa & [-> Hq]%get_embedding_inv & H).
  apply bind_Ret_inv in H as (h1 & wb & (H1 & Hs1 & Hc1)%call_inv & H).
  apply bind_Ret_inv in H as (q' & wc & [-> Hq']%get_embedding_inv & H).
  apply bind_Ret_inv in H as (h2 & wd & (H2 & Hs2 & Hc2)%call_inv & H).
  apply call_inv in H as (H3 & Hs3 & Hc3).
  destruct (embedding comment) as [q0|]; [|done].
  injection Hq as ->. injection Hq' as ->.
  exists q0, h1, (external wb), h2, (external wd), resp.
  split_and!; [done..|congruence|].
  by rewrite Hc3 Hc2 Hc1 -!app_assoc.
Qed.

(** X5. When [analyze_comment] returns, it has made exactly three calls, in
    this order: a search of the v1 collection and a search of the v2
    collection, both with the comment's embedding and [top_k = 10], and one
    completion request with the prompt built from the two lists of hits.
    The record comes from that one completion -- there is no second
    request, whatever the completion was -- and the task records are not
    touched. *)
Theorem analyze_comment_calls comment base w r w' :
  analyze_comment comment base w = (Ret r, w') ->
  exists q h1 e1 h2 e2 resp,
    embedding comment = Some q /\
    vector_store_search (settings.QDRANT_COLLECTION_V1_PREFIX ++ base) q 10
      (external w) = (Ret h1, e1) /\
    vector_store_search (settings.QDRANT_COLLECTION_V2_PREFIX ++ base) q 10
      e1 = (Ret h2, e2) /\
    llm_client_get_completion
      (build_prompt comment (evidence_text h1) (evidence_text h2)) e2
    = (Ret resp, external w') /\
    r = interpret_completion comment resp /\
    results_store w' = results_store w /\
    calls w'
    = calls w
      ++ [CallSearch (settings.QDRANT_COLLECTION_V1_PREFIX ++ base) q 10;
          CallSearch (settings.QDRANT_COLLECTION_V2_PREFIX ++ base) q 10;
          CallGetCompletion
            (build_prompt comment (evidence_text h1) (evidence_text h2))].
Proof. apply analyze_comment_Ret_inv. Qed.

(** X6. A comment without the [embedding] key makes [analyze_comment] raise
    [KeyError('embedding')] before any service is called: the world is left
    as it was. *)
Theorem analyze_comment_without_embedding comment base w :
  embedding comment = None ->
  analyze_comment comment base w = (Raise (mkExn KeyError (py "'embedding'")), w).
Proof.
  intros H.
  rewrite analyze_comment_run /request_completion /get_embedding H.
  by rewrite bind_run.
Qed.

(** X7. The only exceptions that leave [analyze_comment] are the [KeyError]
    of a comment without embedding and whatever one of its three service
    calls raises, passed on unchanged; what goes wrong while the completion
    is decoded never does. *)
Theorem analyze_comment_raises comment base w e w' :
  analyze_comment comment base w = (Raise e, w') ->
  (embedding comment = None /\ e = mkExn KeyError (py "'embedding'") /\ w' = w)
  \/
  exists q,
    embedding comment = Some q /\
    (vector_store_search (settings.QDRANT_COLLECTION_V1_PREFIX ++ base) q 10
       (external w) = (Raise e, external w')
     \/
     exists h1 e1,
       vector_store_search (settings.QDRANT_COLLECTION_V1_PREFIX ++ base) q 10
         (external w) = (Ret h1, e1) /\
       (vector_store_search (settings.QDRANT_COLLECTION_V2_PREFIX ++ base) q 10
          e1 = (Raise e, external w')
        \/
        exists h2 e2,
          vector_store_search (settings.QDRANT_COLLECTION_V2_PREFIX ++ base)
            q 10 e1 = (Ret h2, e2) /\
          llm_client_get_completion
            (build_prompt comment (evidence_text h1) (evidence_text h2)) e2
          = (Raise e, external w'))).
Proof.
  intros H. apply bind_Raise_inv in H as [H|(resp & w1 & _ & H)]; [|done].
  unfold request_completion, top_k in H.
  destruct (embedding comment) as [q0|] eqn:Hemb.
  2:{ left. apply bind_Raise_inv in H as [[-> Hq]%get_embedding_inv|H].
      - rewrite Hemb in Hq. by injection Hq as ->.
      - destruct H as (q & wa & [_ Hq]%get_embedding_inv & _).
        by rewrite Hemb in Hq. }
  right. exists q0. split; [done|].
  apply bind_Raise_inv in H as [[_ Hq]%get_embedding_inv|H];
    [by rewrite Hemb in Hq|].
  destruct H as (q & wa & [-> Hq]%get_embedding_inv & H).
  rewrite Hemb in Hq. injection Hq as ->.
  apply bind_Raise_inv in H as [(H1 & _)%call_inv|H]; [by left|].
  destruct H as (h1 & wb & (H1 & Hs1 & Hc1)%call_inv & H).
  right. exists h1, (external wb). split; [done|].
  apply bind_Raise_inv in H as [[_ Hq']%get_embedding_inv|H];
    [by rewrite Hemb in Hq'|].
  destruct H as (q' & wc & [-> Hq']%get_embedding_inv & H).
  rewrite Hemb in Hq'. injection Hq' as ->.
  apply bind_Raise_inv in H as [(H2 & _)%call_inv|H]; [by left|].
  destruct H as (h2 & wd & (H2 & Hs2 & Hc2)%call_inv & H).
  right. exists h2, (external wd). split; [done|].
  by apply call_inv in H as (H3 & _).
Qed.
(** ** More on [load_comments] *)

Lemma lstrip_head s :
  lstrip s = [] \/ exists c r, lstrip s = c :: r /\ isspace c = false.
Proof.
  induction s as [|x s IH]; [by left|].
  cbn [lstrip]. destruct (isspace x) eqn:Hx; [done|].
  right. by exists x, s.
Qed.

Lemma lstrip_nonspace c r : isspace c = false -> lstrip (c :: r) = c :: r.
Proof. cbn [lstrip]. by intros ->. Qed.

Lemma lstrip_idemp s : lstrip (lstrip s) = lstrip s.
Proof.
  destruct (lstrip_head s) as [->|(c & r & -> & Hc)]; [done|].
  by apply lstrip_nonspace.
Qed.

Lemma rstrip_idemp s : rstrip (rstrip s) = rstrip s.
Proof. by rewrite /rstrip reverse_involutive lstrip_idemp. Qed.

Lemma rstrip_cons_nonspace c r :
  isspace c = false -> exists r', rstrip (c :: r) = c :: r'.
Proof.
  intros Hc. unfold rstrip. rewrite reverse_cons.
  destruct (lstrip_head (reverse r)) as [Hr|(x & t & Hr & Hx)].
  - exists []. induction (reverse r) as [|y l IH].
    + by rewrite /= Hc.
    + cbn [lstrip app] in *. destruct (isspace y); [by apply IH|done].
  - exists (reverse (x :: t)).
    assert (Hl : forall l, lstrip l = x :: t -> lstrip (l ++ [c]) = x :: t ++ [c]).
    { clear -Hx. induction l as [|y l IH]; [done|].
      cbn [lstrip app]. destruct (isspace y); [done|]. by intros [= -> ->]. }
    rewrite (Hl _ Hr) app_comm_cons reverse_app. done.
Qed.

Lemma strip_idemp s : strip (strip s) = strip s.
Proof.
  unfold strip.
  destruct (lstrip_head s) as [->|(c & r & -> & Hc)]; [done|].
  destruct (rstrip_cons_nonspace c r Hc) as [r' Hr].
  rewrite Hr (lstrip_nonspace _ _ Hc) -Hr. apply rstrip_idemp.
Qed.

Lemma read_comments_length i lines :
  length (read_comments i lines) = length (filter nonblank lines).
Proof.
  revert i. induction lines as [|l lines IH]; intros i; [done|].
  cbn [read_comments]. destruct (strip l) as [|x t] eqn:Hl.
  - rewrite filter_cons_False; [by apply nonblank_nil|]. apply IH.
  - rewrite filter_cons_True; [by eapply nonblank_cons|].
    by rewrite /= IH.
Qed.

Lemma read_comments_Forall i lines :
  Forall (fun c : Comment =>
            comment_text c <> [] /\
            strip (comment_text c) = comment_text c /\
            embedding c = None) (read_comments i lines).
Proof.
  revert i. induction lines as [|l lines IH]; intros i; [by constructor|].
  cbn [read_comments]. destruct (strip l) as [|x t] eqn:Hl; [apply IH|].
  constructor; [|apply IH]. cbn [comment_text embedding].
  split_and!; [done| |done]. by rewrite -Hl strip_idemp.
Qed.

(** X8. What [load_comments] returns has one comment per non-blank line of
    the file; the text of every comment is not empty and carries no leading
    or trailing white space, and no comment has an embedding yet. *)
Theorem load_comments_shape file_path comments :
  load_comments file_path = Some comments ->
  exists path content,
    resolve_path file_path = Some path /\
    fs path = Some (Ret content) /\
    length comments = length (filter nonblank (file_lines content)) /\
    Forall (fun c : Comment =>
              comment_text c <> [] /\
              strip (comment_text c) = comment_text c /\
              embedding c = None) comments.
Proof.
  intros (path & content & Hp & Hfs & ->)%load_comments_Some.
  exists path, content. split_and!; [done..| |].
  - apply read_comments_length.
  - apply read_comments_Forall.
Qed.

(** X9. [load_comments] gives [None] in exactly three situations: the file
    exists neither at the given path nor under [/app]; it exists at the
    given path and reading it raises; it exists only under [/app] and
    reading it there raises. A file at the given path is never passed over
    for the one under [/app]. *)
Theorem load_comments_None file_path :
  load_comments file_path = None <->
  (fs file_path = None /\ fs (path_join (py "/app") file_path) = None) \/
  (exists e, fs file_path = Some (Raise e)) \/
  (fs file_path = None /\
   exists e, fs (path_join (py "/app") file_path) = Some (Raise e)).
Proof.
  unfold load_comments, resolve_path.
  destruct (fs file_path) as [[c|e]|] eqn:H1.
  - rewrite H1. split; [done|]. by intros [[? _]|[[? ?]|[? _]]].
  - rewrite H1. split; [|done]. intros _. right. left. by exists e.
  - destruct (fs (path_join (py "/app") file_path)) as [[c|e]|] eqn:H2.
    + rewrite H2. split; [done|].
      by intros [[_ ?]|[[? ?]|[_ [? ?]]]].
    + rewrite H2. split; [|done]. intros _. right. right. split; [done|].
      by exists e.
    + split; [|done]. intros _. by left.
Qed.

(** ** More on [process_comments] and [process_document] *)

Lemma try_except_run {A} (body : M A) (handler : exn -> M A) w :
  try_except body handler w =
  match body w with
  | (Ret a, w') => (Ret a, w')
  | (Raise e, w') => handler e w'
  end.
Proof. reflexivity. Qed.

Lemma set_embeddings_lookup comments embeddings k (c : Comment) :
  Forall (fun c : Comment => embedding c = None) comments ->
  set_embeddings comments embeddings !! k = Some c ->
  embedding c = embeddings !! k.
Proof.
  intros Hnone. revert embeddings k.
  induction Hnone as [|c0 cs Hc0 Hcs IH]; intros embs k; [by destruct embs|].
  destruct embs as [|e es]; cbn [set_embeddings].
  - intros Hk. apply list_elem_of_lookup_2 in Hk.
    assert (Hall : Forall (fun c : Comment => embedding c = None) (c0 :: cs))
      by by constructor.
    rewrite Forall_forall in Hall. by rewrite (Hall _ Hk).
  - destruct k as [|k]; [by intros [= <-]|]. apply (IH es k).
Qed.

Lemma set_embeddings_length comments embeddings :
  length (set_embeddings comments embeddings) = length comments.
Proof.
  revert embeddings. induction comments as [|c cs IH]; intros [|e es];
    cbn [set_embeddings]; try done. by rewrite /= IH.
Qed.

(** X10. [process_comments] never raises and never touches the task
    records. Without a readable file it gives [None]; for a file without
    comments it gives the empty list and does not call the embedding model;
    otherwise it calls the model once, on the texts of all comments in
    order and with the query prefix, and gives [None] exactly when that
    call raises. *)
Theorem process_comments_outcome file_path w :
  exists o w',
    process_comments file_path w = (Ret o, w') /\
    results_store w' = results_store w /\
    (load_comments file_path = None -> o = None /\ w' = w) /\
    (load_comments file_path = Some [] -> o = Some [] /\ w' = w) /\
    (forall c cs,
       load_comments file_path = Some (c :: cs) ->
       calls w'
       = calls w ++ [CallEncode (map comment_text (c :: cs))
                       (py "search_query: ")] /\
       (o = None <->
        exists e,
          embedding_model_encode (map comment_text (c :: cs))
            (py "search_query: ") (external w) = (Raise e, external w'))).
Proof.
  unfold process_comments.
  destruct (load_comments file_path) as [[|c cs]|].
  - by eexists _, _.
  - rewrite try_except_run bind_run.
    destruct (call _ _ w) as [[embs|e] w1] eqn:Hcall;
      apply call_inv in Hcall as (Henc & Hs & Hc);
      eexists _, _; (split; [done|]); split_and!; try done.
    + intros c' cs' [= <- <-]. split; [done|]. split; [done|].
      intros [e He]. change settings.DEFAULT_COMMENT_PREFIX
        with (py "search_query: ") in Henc. congruence.
    + intros c' cs' [= <- <-]. split; [done|]. split; [|done].
      intros _. by exists e.
  - by eexists _, _.
Qed.

(** X11. The list [process_comments] returns has the comments of the file
    in their order, with ids and texts unchanged, and the k-th comment
    carries the k-th vector the model returned; a comment for which the
    model returned no vector has no embedding. *)
Theorem process_comments_embeddings file_path w comments w' :
  process_comments file_path w = (Ret (Some comments), w') ->
  exists loaded,
    load_comments file_path = Some loaded /\
    length comments = length loaded /\
    map comment_id comments = map comment_id loaded /\
    map comment_text comments = map comment_text loaded /\
    (loaded = [] \/
     exists embeddings,
       embedding_model_encode (map comment_text loaded)
         (py "search_query: ") (external w) = (Ret embeddings, external w') /\
       forall k c, comments !! k = Some c -> embedding c = embeddings !! k).
Proof.
  intros H. pose proof H as (loaded & Hload & Hids)%process_comments_Ret.
  exists loaded. split_and!; [done|by eapply Forall2_length| | |].
  - clear -Hids. induction Hids as [|? ? ? ? [Hid _] _ IH]; [done|].
    by rewrite /= Hid IH.
  - clear -Hids. induction Hids as [|? ? ? ? [_ Htx] _ IH]; [done|].
    by rewrite /= Htx IH.
  - unfold process_comments in H. rewrite Hload in H.
    destruct loaded as [|c cs]; [by left|]. right.
    rewrite try_except_run bind_run in H.
    destruct (call _ _ w) as [[embs|e] w1] eqn:Hcall; [|done].
    apply call_inv in Hcall as (Henc & _). injection H as <- <-.
    exists embs. split; [done|]. intros k c'.
    apply (set_embeddings_lookup (c :: cs) embs).
    apply load_comments_Some in Hload as (path & content & _ & _ & Hrc).
    pose proof (read_comments_Forall 0 (file_lines content)) as Hall.
    rewrite -Hrc in Hall. eapply Forall_impl; [exact Hall|].
    by intros ? (_ & _ & ?).
Qed.

Lemma make_chunks_spec i texts embeddings :
  map chunk_index (make_chunks i texts embeddings)
  = seq i (length (make_chunks i texts embeddings)) /\
  map text (make_chunks i texts embeddings)
  = take (length (make_chunks i texts embeddings)) texts /\
  map chunk_embedding (make_chunks i texts embeddings)
  = take (length (make_chunks i texts embeddings)) embeddings /\
  length (make_chunks i texts embeddings)
  = Nat.min (length texts) (length embeddings).
Proof.
  revert i embeddings. induction texts as [|t ts IH]; intros i [|e es];
    cbn [make_chunks]; try done.
  destruct (IH (S i) es) as (H1 & H2 & H3 & H4).
  cbn [map length seq take]. by rewrite H1 -H2 -H3 H4.
Qed.

(** X12. A document that [process_document] returns was read from the given
    file and is not empty; its chunks are numbered 0, 1, 2, ... in order,
    their texts are the first pieces of the split text, in order, and their
    vectors the first vectors the model returned -- as many as the shorter
    of the two lists. *)
Theorem process_document_chunks file_path w doc w' :
  process_document file_path w = (Ret (Some doc), w') ->
  load_document_text file_path = Some (original_text doc) /\
  original_text doc <> [] /\
  map chunk_index (chunks doc) = seq 0 (length (chunks doc)) /\
  map text (chunks doc)
  = take (length (chunks doc)) (text_splitter_split_text (original_text doc)) /\
  (chunks doc = [] \/
   exists embeddings,
     embedding_model_encode (text_splitter_split_text (original_text doc))
       (py "search_document: ") (external w) = (Ret embeddings, external w') /\
     map chunk_embedding (chunks doc) = take (length (chunks doc)) embeddings /\
     length (chunks doc)
     = Nat.min (length (text_splitter_split_text (original_text doc)))
         (length embeddings)).
Proof.
  unfold process_document.
  destruct (load_document_text file_path) as [[|c t]|]; [done| |done].
  destruct (text_splitter_split_text (c :: t)) as [|p ps] eqn:Hsplit.
  { intros [= <- <-]. split_and!; try done. by left. }
  rewrite try_except_run bind_run.
  destruct (call _ _ w) as [[embs|e] w1] eqn:Hcall; [|done].
  apply call_inv in Hcall as (Henc & _). intros [= <- <-].
  cbn [original_text chunks]. rewrite Hsplit.
  destruct (make_chunks_spec 0 (p :: ps) embs) as (H1 & H2 & H3 & H4).
  split_and!; [done..|]. right. by exists embs.
Qed.

(** X13. [process_document] never raises, never touches the task records
    and makes no call to the vector store. It gives [None] exactly when the
    file has no text (unreadable, unsupported or empty) or the embedding
    model raises on its pieces. *)
Theorem process_document_outcome file_path w :
  exists o w',
    process_document file_path w = (Ret o, w') /\
    quiet w w' /\
    (o = None <->
     load_document_text file_path = None \/
     load_document_text file_path = Some [] \/
     exists text e,
       load_document_text file_path = Some text /\
       text_splitter_split_text text <> [] /\
       embedding_model_encode (text_splitter_split_text text)
         (py "search_document: ") (external w) = (Raise e, external w')).
Proof.
  destruct (process_document_run file_path w) as (o & w' & Hrun & Hq).
  exists o, w'. split_and!; [done..|].
  unfold process_document in Hrun.
  destruct (load_document_text file_path) as [[|c t]|] eqn:Hload.
  - injection Hrun as <- <-. split; [|done]. intros _. right. by left.
  - destruct (text_splitter_split_text (c :: t)) as [|p ps] eqn:Hsplit.
    + injection Hrun as <- <-. split; [done|].
      intros [?|[?|(text & e & [= <-] & Hne & _)]]; try done.
    + rewrite try_except_run bind_run in Hrun.
      destruct (call _ _ w) as [[embs|e] w1] eqn:Hcall;
        apply call_inv in Hcall as (Henc & _); injection Hrun as <- <-.
      * split; [done|].
        intros [?|[?|(text & e & [= <-] & Hne & He)]]; try done.
        rewrite Hsplit in He.
        change settings.DEFAULT_DOC_PREFIX with (py "search_document: ") in Henc.
        congruence.
      * split; [|done]. intros _. right. right. exists (c :: t), e.
        by rewrite Hsplit.
  - injection Hrun as <- <-. split; [|done]. intros _. by left.
Qed.

(** ** What [process_documents] writes *)

Lemma writes_only_same task_id keys w w' :
  results_store w' = results_store w -> writes_only task_id keys w w'.
Proof. intros H. by rewrite /writes_only /task_field H. Qed.

Lemma writes_only_trans task_id keys w1 w2 w3 :
  writes_only task_id keys w1 w2 -> writes_only task_id keys w2 w3 ->
  writes_only task_id keys w1 w3.
Proof.
  intros (Ha & Hb & Hc) (Ha' & Hb' & Hc'). split_and!.
  - intros other Ho. by rewrite Ha' // Ha.
  - by rewrite Hb' Hb.
  - intros key Hk. by rewrite Hc' // Hc.
Qed.

Lemma writes_only_weaken task_id keys keys' w w' :
  keys ⊆ keys' -> writes_only task_id keys w w' ->
  writes_only task_id keys' w w'.
Proof.
  intros Hsub (Ha & Hb & Hc). split_and!; [done..|].
  intros key Hk. apply Hc. intros Hin. by apply Hk, Hsub.
Qed.

Lemma keeps_weaken task_id keys keys' {A} (m : M A) :
  keys ⊆ keys' -> keeps task_id keys m -> keeps task_id keys' m.
Proof. intros Hsub Hm w. by eapply writes_only_weaken. Qed.

Lemma keeps_bind task_id keys {A B} (m : M A) (f : A -> M B) :
  keeps task_id keys m -> (forall a, keeps task_id keys (f a)) ->
  keeps task_id keys (m ≫= f).
Proof.
  intros Hm Hf w. rewrite bind_run. specialize (Hm w).
  destruct (m w) as [[a|e] w1]; [|done].
  eapply writes_only_trans; [exact Hm|apply Hf].
Qed.

Lemma keeps_try_except task_id keys {A} (body : M A) (handler : exn -> M A) :
  keeps task_id keys body -> (forall e, keeps task_id keys (handler e)) ->
  keeps task_id keys (try_except body handler).
Proof.
  intros Hm Hf w. rewrite try_except_run. specialize (Hm w).
  destruct (body w) as [[a|e] w1]; [done|].
  eapply writes_only_trans; [exact Hm|apply Hf].
Qed.

Lemma keeps_on_raise_bind task_id keys {A B} (m : M A) (f : A -> M B) :
  keeps task_id keys m -> (forall a, keeps_on_raise task_id keys (f a)) ->
  keeps_on_raise task_id keys (m ≫= f).
Proof.
  intros Hm Hf w e w' [H|(a & w1 & Ha & H)]%bind_Raise_inv.
  - specialize (Hm w). by rewrite H in Hm.
  - specialize (Hm w). rewrite Ha in Hm.
    eapply writes_only_trans; [exact Hm|by eapply Hf].
Qed.

Lemma keeps_ret task_id keys {A} (a : A) : keeps task_id keys (mret a : M A).
Proof. intros w. by apply writes_only_same. Qed.

Lemma keeps_raise task_id keys {A} e : keeps task_id keys (raise e : M A).
Proof. intros w. by apply writes_only_same. Qed.

Lemma keeps_call task_id keys {A} c (op : E -> outcome A * E) :
  keeps task_id keys (call c op).
Proof.
  intros w. apply writes_only_same.
  destruct (call c op w) as [o w'] eqn:H. by apply call_inv in H as (_ & ? & _).
Qed.

Lemma keeps_set_task_field task_id key v :
  keeps task_id [key] (set_task_field task_id key v).
Proof.
  intros w. unfold set_task_field.
  destruct (results_store w !! task_id) as [t|] eqn:Ht;
    [|by apply writes_only_same].
  split_and!; cbn [snd results_store].
  - intros other Ho. by rewrite lookup_insert_ne.
  - rewrite lookup_insert_eq Ht. split; by eexists.
  - intros k Hk. rewrite /task_field /= lookup_insert_eq Ht /=.
    rewrite lookup_insert_ne //. intros ->. apply Hk. by left.
Qed.

Lemma fold_insert_lookup_ne (kvs : list (str * TaskVal))
    (t : gmap str TaskVal) key :
  key ∉ map fst kvs ->
  fold_left (fun t kv => <[kv.1 := kv.2]> t) kvs t !! key = t !! key.
Proof.
  revert t. induction kvs as [|[k v] kvs IH]; intros t Hk; [done|].
  apply not_elem_of_cons in Hk as [Hne Hk].
  cbn [fold_left]. rewrite IH //. by rewrite lookup_insert_ne.
Qed.

Lemma keeps_update_task task_id kvs :
  keeps task_id (map fst kvs) (update_task task_id kvs).
Proof.
  intros w. unfold update_task.
  destruct (results_store w !! task_id) as [t|] eqn:Ht;
    [|by apply writes_only_same].
  split_and!; cbn [snd results_store].
  - intros other Ho. by rewrite lookup_insert_ne.
  - rewrite lookup_insert_eq Ht. split; by eexists.
  - intros k Hk. rewrite /task_field /= lookup_insert_eq Ht /=.
    by apply fold_insert_lookup_ne.
Qed.

Lemma keeps_process_document task_id keys file_path :
  keeps task_id keys (process_document file_path).
Proof.
  intros w. destruct (process_document_run file_path w) as (o & w' & -> & [Hs _]).
  by apply writes_only_same.
Qed.

Lemma keeps_process_comments task_id keys file_path :
  keeps task_id keys (process_comments file_path).
Proof.
  unfold process_comments.
  destruct (load_comments file_path) as [[|c cs]|]; try apply keeps_ret.
  apply keeps_try_except; [|intros; apply keeps_ret].
  apply keeps_bind; [apply keeps_call|intros; apply keeps_ret].
Qed.

Lemma keeps_require_chunks task_id keys processed msg :
  keeps task_id keys (require_chunks processed msg).
Proof.
  destruct processed as [[txt [|c cs]]|];
    first [apply keeps_ret|apply keeps_raise].
Qed.

Lemma keeps_require_comments task_id keys processed msg :
  keeps task_id keys (require_comments processed msg).
Proof.
  destruct processed as [[|c cs]|];
    first [apply keeps_ret|apply keeps_raise].
Qed.

Lemma keeps_analyze_comment task_id keys comment base :
  keeps task_id keys (analyze_comment comment base).
Proof.
  apply keeps_bind; [|intros; apply keeps_ret].
  unfold request_completion.
  apply keeps_bind.
  { unfold get_embedding. destruct (embedding comment);
      first [apply keeps_ret|apply keeps_raise]. }
  intros q1. apply keeps_bind; [apply keeps_call|]. intros h1.
  apply keeps_bind.
  { unfold get_embedding. destruct (embedding comment);
      first [apply keeps_ret|apply keeps_raise]. }
  intros q2. apply keeps_bind; [apply keeps_call|]. intros h2.
  apply keeps_call.
Qed.

Lemma keeps_analyze_loop task_id name total i comments acc :
  keeps task_id [py "progress"; py "comment_progress"]
    (analyze_loop task_id name total i comments acc).
Proof.
  revert i acc. induction comments as [|c cs IH]; intros i acc.
  - apply keeps_ret.
  - cbn [analyze_loop]. apply keeps_bind.
    { eapply keeps_weaken; [|apply keeps_set_task_field].
      intros k Hk%list_elem_of_singleton. subst. right. by left. }
    intros _. apply keeps_bind; [apply keeps_analyze_comment|].
    intros r. apply IH.
Qed.

Lemma keeps_progress task_id stage :
  keeps task_id [py "progress"; py "comment_progress"]
    (set_task_field task_id (py "progress") stage).
Proof.
  eapply keeps_weaken; [|apply keeps_set_task_field].
  intros k Hk%list_elem_of_singleton. subst. by left.
Qed.

Lemma keeps_now_isoformat task_id keys : keeps task_id keys now_isoformat.
Proof. apply keeps_call. Qed.

Lemma keeps_require_task task_id keys task_id' :
  keeps task_id keys (require_task task_id').
Proof.
  intros w. apply writes_only_same. unfold require_task.
  by destruct (results_store w !! task_id').
Qed.

(** When the [try] body raises, it has written nothing but the two progress
    fields of its own task. *)
Lemma process_documents_body_raise
    task_id doc_v1_path doc_v2_path comments_path doc_base_name :
  keeps_on_raise task_id [py "progress"; py "comment_progress"]
    (process_documents_body task_id doc_v1_path doc_v2_path comments_path
       doc_base_name).
Proof.
  unfold process_documents_body.
  repeat (apply keeps_on_raise_bind;
          [first [ apply keeps_progress | apply keeps_process_document
                 | apply keeps_process_comments | apply keeps_require_chunks
                 | apply keeps_require_comments | apply keeps_call
                 | apply keeps_analyze_loop | apply keeps_now_isoformat
                 | apply keeps_require_task ]
          | intros ? ]).
  intros w e w' H. apply writes_only_same.
  unfold update_task in H. destruct (results_store w !! task_id); [done|].
  by injection H as _ <-.
Qed.

(** ** The run of a completed task, step by step *)

Lemma analyze_loop_calls task_id name total i comments acc w results w' :
  analyze_loop task_id name total i comments acc w = (Ret results, w') ->
  exists groups,
    calls w' = calls w ++ concat groups /\
    Forall2 (comment_calls name) comments groups.
Proof.
  revert i acc w. induction comments as [|c cs IH]; intros i acc w.
  - intros [= _ <-]. exists []. by rewrite app_nil_r.
  - cbn [analyze_loop]. intros H.
    apply bind_Ret_inv in H as (u & w1 & [Hc1 _]%set_task_field_Ret & H).
    apply bind_Ret_inv in H as (r & w2 & Hr & H).
    apply IH in H as (groups & Hcalls & Hgroups).
    apply analyze_comment_Ret_inv
      in Hr as (q & h1 & e1 & h2 & e2 & resp & Hq & _ & _ & _ & _ & _ & Hc2).
    eexists (_ :: groups). split.
    + rewrite Hcalls Hc2 Hc1 /= -app_assoc. done.
    + constructor; [|done]. by eexists _, _.
Qed.

Lemma process_comments_quiet file_path w o w' :
  process_comments file_path w = (o, w') -> quiet w w'.
Proof.
  unfold process_comments.
  destruct (load_comments file_path) as [[|c cs]|];
    try (intros [= _ <-]; apply quiet_refl).
  rewrite try_except_run bind_run.
  pose proof (call_quiet
    (CallEncode (map comment_text (c :: cs)) settings.DEFAULT_COMMENT_PREFIX)
    (embedding_model_encode (map comment_text (c :: cs))
       settings.DEFAULT_COMMENT_PREFIX) w eq_refl) as Hq.
  destruct (call _ _ w) as [[embs|e] w1]; by intros [= _ <-].
Qed.

Lemma require_chunks_Ret processed msg w cs w' :
  require_chunks processed msg w = (Ret cs, w') -> w' = w /\ cs <> [].
Proof.
  destruct processed as [[txt [|c l]]|]; [done| |done]. by intros [= <- <-].
Qed.

Lemma require_comments_inv processed msg w comments w' :
  require_comments processed msg w = (Ret comments, w') ->
  w' = w /\ comments <> [].
Proof. destruct processed as [[|c l]|]; [done| |done]. by intros [= <- <-]. Qed.

Lemma update_task_calls task_id kvs w o w' :
  update_task task_id kvs w = (o, w') ->
  calls w' = calls w /\ external w' = external w.
Proof.
  unfold update_task. destruct (results_store w !! task_id);
    by intros [= _ <-].
Qed.

Lemma now_isoformat_inv w o w' :
  now_isoformat w = (o, w') ->
  results_store w' = results_store w /\ calls w' = calls w ++ [CallNow].
Proof. unfold now_isoformat. by intros (_ & ? & ?)%call_inv. Qed.

(** Everything that has happened when the [try] body returns. *)
Lemma process_documents_body_Ret
    task_id doc_v1_path doc_v2_path comments_path doc_base_name w u w1 :
  process_documents_body task_id doc_v1_path doc_v2_path comments_path
    doc_base_name w = (Ret u, w1) ->
  exists cs1 cs2 loaded comments results now pre groups t,
    cs1 <> [] /\ cs2 <> [] /\
    load_comments comments_path = Some loaded /\
    comments <> [] /\
    Forall2 (fun c' c => comment_id c' = comment_id c /\
                         comment_text c' = comment_text c) comments loaded /\
    Forall2 (fun r c => res_comment_id r = comment_id c /\
                        res_comment_text r = comment_text c) results comments /\
    Forall (fun c => is_vector_store_call c = false) pre /\
    Forall2 (comment_calls (clean_base_name doc_base_name ++ py "-" ++ task_id))
      comments groups /\
    calls w1
    = calls w ++ pre
      ++ [CallRecreateCollection (v1_collection doc_base_name task_id);
          CallUpsertChunks (v1_collection doc_base_name task_id) cs1;
          CallRecreateCollection (v2_collection doc_base_name task_id);
          CallUpsertChunks (v2_collection doc_base_name task_id) cs2]
      ++ concat groups
      ++ [CallWriteResults (results_path task_id) results; CallNow] /\
    results_store w1 !! task_id
    = Some (fold_left (fun t kv => <[kv.1 := kv.2]> t)
              [(py "status", TStr (py "completed"));
               (py "progress", TStr (py "completed"));
               (py "completed_at", TStr now);
               (py "result", TResults results);
               (py "results_path", TStr (results_path task_id))] t).
Proof.
  unfold process_documents_body. intros H.
  apply bind_Ret_inv in H as (? & wa & [Hca _]%set_task_field_Ret & H).
  apply bind_Ret_inv in H as (pv1 & wb & Hp1 & H).
  apply bind_Ret_inv in H as (cs1 & ? & [-> Hcs1]%require_chunks_Ret & H).
  apply bind_Ret_inv in H as (? & wc & [Hcc _]%set_task_field_Ret & H).
  apply bind_Ret_inv in H as (pv2 & wd & Hp2 & H).
  apply bind_Ret_inv in H as (cs2 & ? & [-> Hcs2]%require_chunks_Ret & H).
  apply bind_Ret_inv in H as (? & we & [Hce _]%set_task_field_Ret & H).
  apply bind_Ret_inv in H as (pc & wf & Hpc & H).
  apply bind_Ret_inv in H as (comments & ? & Hreq & H).
  pose proof Hreq as [-> Hne]%require_comments_inv.
  apply require_comments_Ret in Hreq as ->.
  apply bind_Ret_inv in H as (? & wg & [Hcg _]%set_task_field_Ret & H).
  apply bind_Ret_inv in H as (? & wh & (_ & _ & Hch)%call_inv & H).
  apply bind_Ret_inv in H as (? & wi & (_ & _ & Hci)%call_inv & H).
  apply bind_Ret_inv in H as (? & wj & (_ & _ & Hcj)%call_inv & H).
  apply bind_Ret_inv in H as (? & wk & (_ & _ & Hck)%call_inv & H).
  apply bind_Ret_inv in H as (? & wl & [Hcl _]%set_task_field_Ret & H).
  apply bind_Ret_inv in H as (results & wm & Hloop & H).
  apply bind_Ret_inv in H as (? & wn & [Hcn _]%set_task_field_Ret & H).
  apply bind_Ret_inv in H as (? & wo & (_ & _ & Hco)%call_inv & H).
  apply bind_Ret_inv in H as (? & ? & [-> _]%require_task_Ret & H).
  apply bind_Ret_inv in H as (now & wp & [_ Hcp]%now_isoformat_inv & H).
  pose proof H as [Hcq _]%update_task_calls.
  apply update_task_Ret in H as (t & _ & Ht).
  destruct (process_document_run doc_v1_path wa) as (? & ? & Hp1' & [_ (xa & Hx1 & Hq1)]).
  rewrite Hp1 in Hp1'. injection Hp1' as <- <-.
  destruct (process_document_run doc_v2_path wc) as (? & ? & Hp2' & [_ (xb & Hx2 & Hq2)]).
  rewrite Hp2 in Hp2'. injection Hp2' as <- <-.
  pose proof (process_comments_quiet _ _ _ _ Hpc) as [_ (xc & Hx3 & Hq3)].
  pose proof Hloop as (groups & Hcm & Hgroups)%analyze_loop_calls.
  apply analyze_loop_Ret in Hloop as (rs & -> & Hrs).
  apply process_comments_Ret in Hpc as (loaded & Hload & Hids).
  exists cs1, cs2, loaded, comments, ([] ++ rs), now, (xa ++ xb ++ xc), groups, t.
  split_and!; try done.
  - by repeat apply Forall_app_2.
  - rewrite Hcq Hcp Hco Hcn Hcm Hcl Hck Hcj Hci Hch Hcg Hx3 Hce Hx2 Hcc Hx1 Hca.
    rewrite -!app_assoc. done.
Qed.

(** A task that ends completed went through the whole [try] body. *)
Lemma completed_inv
    task_id doc_v1_path doc_v2_path comments_path doc_base_name w o w' t :
  process_documents task_id doc_v1_path doc_v2_path comments_path
    doc_base_name w = (o, w') ->
  results_store w' !! task_id = Some t ->
  t !! py "status" = Some (TStr (py "completed")) ->
  process_documents_body task_id doc_v1_path doc_v2_path comments_path
    doc_base_name w = (Ret tt, w') /\ o = Ret tt.
Proof.
  unfold process_documents. rewrite try_except_run.
  destruct (process_documents_body _ _ _ _ _ w) as [[[]|e] w1] eqn:Hbody.
  - by intros [= <- <-].
  - intros Hrun Ht Hst.
    eapply error_handler_status in Hrun as (_ & _ & _ & Herr & _); [|done].
    rewrite Herr in Hst. injection Hst as Hst.
    vm_compute in Hst. discriminate Hst.
Qed.

(** ** How a task ends *)

Ltac keys_subset :=
  let k := fresh "k" in
  let Hk := fresh "Hk" in
  intros k Hk; rewrite !elem_of_cons in Hk; rewrite !elem_of_cons;
  clear -Hk; tauto.

Lemma results_path_eq task_id :
  results_path task_id = py "results/results_" ++ task_id ++ py ".json".
Proof. by vm_compute. Qed.

Lemma handler_run task_id e w t0 :
  results_store w !! task_id = Some t0 ->
  exists now w',
    (require_task task_id;;
     now ← now_isoformat;
     update_task task_id
       [(py "status", TStr (py "error"));
        (py "progress", TStr (py "error"));
        (py "error", TStr (exn_str e));
        (py "completed_at", TStr now)]) w = (Ret tt, w') /\
    results_store w' !! task_id
    = Some (fold_left (fun t kv => <[kv.1 := kv.2]> t)
              [(py "status", TStr (py "error"));
               (py "progress", TStr (py "error"));
               (py "error", TStr (exn_str e));
               (py "completed_at", TStr now)] t0).
Proof.
  intros Ht0. rewrite bind_run (require_task_run _ _ _ Ht0) bind_run.
  destruct (now_isoformat_run w) as (now & w1 & -> & [Hs _]).
  rewrite -Hs in Ht0. rewrite (update_task_run _ _ _ _ Ht0).
  exists now. eexists. split; [done|]. cbn [results_store].
  apply lookup_insert_eq.
Qed.

Lemma process_documents_registered
    task_id doc_v1_path doc_v2_path comments_path doc_base_name w t0 :
  results_store w !! task_id = Some t0 ->
  exists w' t now,
    process_documents task_id doc_v1_path doc_v2_path comments_path
      doc_base_name w = (Ret tt, w') /\
    results_store w' !! task_id = Some t /\
    t !! py "completed_at" = Some (TStr now) /\
    ((t !! py "status" = Some (TStr (py "completed")) /\
      t !! py "progress" = Some (TStr (py "completed")) /\
      exists results, results <> [] /\
                      t !! py "result" = Some (TResults results))
     \/
     (t !! py "status" = Some (TStr (py "error")) /\
      t !! py "progress" = Some (TStr (py "error")) /\
      exists e w1,
        process_documents_body task_id doc_v1_path doc_v2_path comments_path
          doc_base_name w = (Raise e, w1) /\
        t !! py "error" = Some (TStr (exn_str e)))).
Proof.
  intros Ht0. unfold process_documents. rewrite try_except_run.
  destruct (process_documents_body _ _ _ _ _ w) as [[[]|e] w1] eqn:Hbody.
  - apply process_documents_body_Ret in Hbody
      as (cs1 & cs2 & loaded & comments & results & now & pre & groups & t
          & _ & _ & _ & Hne & _ & Hrs & _ & _ & _ & Ht).
    eexists _, _, now. split_and!; [done|exact Ht| |].
    + cbn [fold_left fst snd]. by lookup_task.
    + left. split_and!; [cbn [fold_left fst snd]; by lookup_task..|].
      exists results. split.
      * intros ->. apply Forall2_nil_inv_l in Hrs. done.
      * cbn [fold_left fst snd]. by lookup_task.
  - pose proof (process_documents_body_raise _ _ _ _ _ _ _ _ Hbody)
      as (_ & Hsome & _).
    destruct Hsome as [_ [t1 Ht1]]; [by eexists|].
    destruct (handler_run task_id e w1 t1 Ht1) as (now & w' & -> & Ht).
    eexists _, _, now. split_and!; [done|exact Ht| |].
    + cbn [fold_left fst snd]. by lookup_task.
    + right. split_and!; [cbn [fold_left fst snd]; by lookup_task..|].
      exists e, w1. split; [done|]. cbn [fold_left fst snd]. by lookup_task.
Qed.

(** X14. For a registered task [process_documents] never raises, and the
    record it leaves is in one of the two final states: status and progress
    both ["completed"], with a report that is not empty; or status and
    progress both ["error"], with the message of the exception that ended
    the run. Either way [completed_at] is set. *)
Theorem process_documents_terminal
    task_id doc_v1_path doc_v2_path comments_path doc_base_name w t0 :
  results_store w !! task_id = Some t0 ->
  exists w' t now,
    process_documents task_id doc_v1_path doc_v2_path comments_path
      doc_base_name w = (Ret tt, w') /\
    results_store w' !! task_id = Some t /\
    t !! py "completed_at" = Some (TStr now) /\
    ((t !! py "status" = Some (TStr (py "completed")) /\
      t !! py "progress" = Some (TStr (py "completed")) /\
      exists results, results <> [] /\
                      t !! py "result" = Some (TResults results))
     \/
     (t !! py "status" = Some (TStr (py "error")) /\
      t !! py "progress" = Some (TStr (py "error")) /\
      exists e w1,
        process_documents_body task_id doc_v1_path doc_v2_path comments_path
          doc_base_name w = (Raise e, w1) /\
        t !! py "error" = Some (TStr (exn_str e)))).
Proof. apply process_documents_registered. Qed.


Lemma keeps_handler task_id e :
  keeps task_id [py "status"; py "progress"; py "error"; py "completed_at"]
    (require_task task_id;;
     now ← now_isoformat;
     update_task task_id
       [(py "status", TStr (py "error"));
        (py "progress", TStr (py "error"));
        (py "error", TStr (exn_str e));
        (py "completed_at", TStr now)]).
Proof.
  apply keeps_bind; [apply keeps_require_task|]. intros _.
  apply keeps_bind; [apply keeps_now_isoformat|]. intros now.
  apply (keeps_update_task task_id
           [(py "status", TStr (py "error"));
            (py "progress", TStr (py "error"));
            (py "error", TStr (exn_str e));
            (py "completed_at", TStr now)]).
Qed.

Lemma keeps_body task_id doc_v1_path doc_v2_path comments_path doc_base_name :
  keeps task_id
    [py "progress"; py "comment_progress"; py "status"; py "completed_at";
     py "result"; py "results_path"]
    (process_documents_body task_id doc_v1_path doc_v2_path comments_path
       doc_base_name).
Proof.
  assert (Hsub : [py "progress"; py "comment_progress"]
                 ⊆ [py "progress"; py "comment_progress"; py "status";
                    py "completed_at"; py "result"; py "results_path"]).
  { intros k Hk. apply elem_of_cons in Hk as [->|Hk]; [by left|].
    apply list_elem_of_singleton in Hk as ->. right. by left. }
  unfold process_documents_body.
  repeat (apply keeps_bind;
          [first [ eapply keeps_weaken; [exact Hsub|apply keeps_progress]
                 | apply keeps_process_document
                 | apply keeps_process_comments | apply keeps_require_chunks
                 | apply keeps_require_comments | apply keeps_call
                 | eapply keeps_weaken; [exact Hsub|apply keeps_analyze_loop]
                 | apply keeps_now_isoformat | apply keeps_require_task ]
          | intros ? ]).
  eapply keeps_weaken; [|apply keeps_update_task].
  cbn [map fst]. keys_subset.
Qed.

Lemma keeps_process_documents
    task_id doc_v1_path doc_v2_path comments_path doc_base_name :
  keeps task_id
    [py "progress"; py "comment_progress"; py "status"; py "completed_at";
     py "result"; py "results_path"; py "error"]
    (process_documents task_id doc_v1_path doc_v2_path comments_path
       doc_base_name).
Proof.
  apply keeps_try_except.
  - eapply keeps_weaken; [|apply keeps_body]. keys_subset.
  - intros e. eapply keeps_weaken; [|apply keeps_handler]. keys_subset.
Qed.

(** X16. [process_documents] writes to no record but the one of its own
    task, and creates or deletes none; in its own record it writes only
    the fields [progress], [comment_progress], [status], [completed_at],
    [result], [results_path] and [error], so that what was stored at upload
    ([created_at], [doc_v1], [base_name], ...) stays. *)
Theorem process_documents_writes
    task_id doc_v1_path doc_v2_path comments_path doc_base_name w o w' :
  process_documents task_id doc_v1_path doc_v2_path comments_path
    doc_base_name w = (o, w') ->
  (forall other, other <> task_id ->
                 results_store w' !! other = results_store w !! other) /\
  (is_Some (results_store w' !! task_id) <->
   is_Some (results_store w !! task_id)) /\
  (forall key,
     key ∉ [py "progress"; py "comment_progress"; py "status";
            py "completed_at"; py "result"; py "results_path"; py "error"] ->
     task_field w' task_id key = task_field w task_id key).
Proof.
  intros Hrun.
  pose proof (keeps_process_documents task_id doc_v1_path doc_v2_path
                comments_path doc_base_name w) as Hk.
  by rewrite Hrun in Hk.
Qed.

(** X17. A task that ends in error keeps no partial result: apart from
    [progress], [comment_progress], [status], [error] and [completed_at],
    every field of its record -- [result] and [results_path] among them --
    is what it was before the run. *)
Theorem failed_task_keeps_no_result
    task_id doc_v1_path doc_v2_path comments_path doc_base_name w o w' t :
  process_documents task_id doc_v1_path doc_v2_path comments_path
    doc_base_name w = (o, w') ->
  results_store w' !! task_id = Some t ->
  t !! py "status" = Some (TStr (py "error")) ->
  forall key,
    key ∉ [py "progress"; py "comment_progress"; py "status"; py "error";
           py "completed_at"] ->
    task_field w' task_id key = task_field w task_id key.
Proof.
  unfold process_documents. rewrite try_except_run.
  destruct (process_documents_body _ _ _ _ _ w) as [[[]|e] w1] eqn:Hbody.
  - intros [= <- <-] Ht Hst. exfalso.
    apply process_documents_body_Ret in Hbody
      as (cs1 & cs2 & loaded & comments & results & now & pre & groups & t1
          & _ & _ & _ & _ & _ & _ & _ & _ & _ & Ht1).
    rewrite Ht in Ht1. injection Ht1 as ->.
    cbn [fold_left fst snd] in Hst. revert Hst. lookup_task.
    intros Hst. vm_compute in Hst. discriminate Hst.
  - intros Hrun Ht Hst key Hkey.
    pose proof (process_documents_body_raise _ _ _ _ _ _ _ _ Hbody) as Hb.
    pose proof (keeps_handler task_id e w1) as Hh. rewrite Hrun in Hh.
    cbn [snd] in Hh.
    assert (Hall : writes_only task_id
                     [py "progress"; py "comment_progress"; py "status";
                      py "error"; py "completed_at"] w w').
    { eapply writes_only_trans.
      - eapply writes_only_weaken; [|exact Hb].
        keys_subset.
      - eapply writes_only_weaken; [|exact Hh].
        keys_subset. }
    destruct Hall as (_ & _ & Hall). by apply Hall.
Qed.

Lemma process_document_calls file_path w doc w' :
  process_document file_path w = (Ret (Some doc), w') ->
  chunks doc <> [] ->
  exists text embeddings,
    load_document_text file_path = Some text /\
    embedding_model_encode (text_splitter_split_text text)
      settings.DEFAULT_DOC_PREFIX (external w) = (Ret embeddings, external w') /\
    chunks doc = make_chunks 0 (text_splitter_split_text text) embeddings /\
    calls w'
    = calls w ++ [CallEncode (text_splitter_split_text text)
                    settings.DEFAULT_DOC_PREFIX].
Proof.
  unfold process_document.
  destruct (load_document_text file_path) as [[|c t]|]; [done| |done].
  destruct (text_splitter_split_text (c :: t)) as [|p ps] eqn:Hsplit.
  - by intros [= <- _] Hne.
  - unfold try_except. rewrite bind_run /call.
    destruct (embedding_model_encode (p :: ps) settings.DEFAULT_DOC_PREFIX
                (external w)) as [[embs|e] e1] eqn:Henc; [|done].
    intros [= <- <-] _. exists (c :: t), embs. by rewrite Hsplit.
Qed.

Lemma process_comments_calls file_path w comments w' :
  process_comments file_path w = (Ret (Some comments), w') ->
  comments <> [] ->
  exists loaded embeddings,
    load_comments file_path = Some loaded /\
    embedding_model_encode (map comment_text loaded)
      settings.DEFAULT_COMMENT_PREFIX (external w)
    = (Ret embeddings, external w') /\
    comments = set_embeddings loaded embeddings /\
    calls w'
    = calls w ++ [CallEncode (map comment_text loaded)
                    settings.DEFAULT_COMMENT_PREFIX].
Proof.
  unfold process_comments.
  destruct (load_comments file_path) as [[|c cs]|]; [|  |done].
  - by intros [= <- _] Hne.
  - unfold try_except. rewrite bind_run /call.
    destruct (embedding_model_encode (map comment_text (c :: cs))
                settings.DEFAULT_COMMENT_PREFIX (external w))
      as [[embs|e] e1] eqn:Henc; [|done].
    intros [= <- <-] _. by exists (c :: cs), embs.
Qed.

Lemma require_chunks_inv processed msg w cs w' :
  require_chunks processed msg w = (Ret cs, w') ->
  w' = w /\ cs <> [] /\ exists doc, processed = Some doc /\ chunks doc = cs.
Proof.
  destruct processed as [[txt [|c l]]|]; [done| |done].
  intros [= <- <-]. split_and!; [done..|]. by eexists.
Qed.

(** The calls of the [try] body when it returns, with what they were made
    on. *)
Lemma process_documents_body_calls
    task_id doc_v1_path doc_v2_path comments_path doc_base_name w u w1 :
  process_documents_body task_id doc_v1_path doc_v2_path comments_path
    doc_base_name w = (Ret u, w1) ->
  exists text1 text2 loaded embs1 embs2 embs3 e1 e2 e3 results groups,
    load_document_text doc_v1_path = Some text1 /\
    load_document_text doc_v2_path = Some text2 /\
    load_comments comments_path = Some loaded /\
    embedding_model_encode (text_splitter_split_text text1)
      settings.DEFAULT_DOC_PREFIX (external w) = (Ret embs1, e1) /\
    embedding_model_encode (text_splitter_split_text text2)
      settings.DEFAULT_DOC_PREFIX e1 = (Ret embs2, e2) /\
    embedding_model_encode (map comment_text loaded)
      settings.DEFAULT_COMMENT_PREFIX e2 = (Ret embs3, e3) /\
    make_chunks 0 (text_splitter_split_text text1) embs1 <> [] /\
    make_chunks 0 (text_splitter_split_text text2) embs2 <> [] /\
    loaded <> [] /\
    Forall2 (fun r c => res_comment_id r = comment_id c /\
                        res_comment_text r = comment_text c)
      results (set_embeddings loaded embs3) /\
    Forall2 (comment_calls (clean_base_name doc_base_name ++ py "-" ++ task_id))
      (set_embeddings loaded embs3) groups /\
    calls w1
    = calls w
      ++ [CallEncode (text_splitter_split_text text1)
            settings.DEFAULT_DOC_PREFIX;
          CallEncode (text_splitter_split_text text2)
            settings.DEFAULT_DOC_PREFIX;
          CallEncode (map comment_text loaded)
            settings.DEFAULT_COMMENT_PREFIX;
          CallRecreateCollection (v1_collection doc_base_name task_id);
          CallUpsertChunks (v1_collection doc_base_name task_id)
            (make_chunks 0 (text_splitter_split_text text1) embs1);
          CallRecreateCollection (v2_collection doc_base_name task_id);
          CallUpsertChunks (v2_collection doc_base_name task_id)
            (make_chunks 0 (text_splitter_split_text text2) embs2)]
      ++ concat groups
      ++ [CallWriteResults (results_path task_id) results; CallNow] /\
    exists t,
      results_store w1 !! task_id
      = Some (<[py "results_path" := TStr (results_path task_id)]>
                (<[py "result" := TResults results]> t)).
Proof.
  unfold process_documents_body. intros H.
  apply bind_Ret_inv in H as (? & wa & [Hca Hea]%set_task_field_Ret & H).
  apply bind_Ret_inv in H as (pv1 & wb & Hp1 & H).
  apply bind_Ret_inv
    in H as (cs1 & ? & (-> & Hcs1 & doc1 & -> & <-)%require_chunks_inv & H).
  apply bind_Ret_inv in H as (? & wc & [Hcc Hec]%set_task_field_Ret & H).
  apply bind_Ret_inv in H as (pv2 & wd & Hp2 & H).
  apply bind_Ret_inv
    in H as (cs2 & ? & (-> & Hcs2 & doc2 & -> & <-)%require_chunks_inv & H).
  apply bind_Ret_inv in H as (? & we & [Hce Hee]%set_task_field_Ret & H).
  apply bind_Ret_inv in H as (pc & wf & Hpc & H).
  apply bind_Ret_inv in H as (comments & ? & Hreq & H).
  pose proof Hreq as [-> Hne]%require_comments_inv.
  apply require_comments_Ret in Hreq as ->.
  apply bind_Ret_inv in H as (? & wg & [Hcg _]%set_task_field_Ret & H).
  apply bind_Ret_inv in H as (? & wh & (_ & _ & Hch)%call_inv & H).
  apply bind_Ret_inv in H as (? & wi & (_ & _ & Hci)%call_inv & H).
  apply bind_Ret_inv in H as (? & wj & (_ & _ & Hcj)%call_inv & H).
  apply bind_Ret_inv in H as (? & wk & (_ & _ & Hck)%call_inv & H).
  apply bind_Ret_inv in H as (? & wl & [Hcl _]%set_task_field_Ret & H).
  apply bind_Ret_inv in H as (results & wm & Hloop & H).
  apply bind_Ret_inv in H as (? & wn & [Hcn _]%set_task_field_Ret & H).
  apply bind_Ret_inv in H as (? & wo & (_ & _ & Hco)%call_inv & H).
  apply bind_Ret_inv in H as (? & ? & [-> _]%require_task_Ret & H).
  apply bind_Ret_inv in H as (now & wp & [_ Hcp]%now_isoformat_inv & H).
  pose proof H as [Hcq _]%update_task_calls.
  apply update_task_Ret in H as (t & _ & Ht).
  apply process_document_calls
    in Hp1 as (text1 & embs1 & Hl1 & Henc1 & Hd1 & Hx1); [|done].
  apply process_document_calls
    in Hp2 as (text2 & embs2 & Hl2 & Henc2 & Hd2 & Hx2); [|done].
  apply process_comments_calls
    in Hpc as (loaded & embs3 & Hl3 & Henc3 & -> & Hx3); [|done].
  pose proof Hloop as (groups & Hcm & Hgroups)%analyze_loop_calls.
  apply analyze_loop_Ret in Hloop as (rs & -> & Hrs).
  rewrite Hea in Henc1. rewrite Hec in Henc2. rewrite Hee in Henc3.
  rewrite Hd1 in Hcs1 Hci. rewrite Hd2 in Hcs2 Hck.
  exists text1, text2, loaded, embs1, embs2, embs3, (external wb),
    (external wd), (external wf), ([] ++ rs), groups.
  split_and!; try done.
  - intros ->. by destruct embs3.
  - rewrite Hcq Hcp Hco Hcn Hcm Hcl Hck Hcj Hci Hch Hcg Hx3 Hce Hx2 Hcc Hx1 Hca.
    rewrite -!app_assoc. done.
  - eexists. rewrite Ht. cbn [fold_left fst snd]. done.
Qed.

(** X18. The calls of a completed run, in order. First the embedding model
    is called three times: on the pieces of document v1, on the pieces of
    document v2 (both with the document prefix) and on the texts of the
    comments read from the comments file (with the query prefix). Then the
    v1 collection is recreated and filled with the chunks of document v1,
    and the v2 collection with those of document v2; neither list of chunks
    is empty. Then, for each comment in turn -- the comments of the file
    with the vectors the model returned -- one search of the v1 collection,
    one search of the v2 collection and one completion request. Then the
    report, one record per comment with its id and text, is written to
    [results/results_<task id>.json], and the clock is read. The report
    written is the report stored, and the path is the path stored. *)
Theorem completed_run_calls
    task_id doc_v1_path doc_v2_path comments_path doc_base_name w o w' t :
  process_documents task_id doc_v1_path doc_v2_path comments_path
    doc_base_name w = (o, w') ->
  results_store w' !! task_id = Some t ->
  t !! py "status" = Some (TStr (py "completed")) ->
  exists text1 text2 loaded embs1 embs2 embs3 e1 e2 e3 results groups,
    load_document_text doc_v1_path = Some text1 /\
    load_document_text doc_v2_path = Some text2 /\
    load_comments comments_path = Some loaded /\
    embedding_model_encode (text_splitter_split_text text1)
      (py "search_document: ") (external w) = (Ret embs1, e1) /\
    embedding_model_encode (text_splitter_split_text text2)
      (py "search_document: ") e1 = (Ret embs2, e2) /\
    embedding_model_encode (map comment_text loaded)
      (py "search_query: ") e2 = (Ret embs3, e3) /\
    make_chunks 0 (text_splitter_split_text text1) embs1 <> [] /\
    make_chunks 0 (text_splitter_split_text text2) embs2 <> [] /\
    loaded <> [] /\
    Forall2 (fun r c => res_comment_id r = comment_id c /\
                        res_comment_text r = comment_text c)
      results (set_embeddings loaded embs3) /\
    Forall2 (comment_calls (clean_base_name doc_base_name ++ py "-" ++ task_id))
      (set_embeddings loaded embs3) groups /\
    calls w'
    = calls w
      ++ [CallEncode (text_splitter_split_text text1) (py "search_document: ");
          CallEncode (text_splitter_split_text text2) (py "search_document: ");
          CallEncode (map comment_text loaded) (py "search_query: ");
          CallRecreateCollection (v1_collection doc_base_name task_id);
          CallUpsertChunks (v1_collection doc_base_name task_id)
            (make_chunks 0 (text_splitter_split_text text1) embs1);
          CallRecreateCollection (v2_collection doc_base_name task_id);
          CallUpsertChunks (v2_collection doc_base_name task_id)
            (make_chunks 0 (text_splitter_split_text text2) embs2)]
      ++ concat groups
      ++ [CallWriteResults (py "results/results_" ++ task_id ++ py ".json")
            results;
          CallNow] /\
    t !! py "result" = Some (TResults results) /\
    t !! py "results_path"
    = Some (TStr (py "results/results_" ++ task_id ++ py ".json")).
Proof.
  intros Hrun Ht Hst.
  destruct (completed_inv _ _ _ _ _ _ _ _ _ Hrun Ht Hst) as [Hbody _].
  apply process_documents_body_calls in Hbody
    as (text1 & text2 & loaded & embs1 & embs2 & embs3 & e1 & e2 & e3
        & results & groups & Hl1 & Hl2 & Hl3 & He1 & He2 & He3 & Hc1 & Hc2
        & Hne & Hrs & Hgroups & Hcalls & t1 & Ht1).
  rewrite Ht in Ht1. injection Ht1 as ->.
  exists text1, text2, loaded, embs1, embs2, embs3, e1, e2, e3, results, groups.
  split_and!; [done..| | |].
  - by rewrite Hcalls results_path_eq.
  - by lookup_task.
  - rewrite -results_path_eq. by lookup_task.
Qed.


(** ** More on collection names *)

Lemma slice_from_drop (s : str) n : slice_from s (Z.of_nat n) = drop n s.
Proof.
  unfold slice_from, clip.
  destruct (Z.ltb_spec (Z.of_nat n) 0); [lia|].
  destruct (Nat.le_gt_cases n (length s)).
  - by replace (Z.to_nat _) with n by lia.
  - replace (Z.to_nat _) with (length s) by lia.
    by rewrite !drop_ge //; lia.
Qed.

Lemma strip_prefix_suffix name p :
  strip_prefix name p `suffix_of` name /\
  length name <= length (strip_prefix name p) + length p.
Proof.
  unfold strip_prefix. destruct (startswith name p).
  - rewrite slice_from_drop. split; [apply suffix_drop|].
    rewrite length_drop. lia.
  - split; [done|lia].
Qed.

(** X19. Cleaning a document name only cuts characters off its front, and
    at most the fourteen of the two prefixes: the cleaned name is a suffix
    of the name. *)
Theorem clean_base_name_suffix base :
  clean_base_name base `suffix_of` base /\
  length base <= length (clean_base_name base) + 14.
Proof.
  rewrite clean_base_name_unfold.
  destruct (strip_prefix_suffix base settings.QDRANT_COLLECTION_V1_PREFIX)
    as [H1 L1].
  destruct (strip_prefix_suffix
              (strip_prefix base settings.QDRANT_COLLECTION_V1_PREFIX)
              settings.QDRANT_COLLECTION_V2_PREFIX) as [H2 L2].
  split; [by etrans|].
  change (length settings.QDRANT_COLLECTION_V1_PREFIX) with 7 in L1.
  change (length settings.QDRANT_COLLECTION_V2_PREFIX) with 7 in L2.
  lia.
Qed.

(** X20. A v1 collection and a v2 collection never have the same name,
    whatever the documents and the tasks. Two tasks whose ids have the same
    length (as the ids [task_<32 hex digits>] do) have the same v1
    collection name only if they are the same task with the same cleaned
    document name; likewise for v2. *)
Theorem collection_names_distinct base tid base' tid' :
  v1_collection base tid <> v2_collection base' tid' /\
  (length tid = length tid' ->
   v1_collection base tid = v1_collection base' tid' ->
   tid = tid' /\ clean_base_name base = clean_base_name base') /\
  (length tid = length tid' ->
   v2_collection base tid = v2_collection base' tid' ->
   tid = tid' /\ clean_base_name base = clean_base_name base').
Proof.
  unfold v1_collection, v2_collection. change (py "-") with [45%N].
  split_and!.
  - intros H. cbn in H. discriminate H.
  - intros Hlen H%app_inv_head.
    apply (app_inj_2 _ _ (45%N :: tid) (45%N :: tid')) in H as [Hc [= Ht]];
      [done|by rewrite /= Hlen].
  - intros Hlen H%app_inv_head.
    apply (app_inj_2 _ _ (45%N :: tid) (45%N :: tid')) in H as [Hc [= Ht]];
      [done|by rewrite /= Hlen].
Qed.

(** ** Report files and the status endpoints *)

Lemma startswith_inv s p :
  startswith s p = true -> s = p ++ drop (length p) s.
Proof.
  revert s. induction p as [|a p IH]; intros s; [done|].
  destruct s as [|b s]; [done|]. cbn [startswith].
  intros [Hab Hs]%andb_prop. apply N.eqb_eq in Hab as ->.
  by rewrite /= -IH.
Qed.

Lemma endswith_app x q : endswith (x ++ q) q = true.
Proof. by rewrite /endswith reverse_app startswith_app. Qed.

Lemma endswith_inv s q : endswith s q = true -> exists x, s = x ++ q.
Proof.
  intros H%startswith_inv. exists (reverse (drop (length (reverse q)) (reverse s))).
  apply (inj reverse). by rewrite reverse_app reverse_involutive.
Qed.

Lemma slice_between (p t q : str) :
  q <> [] ->
  slice (p ++ t ++ q) (Z.of_nat (length p)) (- Z.of_nat (length q)) = t.
Proof.
  intros Hq. assert (0 < length q) by (destruct q; [done|simpl; lia]).
  unfold slice, clip. rewrite !length_app.
  destruct (Z.ltb_spec (Z.of_nat (length p)) 0); [lia|].
  destruct (Z.ltb_spec (- Z.of_nat (length q)) 0); [|lia].
  replace (Z.to_nat (_ `min` _)) with (length p) by lia.
  rewrite drop_app_length.
  replace (Z.to_nat _) with (length t) by lia.
  by rewrite take_app_length.
Qed.

(** X21. The name [process_documents] gives the report file of a task and
    the way [startup_event] and [cleanup_old_files] read a task id off a
    file name are inverse to each other: [results_<id>.json] passes their
    test and yields [id], and every name that passes the test is
    [results_<id>.json] for the id it yields. *)
Theorem results_file_round_trip :
  (forall task_id,
     is_results_file (py "results_" ++ task_id ++ py ".json") = true /\
     task_id_of_results_file (py "results_" ++ task_id ++ py ".json")
     = task_id) /\
  (forall filename,
     is_results_file filename = true ->
     filename
     = py "results_" ++ task_id_of_results_file filename ++ py ".json").
Proof.
  assert (Hround : forall t,
             task_id_of_results_file (py "results_" ++ t ++ py ".json") = t).
  { intros t. unfold task_id_of_results_file.
    change 8%Z with (Z.of_nat (length (py "results_"))).
    change (-5)%Z with (- Z.of_nat (length (py ".json")))%Z.
    by apply slice_between. }
  split.
  - intros t. split; [|apply Hround].
    unfold is_results_file. rewrite startswith_app. cbn [andb].
    by rewrite app_assoc endswith_app.
  - intros f [Hs He]%andb_prop.
    apply startswith_inv in Hs. apply endswith_inv in He as [x Hx].
    set (r := drop (length (py "results_")) f) in Hs.
    assert (Hlen : length (py "results_") + length r
                   = length x + length (py ".json")).
    { by rewrite -!length_app -Hs -Hx. }
    change (length (py "results_")) with 8 in Hlen.
    change (length (py ".json")) with 5 in Hlen.
    destruct (Nat.le_gt_cases 5 (length r)) as [Hr|Hr].
    + assert (Hsplit : (py "results_" ++ take (length r - 5) r)
                       ++ drop (length r - 5) r = x ++ py ".json").
      { by rewrite -app_assoc take_drop -Hs. }
      apply app_inj_2 in Hsplit as [_ Hq].
      2:{ rewrite length_drop. change (length (py ".json")) with 5. lia. }
      assert (Hf : f = py "results_" ++ take (length r - 5) r ++ py ".json").
      { by rewrite -Hq take_drop. }
      by rewrite {2}Hf Hround.
    + exfalso.
      assert (H1 : f !! length x = Some 46%N).
      { rewrite Hx lookup_app_r; [lia|]. by rewrite Nat.sub_diag. }
      rewrite Hs lookup_app_l in H1.
      { change (length (py "results_")) with 8. lia. }
      apply list_elem_of_lookup_2 in H1. revert H1.
      apply (bool_decide_unpack _). by vm_compute.
Qed.

Lemma filter_cons_bool {A} (P : A -> bool) x (l : list A) :
  length (filter P (x :: l))
  = (if P x then 1 else 0) + length (filter P l).
Proof.
  destruct (P x) eqn:H.
  - rewrite filter_cons_True; [rewrite H; exact I|done].
  - rewrite filter_cons_False; [rewrite H; intros []|done].
Qed.

Lemma status_is_unique v l l' :
  status_is v l = true -> status_is v l' = true -> l = l'.
Proof.
  destruct v; try done. cbn.
  intros H1%bool_decide_eq_true H2%bool_decide_eq_true. congruence.
Qed.

(** X22. The four figures of the summary page add up to the number of
    results less the results whose status is none of ["учтен"],
    ["частично учтен"], ["не учтен"] and ["error"]: such a result -- the
    analyzer passes any status through -- is counted in [total] only. *)
Theorem summary_counts_total results_data :
  count_status results_data (py "учтен")
  + count_status results_data (py "частично учтен")
  + count_status results_data (py "не учтен")
  + count_status results_data (py "error")
  + length (filter
              (fun c => negb (status_is (status c) (py "учтен")
                              || status_is (status c) (py "частично учтен")
                              || status_is (status c) (py "не учтен")
                              || status_is (status c) (py "error")))
              results_data)
  = length results_data.
Proof.
  unfold count_status.
  induction results_data as [|c rs IH]; [done|].
  rewrite !filter_cons_bool. cbn [length].
  destruct (status_is (status c) (py "учтен")) eqn:H1;
  destruct (status_is (status c) (py "частично учтен")) eqn:H2;
  destruct (status_is (status c) (py "не учтен")) eqn:H3;
  destruct (status_is (status c) (py "error")) eqn:H4;
  cbn [orb negb];
  try lia;
  exfalso;
  repeat match goal with
    | Ha : status_is _ ?a = true, Hb : status_is _ ?b = true |- _ =>
        let H := fresh in
        pose proof (status_is_unique _ _ _ Ha Hb) as H;
        vm_compute in H; discriminate H
    end.
Qed.

Lemma basename_results_path task_id :
  47%N ∉ task_id ->
  basename (py "results/results_" ++ task_id ++ py ".json")
  = py "results_" ++ task_id ++ py ".json".
Proof.
  intros Hid. unfold basename. change (py "/") with [47%N].
  replace (py "results/results_" ++ task_id ++ py ".json")
    with (py "results" ++ 47%N :: py "results_" ++ task_id ++ py ".json")
    by (by vm_compute).
  rewrite /rfind rfind_from_last.
  { rewrite !elem_of_app. intros [H|[H|H]]; [|done|]; revert H;
      apply (bool_decide_unpack _); by vm_compute. }
  change (0 + Z.of_nat (length (py "results")) + 1)%Z
    with (Z.of_nat (length (py "results" ++ [47%N]))).
  replace (py "results" ++ 47%N :: py "results_" ++ task_id ++ py ".json")
    with ((py "results" ++ [47%N]) ++ py "results_" ++ task_id ++ py ".json")
    by (by rewrite -app_assoc).
  apply slice_from_app.
Qed.

(** X23. [get_status] answers 404 "Task not found" exactly for a task id
    that is not registered. It calls no service, touches no other task's
    record, and in the record of its own task changes nothing but the field
    [results_url]; for a task whose status is not ["completed"] it returns
    the stored record and changes nothing at all. *)
Theorem get_status_effect task_id w o w' :
  get_status task_id w = (o, w') ->
  calls w' = calls w /\
  external w' = external w /\
  (forall other, other <> task_id ->
                 results_store w' !! other = results_store w !! other) /\
  (forall key, key <> py "results_url" ->
               task_field w' task_id key = task_field w task_id key) /\
  (results_store w !! task_id = None <->
   o = inl (HTTPException 404 (py "Task not found"))) /\
  (forall t s,
     results_store w !! task_id = Some t ->
     t !! py "status" = Some s ->
     s <> TStr (py "completed") ->
     o = inr t /\ w' = w).
Proof.
  unfold get_status.
  destruct (results_store w !! task_id) as [t|] eqn:Ht.
  2:{ intros [= <- <-]. split_and!; try done. }
  destruct (t !! py "status") as [st|] eqn:Hst.
  2:{ intros [= <- <-]. split_and!; try done. intros t' s [= <-]. congruence. }
  assert (Hcompleted :
            match st with
            | TStr s => bool_decide (s = py "completed")
            | _ => false
            end = true ->
            forall t' s, Some t = Some t' -> t' !! py "status" = Some s ->
                         s <> TStr (py "completed") -> False).
  { intros Hc t' s [= <-] Hs Hne. rewrite Hst in Hs. injection Hs as <-.
    destruct st as [|x|]; try done.
    apply bool_decide_eq_true in Hc as ->. done. }
  destruct (_ && _) eqn:Hcond.
  - apply andb_prop in Hcond as [Hc Hp].
    destruct (t !! py "results_path") as [[|p|rs]|] eqn:Hrp.
    + done.
    + intros [= <- <-]. cbn [calls external results_store].
      split_and!; try done.
      * intros other Ho. by rewrite lookup_insert_ne.
      * intros key Hk. rewrite /task_field /= lookup_insert_eq Ht /=.
        by rewrite lookup_insert_ne.
      * intros t' s H1 H2 H3. by destruct (Hcompleted Hc t' s).
    + intros [= <- <-]. split_and!; try done.
      intros t' s H1 H2 H3. by destruct (Hcompleted Hc t' s).
    + done.
  - intros [= <- <-]. split_and!; try done. by intros t' s [= <-].
Qed.

(** X24. After a run of [process_documents] that completed, for a task id
    without a slash, [get_status] returns the record of the task with
    [results_url] set to [/results/results_<task id>.json] -- the base name
    of the file the report was written to -- and stores that; asking again
    gives the same answer and changes nothing more. *)
Theorem get_status_after_completed
    task_id doc_v1_path doc_v2_path comments_path doc_base_name w o w' t :
  process_documents task_id doc_v1_path doc_v2_path comments_path
    doc_base_name w = (o, w') ->
  results_store w' !! task_id = Some t ->
  t !! py "status" = Some (TStr (py "completed")) ->
  47%N ∉ task_id ->
  exists w'',
    get_status task_id w'
    = (inr (<[py "results_url"
              := TStr (py "/results/results_" ++ task_id ++ py ".json")]> t),
       w'') /\
    results_store w'' !! task_id
    = Some (<[py "results_url"
              := TStr (py "/results/results_" ++ task_id ++ py ".json")]> t) /\
    get_status task_id w''
    = (inr (<[py "results_url"
              := TStr (py "/results/results_" ++ task_id ++ py ".json")]> t),
       w'').
Proof.
  intros Hrun Ht Hst Hid.
  destruct (completed_inv _ _ _ _ _ _ _ _ _ Hrun Ht Hst) as [Hbody _].
  apply process_documents_body_Ret in Hbody
    as (cs1 & cs2 & loaded & comments & results & now & pre & groups & t1
        & _ & _ & _ & _ & _ & _ & _ & _ & _ & Ht1).
  rewrite Ht in Ht1. injection Ht1 as Ht1.
  assert (Hrp : t !! py "results_path"
                = Some (TStr (py "results/results_" ++ task_id ++ py ".json"))).
  { rewrite Ht1 -results_path_eq. cbn [fold_left fst snd]. by lookup_task. }
  clear Ht1.
  assert (Hurl : py "/results/"
                 ++ basename (py "results/results_" ++ task_id ++ py ".json")
                 = py "/results/results_" ++ task_id ++ py ".json").
  { rewrite (basename_results_path _ Hid). by vm_compute. }
  eexists. split_and!.
  - unfold get_status. rewrite Ht Hst Hrp. cbn [from_option truthy].
    rewrite bool_decide_eq_true_2 //.
    replace (py "results/results_" ++ task_id ++ py ".json")
      with (114%N :: drop 1 (py "results/results_" ++ task_id ++ py ".json"))
      at 1 by (by vm_compute).
    cbn [andb]. by rewrite Hurl.
  - cbn [results_store]. apply lookup_insert_eq.
  - unfold get_status. cbn [results_store]. rewrite lookup_insert_eq.
    rewrite lookup_insert_ne; [by py_neq|]. rewrite Hst.
    rewrite lookup_insert_ne; [by py_neq|]. rewrite Hrp.
    cbn [from_option truthy]. rewrite bool_decide_eq_true_2 //.
    replace (py "results/results_" ++ task_id ++ py ".json")
      with (114%N :: drop 1 (py "results/results_" ++ task_id ++ py ".json"))
      at 1 by (by vm_compute).
    cbn [andb]. rewrite Hurl. by rewrite !insert_insert_eq.
Qed.

(** ** The upload endpoint *)

Lemma outside_inv {A} (op : E -> outcome A * E) w o w' :
  outside op w = (o, w') ->
  op (external w) = (o, external w') /\
  results_store w' = results_store w /\
  calls w' = calls w.
Proof.
  unfold outside. destruct (op (external w)) as [o1 e1]. by intros [= <- <-].
Qed.

Lemma save_uploads_inv task_dir files w o w' :
  save_uploads task_dir files w = (o, w') ->
  results_store w' = results_store w /\
  calls w' = calls w /\
  exists failed,
    o = Ret failed /\
    forall err,
      failed = Some err ->
      exists file msg,
        file ∈ files /\
        err = HTTPException 500
                (py "Failed to save file " ++ filename file.2
                 ++ py ": " ++ msg).
Proof.
  revert w. induction files as [|[path up] files IH]; intros w.
  - intros [= <- <-]. split_and!; [done..|]. by exists None.
  - cbn [save_uploads].
    destruct (outside _ w) as [[[]|e] w1] eqn:Hs;
      apply outside_inv in Hs as (_ & Hs1 & Hc1).
    + intros (Hs2 & Hc2 & failed & -> & Hf)%IH.
      split_and!; [congruence..|]. exists failed. split; [done|].
      intros err (file & msg & Hin & ->)%Hf. exists file, msg.
      split; [by right|done].
    + intros [= <- <-]. split_and!; [done..|]. eexists. split; [done|].
      intros err [= <-]. exists (path, up), (exn_str e). split; [by left|done].
Qed.

Lemma mret_inr_inv {A B} (a b : B) w w' :
  (mret (inr a) : M (A + B)) w = (Ret (inr b), w') -> a = b /\ w' = w.
Proof. by intros [= <- <-]. Qed.

Lemma register_task_inv task_id record w o w' :
  register_task task_id record w = (o, w') ->
  results_store w' = <[task_id := record]> (results_store w) /\
  calls w' = calls w /\
  external w' = external w.
Proof. by intros [= _ <-]. Qed.

Lemma path_join_dir hex name :
  47%N ∉ hex ->
  path_join (py "uploads/task_" ++ hex) name
  = if startswith name (py "/") then name
    else py "uploads/task_" ++ hex ++ py "/" ++ name.
Proof.
  intros Hhex. unfold path_join. change (py "/") with [47%N].
  destruct (startswith name [47%N]); [done|].
  assert (Hend : startswith (reverse (py "uploads/task_" ++ hex)) [47%N]
                 = false).
  { rewrite reverse_app. destruct (reverse hex) as [|x r] eqn:Hr.
    - by vm_compute.
    - cbn [app]. rewrite startswith_single.
      destruct (N.eqb_spec 47 x) as [<-|]; [|done].
      exfalso. apply Hhex, elem_of_reverse. rewrite Hr. by left. }
  by rewrite Hend -app_assoc.
Qed.

Lemma save_uploads_cons_None task_dir p u rest w w' :
  save_uploads task_dir ((p, u) :: rest) w = (Ret None, w') ->
  exists w1,
    save_upload p u (external w) = (Ret tt, external w1) /\
    save_uploads task_dir rest w1 = (Ret None, w').
Proof.
  cbn [save_uploads].
  destruct (outside _ w) as [[[]|e] w1] eqn:Hs; [|done].
  apply outside_inv in Hs as (Hs & _ & _). intros H. by exists w1.
Qed.

Lemma now_isoformat_Ret w s w' :
  now_isoformat w = (Ret s, w') ->
  datetime_now_isoformat (external w) = (s, external w').
Proof.
  unfold now_isoformat, call.
  destruct (datetime_now_isoformat (external w)) as [s1 e1].
  by intros [= <- <-].
Qed.

Lemma now_timestamp_inv w o w' :
  now_timestamp w = (o, w') ->
  exists ts,
    o = Ret ts /\
    datetime_now_timestamp (external w) = (ts, external w') /\
    results_store w' = results_store w /\
    calls w' = calls w ++ [CallNow].
Proof.
  unfold now_timestamp, call.
  destruct (datetime_now_timestamp (external w)) as [ts e1].
  intros [= <- <-]. by exists ts.
Qed.

(** X25. When [analyze_documents] schedules a task, this is what it did, in
    order, on the external state: it drew a hex string from the uuid
    generator, made the directory [uploads/task_<hex>], wrote the three
    uploads to the three paths it scheduled, read the clock for
    [created_at] and read it once more for the answer page; these two are
    the only traced calls. The task id is [task_<hex>], and the record
    registered under it is the only change to the registry: status
    ["processing"], [created_at] as the clock gave it, progress
    ["uploading"], no result, the three file names and the base name of the
    first. For a hex string without a slash the two documents are stored as
    [uploads/task_<hex>/v1_<name>] and [.../v2_<name>]; the comments file is
    stored as [uploads/task_<hex>/<name>] unless its name starts with a
    slash, in which case it is written to that very path. *)
Theorem analyze_documents_registers doc_v1 doc_v2 comments w bg w' :
  analyze_documents doc_v1 doc_v2 comments w = (Ret (inr bg), w') ->
  exists hex now ts e1 e2 e3 e4 e5 e6,
    uuid4_hex (external w) = (hex, e1) /\
    os_makedirs (path_join (py "uploads") (py "task_" ++ hex)) e1
    = (Ret tt, e2) /\
    save_upload (bg_doc_v1_path bg) doc_v1 e2 = (Ret tt, e3) /\
    save_upload (bg_doc_v2_path bg) doc_v2 e3 = (Ret tt, e4) /\
    save_upload (bg_comments_path bg) comments e4 = (Ret tt, e5) /\
    datetime_now_isoformat e5 = (now, e6) /\
    datetime_now_timestamp e6 = (ts, external w') /\
    bg_task_id bg = py "task_" ++ hex /\
    bg_doc_base_name bg = (splitext (basename (filename doc_v1))).1 /\
    results_store w'
    = <[py "task_" ++ hex :=
          fold_left (fun t kv => <[kv.1 := kv.2]> t)
            [(py "status", TStr (py "processing"));
             (py "created_at", TStr now);
             (py "doc_v1", TStr (filename doc_v1));
             (py "doc_v2", TStr (filename doc_v2));
             (py "comments", TStr (filename comments));
             (py "base_name", TStr (bg_doc_base_name bg));
             (py "progress", TStr (py "uploading"));
             (py "result", TNone);
             (py "results_path", TNone)] ∅]> (results_store w) /\
    calls w' = calls w ++ [CallNow; CallNow] /\
    (47%N ∉ hex ->
     bg_doc_v1_path bg
     = py "uploads/task_" ++ hex ++ py "/v1_" ++ filename doc_v1 /\
     bg_doc_v2_path bg
     = py "uploads/task_" ++ hex ++ py "/v2_" ++ filename doc_v2 /\
     bg_comments_path bg
     = if startswith (filename comments) (py "/") then filename comments
       else py "uploads/task_" ++ hex ++ py "/" ++ filename comments).
Proof.
  unfold analyze_documents. intros H.
  apply bind_Ret_inv in H as (hex & wa & (Hua & Hsa & Hca)%outside_inv & H).
  apply bind_Ret_inv in H as ([] & wb & (Hub & Hsb & Hcb)%outside_inv & H).
  apply bind_Ret_inv in H as (failed & wc & Hsave & H).
  pose proof Hsave as (Hsc & Hcc & _)%save_uploads_inv.
  destruct failed as [err|]; [done|].
  apply save_uploads_cons_None in Hsave as (w3 & Hu3 & Hsave).
  apply save_uploads_cons_None in Hsave as (w4 & Hu4 & Hsave).
  apply save_uploads_cons_None in Hsave as (w5 & Hu5 & Hsave).
  injection Hsave as ->.
  apply bind_Ret_inv in H as (now & wd & Hnow & H).
  pose proof Hnow as [Hsd Hcd]%now_isoformat_inv.
  apply now_isoformat_Ret in Hnow.
  apply bind_Ret_inv in H as (? & we & (Hse & Hce & Hee)%register_task_inv & H).
  apply bind_Ret_inv
    in H as (ts' & wf & (ts & [= ->] & Hts & Hsf & Hcf)%now_timestamp_inv & H).
  apply mret_inr_inv in H as [<- ->].
  exists hex, now, ts, (external wa), (external wb), (external w3),
    (external w4), (external wc), (external wd).
  cbn [bg_task_id bg_doc_base_name bg_doc_v1_path bg_doc_v2_path
         bg_comments_path].
  rewrite Hee in Hts.
  split_and!; [|done..| | |].
  { destruct (uuid4_hex (external w)) as [h e']. by injection Hua as -> ->. }
  { by rewrite Hsf Hse Hsd Hsc Hsb Hsa. }
  { by rewrite Hcf Hce Hcd Hcc Hcb Hca -app_assoc. }
  intros Hhex.
  assert (Hdir : path_join (py "uploads") (py "task_" ++ hex)
                 = py "uploads/task_" ++ hex) by (by vm_compute).
  by rewrite Hdir !path_join_dir.
Qed.

(** X26. [analyze_documents] registers a task only when all three files
    were saved: when it answers with an exception -- the [HTTPException]
    500 "Failed to save file <name>: <error>" for one of the three files,
    or whatever [os.makedirs] raised -- the registry is as it was, and
    nothing was scheduled. *)
Theorem analyze_documents_failure doc_v1 doc_v2 comments w o w' :
  analyze_documents doc_v1 doc_v2 comments w = (o, w') ->
  (forall bg, o <> Ret (inr bg)) ->
  results_store w' = results_store w /\
  calls w' = calls w /\
  ((exists e, o = Raise e) \/
   exists name msg,
     name ∈ [filename doc_v1; filename doc_v2; filename comments] /\
     o = Ret (inl (HTTPException 500
                     (py "Failed to save file " ++ name ++ py ": " ++ msg)))).
Proof.
  unfold analyze_documents. intros H Hno.
  rewrite bind_run in H.
  destruct (outside _ w) as [[hex|e] wa] eqn:Ha;
    apply outside_inv in Ha as (Hua & Hsa & Hca).
  2:{ destruct (uuid4_hex (external w)); done. }
  rewrite bind_run in H.
  destruct (outside _ wa) as [[[]|e] wb] eqn:Hb;
    apply outside_inv in Hb as (_ & Hsb & Hcb).
  2:{ injection H as <- <-. split_and!; [congruence..|]. left. by exists e. }
  rewrite bind_run in H.
  destruct (save_uploads _ _ wb) as [osave wc] eqn:Hsave.
  apply save_uploads_inv in Hsave as (Hsc & Hcc & failed & -> & Hf).
  destruct failed as [err|].
  - injection H as <- <-. split_and!; [congruence..|]. right.
    destruct (Hf err eq_refl) as (file & msg & Hin & ->).
    exists (filename file.2), msg. split; [|done].
    rewrite !elem_of_cons in Hin. rewrite !elem_of_cons.
    destruct Hin as [->|[->|[->|Hin]]];
      [by left|by right; left|by right; right; left|].
    by apply elem_of_nil in Hin.
  - exfalso. rewrite bind_run in H.
    destruct (now_isoformat_run wc) as (now & wd & Hnow & _).
    rewrite Hnow bind_run in H. cbn [register_task] in H.
    rewrite bind_run in H.
    destruct (now_timestamp _) as [ots wf] eqn:Hts in H.
    apply now_timestamp_inv in Hts as (ts & -> & _).
    injection H as <- _. by eapply Hno.
Qed.

(** X27. Upload and analysis together: the task [analyze_documents]
    schedules is registered, so the run of [process_documents] with the
    scheduled arguments does not raise and leaves the task completed or in
    error; what the upload recorded about the files -- [created_at],
    [doc_v1], [doc_v2], [comments], [base_name] -- is still in the record
    after the run. *)
Theorem upload_then_process doc_v1 doc_v2 comments w bg w1 :
  analyze_documents doc_v1 doc_v2 comments w = (Ret (inr bg), w1) ->
  exists w2 t,
    process_documents (bg_task_id bg) (bg_doc_v1_path bg) (bg_doc_v2_path bg)
      (bg_comments_path bg) (bg_doc_base_name bg) w1 = (Ret tt, w2) /\
    results_store w2 !! bg_task_id bg = Some t /\
    (t !! py "status" = Some (TStr (py "completed")) \/
     t !! py "status" = Some (TStr (py "error"))) /\
    t !! py "doc_v1" = Some (TStr (filename doc_v1)) /\
    t !! py "doc_v2" = Some (TStr (filename doc_v2)) /\
    t !! py "comments" = Some (TStr (filename comments)) /\
    t !! py "base_name" = Some (TStr (bg_doc_base_name bg)) /\
    t !! py "created_at" = task_field w1 (bg_task_id bg) (py "created_at").
Proof.
  intros H.
  assert (Hreg : exists now,
             results_store w1 !! bg_task_id bg
             = Some (fold_left (fun t kv => <[kv.1 := kv.2]> t)
                       [(py "status", TStr (py "processing"));
                        (py "created_at", TStr now);
                        (py "doc_v1", TStr (filename doc_v1));
                        (py "doc_v2", TStr (filename doc_v2));
                        (py "comments", TStr (filename comments));
                        (py "base_name", TStr (bg_doc_base_name bg));
                        (py "progress", TStr (py "uploading"));
                        (py "result", TNone);
                        (py "results_path", TNone)] ∅)).
  { unfold analyze_documents in H.
    apply bind_Ret_inv in H as (hex & wa & _ & H).
    apply bind_Ret_inv in H as (? & wb & _ & H).
    apply bind_Ret_inv in H as (failed & wc & _ & H).
    destruct failed as [err|]; [done|].
    apply bind_Ret_inv in H as (now & wd & _ & H).
    apply bind_Ret_inv in H as (? & we & [Hse _]%register_task_inv & H).
    apply bind_Ret_inv in H as (? & wf & (ts & _ & _ & Hsf & _)%now_timestamp_inv & H).
    apply mret_inr_inv in H as [<- ->].
    exists now. cbn [bg_task_id bg_doc_base_name]. rewrite Hsf Hse.
    apply lookup_insert_eq. }
  destruct Hreg as [now Ht1].
  destruct (process_documents_registered (bg_task_id bg) (bg_doc_v1_path bg)
              (bg_doc_v2_path bg) (bg_comments_path bg) (bg_doc_base_name bg)
              w1 _ Ht1) as (w2 & t & now' & Hrun & Ht & _ & Hend).
  pose proof (keeps_process_documents (bg_task_id bg) (bg_doc_v1_path bg)
                (bg_doc_v2_path bg) (bg_comments_path bg)
                (bg_doc_base_name bg) w1) as (_ & _ & Hkeep).
  rewrite Hrun in Hkeep. cbn [snd] in Hkeep.
  assert (Hfield : forall key v,
             key ∉ [py "progress"; py "comment_progress"; py "status";
                    py "completed_at"; py "result"; py "results_path";
                    py "error"] ->
             task_field w1 (bg_task_id bg) key = Some v ->
             t !! key = Some v).
  { intros key v Hkey Hv. specialize (Hkeep key Hkey).
    rewrite /task_field Ht /= in Hkeep. by rewrite Hkeep. }
  exists w2, t. split_and!; [done|done| | | | | |].
  - destruct Hend as [(? & _)|(? & _)]; [by left|by right].
  - apply Hfield; [apply (bool_decide_unpack _); by vm_compute|].
    rewrite /task_field Ht1 /=. by lookup_task.
  - apply Hfield; [apply (bool_decide_unpack _); by vm_compute|].
    rewrite /task_field Ht1 /=. by lookup_task.
  - apply Hfield; [apply (bool_decide_unpack _); by vm_compute|].
    rewrite /task_field Ht1 /=. by lookup_task.
  - apply Hfield; [apply (bool_decide_unpack _); by vm_compute|].
    rewrite /task_field Ht1 /=. by lookup_task.
  - assert (Hc : py "created_at"
                 ∉ [py "progress"; py "comment_progress"; py "status";
                    py "completed_at"; py "result"; py "results_path";
                    py "error"])
      by (apply (bool_decide_unpack _); by vm_compute).
    rewrite -(Hkeep _ Hc). by rewrite /task_field Ht.
Qed.

End Pipeline.

(** * The pipeline on concrete inputs *)

Module Demo.

(** Stand-ins for the collaborators: a vector store that finds one passage,
    an embedding model that returns a one-number vector per text, a splitter
    that keeps the text whole, and a completion service that answers
    [answer] to every prompt. The external state counts the calls. *)
Definition search (_ : str) (_ : list Z) (_ : nat) (e : nat)
  : outcome (list Hit) * nat :=
  (Ret [ {| payload_text := py "Раздел 3.2: Описание новой функции." |} ], S e).
Definition recreate_collection (_ : str) (e : nat) : outcome unit * nat :=
  (Ret tt, S e).
Definition upsert_chunks (_ : str) (_ : list (@Chunk (list Z))) (e : nat)
  : outcome unit * nat := (Ret tt, S e).
Definition get_completion (answer : option str) (_ : str) (e : nat)
  : outcome (option str) * nat := (Ret answer, S e).
Definition encode (texts : list str) (_ : str) (e : nat)
  : outcome (list (list Z)) * nat := (Ret (map (fun _ => [1%Z]) texts), S e).
Definition split_text (t : str) : list str := [t].
Definition now (e : nat) : str * nat := (py "2025-01-01T00:00:00", S e).
Definition dump (_ : str) (_ : list AnalysisResult) (e : nat)
  : outcome unit * nat := (Ret tt, S e).

Definition comment : @Comment (list Z) :=
  {| comment_id := py "C1";
     comment_text := py "Добавить раздел 3.2";
     embedding := Some [1%Z] |}.

Definition task_id : str := py "task_0a1b".

Definition task0 : gmap str TaskVal :=
  <[py "status" := TStr (py "processing")]>
    (<[py "progress" := TStr (py "uploading")]>
       (<[py "result" := TNone]> ∅)).

Definition world0 : @World (list Z) nat :=
  {| results_store := <[task_id := task0]> ∅; external := 0; calls := [] |}.

(** The analyzer with these collaborators and the reference decoder. *)
Definition analyze (answer : option str) :=
  analyze_comment search (get_completion answer) Json.loads comment
    (py "report-task_0a1b") world0.

(** A completion that wraps the JSON object in prose. *)
Definition pre : str := Eval vm_compute in py "Конечно! ".
Definition mid : str := Eval vm_compute in pyq
  "'explanation': 'Раздел добавлен.', 'evidence_v1': 'Раздела нет.', 'evidence_v2': 'Раздел 3.2.', 'suggestion': '', 'status': 'учтен'".
Definition post : str := Eval vm_compute in py " Готово.".
Definition wrapped_answer : str := pre ++ (123%N :: mid ++ [125%N]) ++ post.

Definition answer_dict : gmap str PyVal :=
  list_to_map
    [(py "explanation", PyStr (py "Раздел добавлен."));
     (py "evidence_v1", PyStr (py "Раздела нет."));
     (py "evidence_v2", PyStr (py "Раздел 3.2."));
     (py "suggestion", PyStr []);
     (py "status", PyStr (py "учтен"))].

(** A completion whose object is not JSON, one that leaves fields out, and
    one whose status is none of the three verdicts. *)
Definition broken_answer : str := Eval vm_compute in pyq
  "Ответ: {'status': учтен} -- вот.".
Definition partial_answer : str := Eval vm_compute in pyq
  "{'status': 'частично учтен', 'explanation': 'Раздел есть, но без примера.'}".
Definition partial_dict : gmap str PyVal :=
  list_to_map
    [(py "status", PyStr (py "частично учтен"));
     (py "explanation", PyStr (py "Раздел есть, но без примера."))].
Definition odd_answer : str := Eval vm_compute in pyq
  "{'status': 'возможно', 'explanation': 'Не уверен.'}".
Definition odd_dict : gmap str PyVal :=
  list_to_map
    [(py "status", PyStr (py "возможно"));
     (py "explanation", PyStr (py "Не уверен."))].

(** The world once [analyze answer] has run. *)
Definition world_after (answer : option str) := (analyze answer).2.

(** The staged files of the task. *)
Definition doc_v1_path : str := py "uploads/task_0a1b/v1_report.txt".
Definition doc_v2_path : str := py "uploads/task_0a1b/v2_report.txt".
Definition comments_path : str := py "uploads/task_0a1b/comments.txt".

(** A file system that holds only the comments file, with [content]. *)
Definition fs_with (content : str) (p : str) : option (outcome str) :=
  if bool_decide (p = comments_path) then Some (Ret content) else None.

(** Documents that can be read ([readable = true]) or not. *)
Definition load_text (readable : bool) (_ : str) : option str :=
  if readable then Some (py "Раздел 3.2: Описание новой функции.") else None.

(** Three comments files: a blank first line before the only comment, only
    blank lines, and three comments around a blank line. *)
Definition blank_first : str := [10%N] ++ py "foo" ++ [10%N].
Definition blank_only : str := [10%N; 32%N; 9%N; 10%N].
Definition three_comments : str :=
  py "Добавить раздел 3.2" ++ [10%N; 10%N] ++ py "Уточнить сроки" ++ [13%N; 10%N]
  ++ py "  Исправить таблицу 4".

(** [process_documents] with the stand-ins, on the registered task. *)
Definition run (answer : option str) (readable : bool) (comments_file : str)
    (doc_base_name : str) :=
  process_documents search recreate_collection upsert_chunks
    (get_completion answer) Json.loads encode split_text now dump
    (fs_with comments_file) (load_text readable)
    task_id doc_v1_path doc_v2_path comments_path doc_base_name world0.

(** The record of the task after [run]. *)
Definition final_task (answer : option str) (readable : bool)
    (comments_file : str) (doc_base_name : str) : gmap str TaskVal :=
  default ∅ (results_store (run answer readable comments_file doc_base_name).2
             !! task_id).


(** Three more completions: prose without braces, braces the wrong way
    round, and a JSON list. *)
Definition plain_answer : str := Eval vm_compute in py "  Комментарий учтен.  ".
Definition reversed_answer : str := Eval vm_compute in py "} учтен {".
Definition list_answer : str := Eval vm_compute in pyq "['учтен']".

(** A comment that was not embedded, and a completion service that is
    down. *)
Definition bare_comment : @Comment (list Z) :=
  {| comment_id := py "C1";
     comment_text := py "Добавить раздел 3.2";
     embedding := None |}.
Definition timed_out : exn := mkExn ServiceError (py "Request timed out.").
Definition no_completion (_ : str) (e : nat) : outcome (option str) * nat :=
  (Raise timed_out, S e).

(** What the document processor gives for the three comments and for a
    readable document. *)
Definition loaded : list (@Comment (list Z)) :=
  Eval vm_compute in
    default [] (load_comments (fs_with three_comments) comments_path).
Definition embedded : list (@Comment (list Z)) :=
  Eval vm_compute in
    match (process_comments encode (fs_with three_comments) comments_path
             world0).1 with
    | Ret (Some cs) => cs
    | _ => []
    end.
Definition processed : @ProcessedDoc (list Z) :=
  Eval vm_compute in
    match (process_document encode split_text (load_text true) doc_v1_path
             world0).1 with
    | Ret (Some doc) => doc
    | _ => mkDoc [] []
    end.

(** The upload: a registry without tasks, a uuid generator that gives
    [0a1b], and a disk that takes every file ([full = false]) or has no room
    left for the comments file. *)
Definition empty_world : @World (list Z) nat :=
  {| results_store := ∅; external := 0; calls := [] |}.
Definition uuid (e : nat) : str * nat := (py "0a1b", S e).
Definition timestamp (e : nat) : Z * nat := (1735689600%Z, S e).
Definition makedirs (_ : str) (e : nat) : outcome unit * nat := (Ret tt, S e).
Definition save (full : bool) (p : str) (_ : UploadFile) (e : nat)
  : outcome unit * nat :=
  if full && bool_decide (p = comments_path)
  then (Raise (mkExn PlainException (py "[Errno 28] No space left on device")),
        S e)
  else (Ret tt, S e).
Definition rmtree (_ : str) (e : nat) : nat := S e.

Definition upload_v1 : UploadFile :=
  {| filename := py "report.txt"; file_bytes := py "Section 3 is missing." |}.
Definition upload_v2 : UploadFile :=
  {| filename := py "report.txt";
     file_bytes := py "Section 3.2: the new function." |}.
Definition upload_comments : UploadFile :=
  {| filename := py "comments.txt"; file_bytes := py "Add section 3.2" |}.

Definition upload (full : bool) :=
  analyze_documents now timestamp uuid makedirs (save full) rmtree
    upload_v1 upload_v2 upload_comments empty_world.

(** The background task the upload schedules. *)
Definition scheduled : BackgroundTask :=
  {| bg_task_id := task_id;
     bg_doc_v1_path := doc_v1_path;
     bg_doc_v2_path := doc_v2_path;
     bg_comments_path := comments_path;
     bg_doc_base_name := py "report" |}.


End Demo.

Lemma analyze_comment_keeps_comment_witness :
  let r := interpret_completion Json.loads Demo.comment (Some Demo.wrapped_answer) in
  res_comment_id r = comment_id Demo.comment /\
  res_comment_text r = comment_text Demo.comment.
Proof.
  apply (analyze_comment_keeps_comment Demo.search
           (Demo.get_completion (Some Demo.wrapped_answer)) Json.loads
           Demo.comment (py "report-task_0a1b") Demo.world0 _
           (Demo.analyze (Some Demo.wrapped_answer)).2).
  vm_compute. reflexivity.
Defined.

Lemma analyze_comment_wrapped_json_witness :
  candidate_json (Demo.pre ++ (123%N :: Demo.mid ++ [125%N]) ++ Demo.post)
  = 123%N :: Demo.mid ++ [125%N] /\
  exists r,
    analyze_comment Demo.search (Demo.get_completion (Some Demo.wrapped_answer))
      Json.loads Demo.comment (py "report-task_0a1b") Demo.world0
    = (Ret r, Demo.world_after (Some Demo.wrapped_answer)) /\
    (forall v, Demo.answer_dict !! py "explanation" = Some v -> explanation r = v) /\
    (forall v, Demo.answer_dict !! py "evidence_v1" = Some v -> evidence_v1 r = v) /\
    (forall v, Demo.answer_dict !! py "evidence_v2" = Some v -> evidence_v2 r = v) /\
    (forall v, Demo.answer_dict !! py "suggestion" = Some v -> suggestion r = v) /\
    (forall v, Demo.answer_dict !! py "status" = Some v -> status r = v).
Proof.
  apply analyze_comment_wrapped_json.
  - apply (bool_decide_unpack _). vm_compute. reflexivity.
  - apply (bool_decide_unpack _). vm_compute. reflexivity.
  - vm_compute. reflexivity.
  - vm_compute. reflexivity.
Defined.

Lemma analyze_comment_error_status_witness :
  exists r,
    analyze_comment Demo.search (Demo.get_completion (Some Demo.broken_answer))
      Json.loads Demo.comment (py "report-task_0a1b") Demo.world0
    = (Ret r, Demo.world_after (Some Demo.broken_answer)) /\
    status r = PyStr (py "error").
Proof.
  apply (analyze_comment_error_status _ _ _ _ _ _ _ (Some Demo.broken_answer)).
  - vm_compute. reflexivity.
  - right. right. exists Demo.broken_answer. eexists. split; [reflexivity|].
    vm_compute. reflexivity.
Defined.

Lemma analyze_comment_placeholders_witness :
  exists r,
    analyze_comment Demo.search (Demo.get_completion (Some Demo.partial_answer))
      Json.loads Demo.comment (py "report-task_0a1b") Demo.world0
    = (Ret r, Demo.world_after (Some Demo.partial_answer)) /\
    explanation r
    = default (PyStr (py "No explanation provided"))
        (Demo.partial_dict !! py "explanation") /\
    evidence_v1 r
    = default (PyStr (py "No evidence provided"))
        (Demo.partial_dict !! py "evidence_v1") /\
    evidence_v2 r
    = default (PyStr (py "No evidence provided"))
        (Demo.partial_dict !! py "evidence_v2") /\
    suggestion r = default (PyStr []) (Demo.partial_dict !! py "suggestion") /\
    status r = default (PyStr (py "не учтен")) (Demo.partial_dict !! py "status").
Proof.
  apply (analyze_comment_placeholders _ _ _ _ _ _ _ Demo.partial_answer).
  - discriminate.
  - vm_compute. reflexivity.
  - vm_compute. reflexivity.
Defined.

Lemma analyze_comment_parse_failure_witness :
  exists r,
    analyze_comment Demo.search (Demo.get_completion (Some Demo.broken_answer))
      Json.loads Demo.comment (py "report-task_0a1b") Demo.world0
    = (Ret r, Demo.world_after (Some Demo.broken_answer)) /\
    status r = PyStr (py "error") /\
    evidence_v1 r = PyStr (candidate_json Demo.broken_answer) /\
    explanation r
    = PyStr (py "Error analyzing comment: "
             ++ exn_str (mkExn JSONDecodeError (py "Expecting value"))).
Proof.
  apply (analyze_comment_parse_failure _ _ _ _ _ _ _ Demo.broken_answer).
  - discriminate.
  - vm_compute. reflexivity.
  - vm_compute. reflexivity.
Defined.

Lemma analyze_comment_status_verbatim_witness :
  exists r,
    analyze_comment Demo.search (Demo.get_completion (Some Demo.odd_answer))
      Json.loads Demo.comment (py "report-task_0a1b") Demo.world0
    = (Ret r, Demo.world_after (Some Demo.odd_answer)) /\
    status r = PyStr (py "возможно").
Proof.
  apply (analyze_comment_status_verbatim _ _ _ _ _ _ _ Demo.odd_answer
           Demo.odd_dict).
  - discriminate.
  - vm_compute. reflexivity.
  - vm_compute. reflexivity.
  - vm_compute. reflexivity.
  - apply (bool_decide_unpack _). vm_compute. reflexivity.
Defined.

(** C3 as the specification words it fails: in a file whose first line is
    blank and whose second line is a comment, that comment gets the id [C2],
    where the n-th non-blank line rule gives [C1]. *)
Lemma load_comments_ids_counterexample :
  file_lines Demo.blank_first = [[10%N]; py "foo" ++ [10%N]] /\
  exists comments : list (@Comment (list Z)),
    load_comments (Demo.fs_with Demo.blank_first) Demo.comments_path
    = Some comments /\
    map comment_id comments = [py "C2"] /\
    spec_comment_ids (file_lines Demo.blank_first) = [py "C1"] /\
    map comment_id comments <> spec_comment_ids (file_lines Demo.blank_first).
Proof.
  split; [vm_compute; reflexivity|].
  eexists. split_and!; [vm_compute; reflexivity..|].
  vm_compute. discriminate.
Qed.

Lemma load_comments_line_numbers_witness :
  exists path content,
    resolve_path (Demo.fs_with Demo.blank_first) Demo.comments_path = Some path /\
    Demo.fs_with Demo.blank_first path = Some (Ret content) /\
    forall k (c : @Comment (list Z)),
      [ {| comment_id := py "C2"; comment_text := py "foo"; embedding := None |} ]
        !! k = Some c <->
      exists j line,
        file_lines content !! j = Some line /\ nonblank line /\
        k = length (filter nonblank (take j (file_lines content))) /\
        c = {| comment_id := py "C" ++ str_of_nat (j + 1);
               comment_text := strip line;
               embedding := None |}.
Proof.
  apply (load_comments_line_numbers (Demo.fs_with Demo.blank_first)
           Demo.comments_path).
  vm_compute. reflexivity.
Defined.

(** C8 as the specification words it fails: a document name that starts
    with the v1 prefix twice keeps one of them, and the v1 collection is
    named with two prefixes. *)
Lemma collection_names_counterexample :
  has_version_prefix (py "doc_v1_doc_v1_report") = true /\
  clean_base_name (py "doc_v1_doc_v1_report") = py "doc_v1_report" /\
  v1_collection (py "doc_v1_doc_v1_report") Demo.task_id
  = py "doc_v1_doc_v1_report-task_0a1b" /\
  double_prefixed (v1_collection (py "doc_v1_doc_v1_report") Demo.task_id)
  = true.
Proof. split_and!; vm_compute; reflexivity. Qed.

Lemma collection_names_witness :
  clean_base_name (py "doc_v2_report") = py "report" /\
  double_prefixed (v1_collection (py "doc_v2_report") Demo.task_id) = false /\
  double_prefixed (v2_collection (py "doc_v2_report") Demo.task_id) = false.
Proof.
  destruct (collection_names (py "doc_v2_report") Demo.task_id)
    as (_ & _ & _ & _ & _ & _ & H).
  apply (H settings.QDRANT_COLLECTION_V2_PREFIX (py "report")).
  - right. left.
  - vm_compute. reflexivity.
  - vm_compute. reflexivity.
Defined.

Lemma completed_report_matches_comments_witness :
  exists (comments : list (@Comment (list Z))) results,
    load_comments (Demo.fs_with Demo.three_comments) Demo.comments_path
    = Some comments /\
    Demo.final_task (Some Demo.wrapped_answer) true Demo.three_comments
      (py "report") !! py "result" = Some (TResults results) /\
    length results = length comments /\
    Forall2 (fun r c => res_comment_id r = comment_id c /\
                        res_comment_text r = comment_text c)
      results comments /\
    NoDup (map res_comment_id results).
Proof.
  apply (completed_report_matches_comments
           Demo.search Demo.recreate_collection Demo.upsert_chunks
           (Demo.get_completion (Some Demo.wrapped_answer)) Json.loads
           Demo.encode Demo.split_text Demo.now Demo.dump
           (Demo.fs_with Demo.three_comments) (Demo.load_text true)
           Demo.task_id Demo.doc_v1_path Demo.doc_v2_path Demo.comments_path
           (py "report") Demo.world0
           (Demo.run (Some Demo.wrapped_answer) true Demo.three_comments
              (py "report")).1
           (Demo.run (Some Demo.wrapped_answer) true Demo.three_comments
              (py "report")).2).
  - apply surjective_pairing.
  - vm_compute. reflexivity.
  - vm_compute. reflexivity.
Defined.

(** C7 as the specification words it fails: when the first document cannot
    be read, a task whose comments file holds only blank lines ends with the
    message about document v1, not with one about comments. *)
Lemma no_comments_message_counterexample :
  Forall (fun l => nonblank l = false) (file_lines Demo.blank_only) /\
  (Demo.run (Some Demo.wrapped_answer) false Demo.blank_only (py "report")).1
  = Ret tt /\
  results_store
    (Demo.run (Some Demo.wrapped_answer) false Demo.blank_only (py "report")).2
    !! Demo.task_id
  = Some (Demo.final_task (Some Demo.wrapped_answer) false Demo.blank_only
            (py "report")) /\
  Demo.final_task (Some Demo.wrapped_answer) false Demo.blank_only (py "report")
    !! py "status" = Some (TStr (py "error")) /\
  Demo.final_task (Some Demo.wrapped_answer) false Demo.blank_only (py "report")
    !! py "error" = Some (TStr (v1_failure Demo.doc_v1_path)) /\
  v1_failure Demo.doc_v1_path <> comments_failure Demo.comments_path.
Proof.
  split.
  - apply (bool_decide_unpack _). vm_compute. reflexivity.
  - split_and!; [vm_compute; reflexivity..|].
    vm_compute. discriminate.
Qed.

Lemma no_comments_task_fails_witness :
  exists w' t,
    Demo.run (Some Demo.wrapped_answer) true Demo.blank_only (py "report")
    = (Ret tt, w') /\
    results_store w' !! Demo.task_id = Some t /\
    t !! py "status" = Some (TStr (py "error")) /\
    t !! py "error" = Some (TStr (comments_failure Demo.comments_path)) /\
    Forall (fun c => is_vector_store_call c = false) (calls w').
Proof.
  destruct (no_comments_task_fails
              Demo.search Demo.recreate_collection Demo.upsert_chunks
              (Demo.get_completion (Some Demo.wrapped_answer)) Json.loads
              Demo.encode Demo.split_text Demo.now Demo.dump
              (Demo.fs_with Demo.blank_only) (Demo.load_text true)
              Demo.task_id Demo.doc_v1_path Demo.doc_v2_path
              Demo.comments_path (py "report") Demo.world0 Demo.task0
              Demo.comments_path Demo.blank_only)
    as (w' & t & msg & extra & Hrun & Ht & Hst & _ & Herr & _ & Hcalls & Hextra
        & Hok & _).
  - vm_compute. reflexivity.
  - vm_compute. reflexivity.
  - vm_compute. reflexivity.
  - apply (bool_decide_unpack _). vm_compute. reflexivity.
  - exists w', t. split_and!; [exact Hrun|exact Ht|exact Hst| |].
    + rewrite Herr. do 2 f_equal. apply (Hok 1 2).
      * eexists _, _. split_and!; [reflexivity|discriminate|reflexivity|].
        vm_compute. discriminate.
      * eexists _, _. split_and!; [reflexivity|discriminate|reflexivity|].
        vm_compute. discriminate.
    + rewrite Hcalls. exact Hextra.
Defined.

(** ** The further properties on concrete inputs *)

Lemma candidate_json_no_braces_witness :
  candidate_json Demo.plain_answer = strip Demo.plain_answer.
Proof.
  apply (candidate_json_no_braces Demo.plain_answer). left.
  apply (bool_decide_unpack _). vm_compute. reflexivity.
Defined.

Lemma candidate_json_reversed_braces_witness :
  candidate_json Demo.reversed_answer = [].
Proof.
  apply (candidate_json_reversed_braces Demo.reversed_answer
           [] (py " учтен ") []).
  - vm_compute. reflexivity.
  - apply (bool_decide_unpack _). vm_compute. reflexivity.
  - apply (bool_decide_unpack _). vm_compute. reflexivity.
  - apply (bool_decide_unpack _). vm_compute. reflexivity.
  - apply (bool_decide_unpack _). vm_compute. reflexivity.
Defined.

Lemma analyze_comment_not_object_witness :
  exists r,
    analyze_comment Demo.search (Demo.get_completion (Some Demo.list_answer))
      Json.loads Demo.comment (py "report-task_0a1b") Demo.world0
    = (Ret r, Demo.world_after (Some Demo.list_answer)) /\
    status r = PyStr (py "error") /\
    evidence_v1 r = PyStr (candidate_json Demo.list_answer) /\
    explanation r
    = PyStr (py "Error analyzing comment: "
             ++ py "'" ++ type_name (PyList [PyStr (py "учтен")])
             ++ py "' object has no attribute 'get'").
Proof.
  apply (analyze_comment_not_object Demo.search
           (Demo.get_completion (Some Demo.list_answer)) Json.loads
           Demo.comment (py "report-task_0a1b") Demo.world0
           (Demo.world_after (Some Demo.list_answer)) Demo.list_answer
           (PyList [PyStr (py "учтен")])).
  - discriminate.
  - vm_compute. reflexivity.
  - vm_compute. reflexivity.
  - intros d. discriminate.
Defined.

Lemma analyze_comment_empty_completion_witness :
  analyze_comment Demo.search (Demo.get_completion None) Json.loads
    Demo.comment (py "report-task_0a1b") Demo.world0
  = (Ret {| res_comment_id := comment_id Demo.comment;
            res_comment_text := comment_text Demo.comment;
            explanation := PyStr (py "Error analyzing comment (Unknown)");
            evidence_v1 := PyStr [];
            evidence_v2 := PyStr [];
            suggestion := PyStr [];
            status := PyStr (py "error") |}, Demo.world_after None).
Proof.
  apply (analyze_comment_empty_completion Demo.search
           (Demo.get_completion None) Json.loads Demo.comment
           (py "report-task_0a1b") Demo.world0 (Demo.world_after None) None).
  - vm_compute. reflexivity.
  - left. reflexivity.
Defined.

Lemma analyze_comment_calls_witness :
  exists q h1 e1 h2 e2 resp,
    embedding Demo.comment = Some q /\
    Demo.search (settings.QDRANT_COLLECTION_V1_PREFIX ++ py "report-task_0a1b")
      q 10 (external Demo.world0) = (Ret h1, e1) /\
    Demo.search (settings.QDRANT_COLLECTION_V2_PREFIX ++ py "report-task_0a1b")
      q 10 e1 = (Ret h2, e2) /\
    Demo.get_completion (Some Demo.wrapped_answer)
      (build_prompt Demo.comment (evidence_text h1) (evidence_text h2)) e2
    = (Ret resp, external (Demo.world_after (Some Demo.wrapped_answer))) /\
    interpret_completion Json.loads Demo.comment (Some Demo.wrapped_answer)
    = interpret_completion Json.loads Demo.comment resp /\
    results_store (Demo.world_after (Some Demo.wrapped_answer))
    = results_store Demo.world0 /\
    calls (Demo.world_after (Some Demo.wrapped_answer))
    = calls Demo.world0
      ++ [CallSearch
            (settings.QDRANT_COLLECTION_V1_PREFIX ++ py "report-task_0a1b") q 10;
          CallSearch
            (settings.QDRANT_COLLECTION_V2_PREFIX ++ py "report-task_0a1b") q 10;
          CallGetCompletion
            (build_prompt Demo.comment (evidence_text h1) (evidence_text h2))].
Proof.
  apply (analyze_comment_calls Demo.search
           (Demo.get_completion (Some Demo.wrapped_answer)) Json.loads
           Demo.comment (py "report-task_0a1b") Demo.world0
           (interpret_completion Json.loads Demo.comment
              (Some Demo.wrapped_answer))
           (Demo.world_after (Some Demo.wrapped_answer))).
  vm_compute. reflexivity.
Defined.

Lemma analyze_comment_without_embedding_witness :
  analyze_comment Demo.search (Demo.get_completion (Some Demo.wrapped_answer))
    Json.loads Demo.bare_comment (py "report-task_0a1b") Demo.world0
  = (Raise (mkExn KeyError (py "'embedding'")), Demo.world0).
Proof.
  apply (analyze_comment_without_embedding Demo.search
           (Demo.get_completion (Some Demo.wrapped_answer)) Json.loads
           Demo.bare_comment (py "report-task_0a1b") Demo.world0).
  reflexivity.
Defined.

Lemma analyze_comment_raises_witness :
  let w' := (analyze_comment Demo.search Demo.no_completion Json.loads
               Demo.comment (py "report-task_0a1b") Demo.world0).2 in
  (embedding Demo.comment = None /\
   Demo.timed_out = mkExn KeyError (py "'embedding'") /\ w' = Demo.world0)
  \/
  exists q,
    embedding Demo.comment = Some q /\
    (Demo.search (settings.QDRANT_COLLECTION_V1_PREFIX ++ py "report-task_0a1b")
       q 10 (external Demo.world0) = (Raise Demo.timed_out, external w')
     \/
     exists h1 e1,
       Demo.search
         (settings.QDRANT_COLLECTION_V1_PREFIX ++ py "report-task_0a1b") q 10
         (external Demo.world0) = (Ret h1, e1) /\
       (Demo.search
          (settings.QDRANT_COLLECTION_V2_PREFIX ++ py "report-task_0a1b") q 10
          e1 = (Raise Demo.timed_out, external w')
        \/
        exists h2 e2,
          Demo.search
            (settings.QDRANT_COLLECTION_V2_PREFIX ++ py "report-task_0a1b")
            q 10 e1 = (Ret h2, e2) /\
          Demo.no_completion
            (build_prompt Demo.comment (evidence_text h1) (evidence_text h2)) e2
          = (Raise Demo.timed_out, external w'))).
Proof.
  apply (analyze_comment_raises Demo.search Demo.no_completion Json.loads
           Demo.comment (py "report-task_0a1b") Demo.world0 Demo.timed_out
           (analyze_comment Demo.search Demo.no_completion Json.loads
              Demo.comment (py "report-task_0a1b") Demo.world0).2).
  vm_compute. reflexivity.
Defined.

Lemma load_comments_shape_witness :
  exists path content,
    resolve_path (Demo.fs_with Demo.three_comments) Demo.comments_path
    = Some path /\
    Demo.fs_with Demo.three_comments path = Some (Ret content) /\
    length Demo.loaded = length (filter nonblank (file_lines content)) /\
    Forall (fun c : @Comment (list Z) =>
              comment_text c <> [] /\
              strip (comment_text c) = comment_text c /\
              embedding c = None) Demo.loaded.
Proof.
  apply (load_comments_shape (Demo.fs_with Demo.three_comments)
           Demo.comments_path Demo.loaded).
  vm_compute. reflexivity.
Defined.

Lemma process_comments_embeddings_witness :
  exists loaded : list (@Comment (list Z)),
    load_comments (Demo.fs_with Demo.three_comments) Demo.comments_path
    = Some loaded /\
    length Demo.embedded = length loaded /\
    map comment_id Demo.embedded = map comment_id loaded /\
    map comment_text Demo.embedded = map comment_text loaded /\
    (loaded = [] \/
     exists embeddings,
       Demo.encode (map comment_text loaded) (py "search_query: ")
         (external Demo.world0)
       = (Ret embeddings,
          external (process_comments Demo.encode
                      (Demo.fs_with Demo.three_comments) Demo.comments_path
                      Demo.world0).2) /\
       forall k c, Demo.embedded !! k = Some c -> embedding c = embeddings !! k).
Proof.
  apply (process_comments_embeddings Demo.encode
           (Demo.fs_with Demo.three_comments) Demo.comments_path Demo.world0
           Demo.embedded
           (process_comments Demo.encode (Demo.fs_with Demo.three_comments)
              Demo.comments_path Demo.world0).2).
  vm_compute. reflexivity.
Defined.

Lemma process_document_chunks_witness :
  let w' := (process_document Demo.encode Demo.split_text (Demo.load_text true)
               Demo.doc_v1_path Demo.world0).2 in
  Demo.load_text true Demo.doc_v1_path = Some (original_text Demo.processed) /\
  original_text Demo.processed <> [] /\
  map chunk_index (chunks Demo.processed)
  = seq 0 (length (chunks Demo.processed)) /\
  map text (chunks Demo.processed)
  = take (length (chunks Demo.processed))
      (Demo.split_text (original_text Demo.processed)) /\
  (chunks Demo.processed = [] \/
   exists embeddings,
     Demo.encode (Demo.split_text (original_text Demo.processed))
       (py "search_document: ") (external Demo.world0)
     = (Ret embeddings, external w') /\
     map chunk_embedding (chunks Demo.processed)
     = take (length (chunks Demo.processed)) embeddings /\
     length (chunks Demo.processed)
     = Nat.min (length (Demo.split_text (original_text Demo.processed)))
         (length embeddings)).
Proof.
  apply (process_document_chunks Demo.encode Demo.split_text
           (Demo.load_text true) Demo.doc_v1_path Demo.world0 Demo.processed
           (process_document Demo.encode Demo.split_text (Demo.load_text true)
              Demo.doc_v1_path Demo.world0).2).
  vm_compute. reflexivity.
Defined.

Lemma process_documents_terminal_witness :
  exists w' t now,
    Demo.run None false Demo.three_comments (py "report") = (Ret tt, w') /\
    results_store w' !! Demo.task_id = Some t /\
    t !! py "completed_at" = Some (TStr now) /\
    ((t !! py "status" = Some (TStr (py "completed")) /\
      t !! py "progress" = Some (TStr (py "completed")) /\
      exists results, results <> [] /\
                      t !! py "result" = Some (TResults results))
     \/
     (t !! py "status" = Some (TStr (py "error")) /\
      t !! py "progress" = Some (TStr (py "error")) /\
      exists e w1,
        process_documents_body Demo.search Demo.recreate_collection
          Demo.upsert_chunks (Demo.get_completion None) Json.loads Demo.encode
          Demo.split_text Demo.now Demo.dump (Demo.fs_with Demo.three_comments)
          (Demo.load_text false) Demo.task_id Demo.doc_v1_path Demo.doc_v2_path
          Demo.comments_path (py "report") Demo.world0 = (Raise e, w1) /\
        t !! py "error" = Some (TStr (exn_str e)))).
Proof.
  apply (process_documents_terminal
           Demo.search Demo.recreate_collection Demo.upsert_chunks
           (Demo.get_completion None) Json.loads Demo.encode Demo.split_text
           Demo.now Demo.dump (Demo.fs_with Demo.three_comments)
           (Demo.load_text false) Demo.task_id Demo.doc_v1_path
           Demo.doc_v2_path Demo.comments_path (py "report") Demo.world0
           Demo.task0).
  vm_compute. reflexivity.
Defined.


Lemma process_documents_writes_witness :
  let w' := (Demo.run (Some Demo.wrapped_answer) true Demo.three_comments
               (py "report")).2 in
  (forall other, other <> Demo.task_id ->
                 results_store w' !! other = results_store Demo.world0 !! other) /\
  (is_Some (results_store w' !! Demo.task_id) <->
   is_Some (results_store Demo.world0 !! Demo.task_id)) /\
  (forall key,
     key ∉ [py "progress"; py "comment_progress"; py "status";
            py "completed_at"; py "result"; py "results_path"; py "error"] ->
     task_field w' Demo.task_id key = task_field Demo.world0 Demo.task_id key).
Proof.
  apply (process_documents_writes
           Demo.search Demo.recreate_collection Demo.upsert_chunks
           (Demo.get_completion (Some Demo.wrapped_answer)) Json.loads
           Demo.encode Demo.split_text Demo.now Demo.dump
           (Demo.fs_with Demo.three_comments) (Demo.load_text true)
           Demo.task_id Demo.doc_v1_path Demo.doc_v2_path Demo.comments_path
           (py "report") Demo.world0 (Ret tt)
           (Demo.run (Some Demo.wrapped_answer) true Demo.three_comments
              (py "report")).2).
  vm_compute. reflexivity.
Defined.

Lemma failed_task_keeps_no_result_witness :
  task_field
    (Demo.run (Some Demo.wrapped_answer) false Demo.three_comments
       (py "report")).2 Demo.task_id (py "result")
  = task_field Demo.world0 Demo.task_id (py "result").
Proof.
  apply (failed_task_keeps_no_result
           Demo.search Demo.recreate_collection Demo.upsert_chunks
           (Demo.get_completion (Some Demo.wrapped_answer)) Json.loads
           Demo.encode Demo.split_text Demo.now Demo.dump
           (Demo.fs_with Demo.three_comments) (Demo.load_text false)
           Demo.task_id Demo.doc_v1_path Demo.doc_v2_path Demo.comments_path
           (py "report") Demo.world0 (Ret tt)
           (Demo.run (Some Demo.wrapped_answer) false Demo.three_comments
              (py "report")).2
           (Demo.final_task (Some Demo.wrapped_answer) false
              Demo.three_comments (py "report"))).
  - vm_compute. reflexivity.
  - vm_compute. reflexivity.
  - vm_compute. reflexivity.
  - apply (bool_decide_unpack _). vm_compute. reflexivity.
Defined.

Lemma completed_run_calls_witness :
  let w' := (Demo.run (Some Demo.wrapped_answer) true Demo.three_comments
               (py "report")).2 in
  let t := Demo.final_task (Some Demo.wrapped_answer) true Demo.three_comments
             (py "report") in
  exists text1 text2 (loaded : list (@Comment (list Z)))
         embs1 embs2 embs3 e1 e2 e3 results groups,
    Demo.load_text true Demo.doc_v1_path = Some text1 /\
    Demo.load_text true Demo.doc_v2_path = Some text2 /\
    load_comments (Demo.fs_with Demo.three_comments) Demo.comments_path
    = Some loaded /\
    Demo.encode (Demo.split_text text1) (py "search_document: ")
      (external Demo.world0) = (Ret embs1, e1) /\
    Demo.encode (Demo.split_text text2) (py "search_document: ") e1
    = (Ret embs2, e2) /\
    Demo.encode (map comment_text loaded) (py "search_query: ") e2
    = (Ret embs3, e3) /\
    make_chunks 0 (Demo.split_text text1) embs1 <> [] /\
    make_chunks 0 (Demo.split_text text2) embs2 <> [] /\
    loaded <> [] /\
    Forall2 (fun r c => res_comment_id r = comment_id c /\
                        res_comment_text r = comment_text c)
      results (set_embeddings loaded embs3) /\
    Forall2 (comment_calls (clean_base_name (py "report") ++ py "-"
                            ++ Demo.task_id))
      (set_embeddings loaded embs3) groups /\
    calls w'
    = calls Demo.world0
      ++ [CallEncode (Demo.split_text text1) (py "search_document: ");
          CallEncode (Demo.split_text text2) (py "search_document: ");
          CallEncode (map comment_text loaded) (py "search_query: ");
          CallRecreateCollection (v1_collection (py "report") Demo.task_id);
          CallUpsertChunks (v1_collection (py "report") Demo.task_id)
            (make_chunks 0 (Demo.split_text text1) embs1);
          CallRecreateCollection (v2_collection (py "report") Demo.task_id);
          CallUpsertChunks (v2_collection (py "report") Demo.task_id)
            (make_chunks 0 (Demo.split_text text2) embs2)]
      ++ concat groups
      ++ [CallWriteResults (py "results/results_" ++ Demo.task_id ++ py ".json")
            results;
          CallNow] /\
    t !! py "result" = Some (TResults results) /\
    t !! py "results_path"
    = Some (TStr (py "results/results_" ++ Demo.task_id ++ py ".json")).
Proof.
  apply (completed_run_calls
           Demo.search Demo.recreate_collection Demo.upsert_chunks
           (Demo.get_completion (Some Demo.wrapped_answer)) Json.loads
           Demo.encode Demo.split_text Demo.now Demo.dump
           (Demo.fs_with Demo.three_comments) (Demo.load_text true)
           Demo.task_id Demo.doc_v1_path Demo.doc_v2_path Demo.comments_path
           (py "report") Demo.world0 (Ret tt)
           (Demo.run (Some Demo.wrapped_answer) true Demo.three_comments
              (py "report")).2
           (Demo.final_task (Some Demo.wrapped_answer) true
              Demo.three_comments (py "report"))).
  - vm_compute. reflexivity.
  - vm_compute. reflexivity.
  - vm_compute. reflexivity.
Defined.

Lemma get_status_effect_witness :
  calls Demo.world0 = calls Demo.world0 /\
  external Demo.world0 = external Demo.world0 /\
  (forall other, other <> Demo.task_id ->
                 results_store Demo.world0 !! other
                 = results_store Demo.world0 !! other) /\
  (forall key, key <> py "results_url" ->
               task_field Demo.world0 Demo.task_id key
               = task_field Demo.world0 Demo.task_id key) /\
  (results_store Demo.world0 !! Demo.task_id = None <->
   (inr Demo.task0 : endpoint_error + gmap str TaskVal)
   = inl (HTTPException 404 (py "Task not found"))) /\
  (forall t s,
     results_store Demo.world0 !! Demo.task_id = Some t ->
     t !! py "status" = Some s ->
     s <> TStr (py "completed") ->
     (inr Demo.task0 : endpoint_error + gmap str TaskVal) = inr t /\
     Demo.world0 = Demo.world0).
Proof.
  apply (get_status_effect Demo.task_id Demo.world0 (inr Demo.task0)
           Demo.world0).
  vm_compute. reflexivity.
Defined.

Lemma get_status_after_completed_witness :
  let w' := (Demo.run (Some Demo.wrapped_answer) true Demo.three_comments
               (py "report")).2 in
  let t := Demo.final_task (Some Demo.wrapped_answer) true Demo.three_comments
             (py "report") in
  exists w'',
    get_status Demo.task_id w'
    = (inr (<[py "results_url"
              := TStr (py "/results/results_" ++ Demo.task_id ++ py ".json")]>
              t),
       w'') /\
    results_store w'' !! Demo.task_id
    = Some (<[py "results_url"
              := TStr (py "/results/results_" ++ Demo.task_id ++ py ".json")]>
              t) /\
    get_status Demo.task_id w''
    = (inr (<[py "results_url"
              := TStr (py "/results/results_" ++ Demo.task_id ++ py ".json")]>
              t),
       w'').
Proof.
  apply (get_status_after_completed
           Demo.search Demo.recreate_collection Demo.upsert_chunks
           (Demo.get_completion (Some Demo.wrapped_answer)) Json.loads
           Demo.encode Demo.split_text Demo.now Demo.dump
           (Demo.fs_with Demo.three_comments) (Demo.load_text true)
           Demo.task_id Demo.doc_v1_path Demo.doc_v2_path Demo.comments_path
           (py "report") Demo.world0 (Ret tt)
           (Demo.run (Some Demo.wrapped_answer) true Demo.three_comments
              (py "report")).2
           (Demo.final_task (Some Demo.wrapped_answer) true
              Demo.three_comments (py "report"))).
  - vm_compute. reflexivity.
  - vm_compute. reflexivity.
  - vm_compute. reflexivity.
  - apply (bool_decide_unpack _). vm_compute. reflexivity.
Defined.

Lemma analyze_documents_registers_witness :
  exists hex now ts e1 e2 e3 e4 e5 e6,
    Demo.uuid (external Demo.empty_world) = (hex, e1) /\
    Demo.makedirs (path_join (py "uploads") (py "task_" ++ hex)) e1
    = (Ret tt, e2) /\
    Demo.save false (bg_doc_v1_path Demo.scheduled) Demo.upload_v1 e2
    = (Ret tt, e3) /\
    Demo.save false (bg_doc_v2_path Demo.scheduled) Demo.upload_v2 e3
    = (Ret tt, e4) /\
    Demo.save false (bg_comments_path Demo.scheduled) Demo.upload_comments e4
    = (Ret tt, e5) /\
    Demo.now e5 = (now, e6) /\
    Demo.timestamp e6 = (ts, external (Demo.upload false).2) /\
    bg_task_id Demo.scheduled = py "task_" ++ hex /\
    bg_doc_base_name Demo.scheduled
    = (splitext (basename (filename Demo.upload_v1))).1 /\
    results_store (Demo.upload false).2
    = <[py "task_" ++ hex :=
          fold_left (fun t kv => <[kv.1 := kv.2]> t)
            [(py "status", TStr (py "processing"));
             (py "created_at", TStr now);
             (py "doc_v1", TStr (filename Demo.upload_v1));
             (py "doc_v2", TStr (filename Demo.upload_v2));
             (py "comments", TStr (filename Demo.upload_comments));
             (py "base_name", TStr (bg_doc_base_name Demo.scheduled));
             (py "progress", TStr (py "uploading"));
             (py "result", TNone);
             (py "results_path", TNone)] ∅]> (results_store Demo.empty_world) /\
    calls (Demo.upload false).2 = calls Demo.empty_world ++ [CallNow; CallNow] /\
    (47%N ∉ hex ->
     bg_doc_v1_path Demo.scheduled
     = py "uploads/task_" ++ hex ++ py "/v1_" ++ filename Demo.upload_v1 /\
     bg_doc_v2_path Demo.scheduled
     = py "uploads/task_" ++ hex ++ py "/v2_" ++ filename Demo.upload_v2 /\
     bg_comments_path Demo.scheduled
     = if startswith (filename Demo.upload_comments) (py "/")
       then filename Demo.upload_comments
       else py "uploads/task_" ++ hex ++ py "/"
            ++ filename Demo.upload_comments).
Proof.
  apply (analyze_documents_registers Demo.now Demo.timestamp Demo.uuid
           Demo.makedirs (Demo.save false) Demo.rmtree Demo.upload_v1
           Demo.upload_v2 Demo.upload_comments Demo.empty_world Demo.scheduled
           (Demo.upload false).2).
  vm_compute. reflexivity.
Defined.

Lemma analyze_documents_failure_witness :
  let o : outcome (endpoint_error + BackgroundTask) :=
    Ret (inl (HTTPException 500
                (py "Failed to save file " ++ py "comments.txt" ++ py ": "
                 ++ py "[Errno 28] No space left on device"))) in
  results_store (Demo.upload true).2 = results_store Demo.empty_world /\
  calls (Demo.upload true).2 = calls Demo.empty_world /\
  ((exists e, o = Raise e) \/
   exists name msg,
     name ∈ [filename Demo.upload_v1; filename Demo.upload_v2;
             filename Demo.upload_comments] /\
     o = Ret (inl (HTTPException 500
                     (py "Failed to save file " ++ name ++ py ": " ++ msg)))).
Proof.
  apply (analyze_documents_failure Demo.now Demo.timestamp Demo.uuid
           Demo.makedirs
           (Demo.save true) Demo.rmtree Demo.upload_v1 Demo.upload_v2
           Demo.upload_comments Demo.empty_world
           (Ret (inl (HTTPException 500
                        (py "Failed to save file " ++ py "comments.txt"
                         ++ py ": "
                         ++ py "[Errno 28] No space left on device"))))
           (Demo.upload true).2).
  - vm_compute. reflexivity.
  - intros bg. discriminate.
Defined.

Lemma upload_then_process_witness :
  exists w2 t,
    process_documents Demo.search Demo.recreate_collection Demo.upsert_chunks
      (Demo.get_completion (Some Demo.wrapped_answer)) Json.loads Demo.encode
      Demo.split_text Demo.now Demo.dump (Demo.fs_with Demo.three_comments)
      (Demo.load_text true)
      (bg_task_id Demo.scheduled) (bg_doc_v1_path Demo.scheduled)
      (bg_doc_v2_path Demo.scheduled) (bg_comments_path Demo.scheduled)
      (bg_doc_base_name Demo.scheduled) (Demo.upload false).2 = (Ret tt, w2) /\
    results_store w2 !! bg_task_id Demo.scheduled = Some t /\
    (t !! py "status" = Some (TStr (py "completed")) \/
     t !! py "status" = Some (TStr (py "error"))) /\
    t !! py "doc_v1" = Some (TStr (filename Demo.upload_v1)) /\
    t !! py "doc_v2" = Some (TStr (filename Demo.upload_v2)) /\
    t !! py "comments" = Some (TStr (filename Demo.upload_comments)) /\
    t !! py "base_name" = Some (TStr (bg_doc_base_name Demo.scheduled)) /\
    t !! py "created_at"
    = task_field (Demo.upload false).2 (bg_task_id Demo.scheduled)
        (py "created_at").
Proof.
  apply (upload_then_process
           Demo.search Demo.recreate_collection Demo.upsert_chunks
           (Demo.get_completion (Some Demo.wrapped_answer)) Json.loads
           Demo.encode Demo.split_text Demo.now Demo.dump
           (Demo.fs_with Demo.three_comments) (Demo.load_text true)
           Demo.timestamp Demo.uuid Demo.makedirs (Demo.save false)
           Demo.rmtree
           Demo.upload_v1 Demo.upload_v2 Demo.upload_comments
           Demo.empty_world Demo.scheduled (Demo.upload false).2).
  vm_compute. reflexivity.
Defined.
